(** * vtkDataReader: the legacy VTK data-file reader

    A shallow embedding of [IO/Legacy/vtkDataReader.cxx].  The C++ reader
    is a class whose member functions pull bytes from [this->IS], a
    [std::istream], and populate arrays and attribute containers.  Here

    - a byte is a [Z] in [0, 255]; a C string (a [char] buffer read up to
      its terminating NUL) is the [list Z] of the bytes before the NUL;
    - the input stream is a record holding the whole buffer, the get
      position and the [eofbit]/[failbit] flags, and every stream operation
      is a function on that record, written after the C++ standard's
      description of [std::istream] (the in-memory stream that
      [OpenVTKFile] builds for [ReadFromInputString]);
    - member functions that only use [this->IS] and [this->FileType] run in
      a state monad over the stream; those that use the reader's
      configuration run in the same monad over the [vtkDataReader] record;
    - an execution either returns, or has no result that C++ defines
      (a read of an indeterminate variable, an access past a terminator,
      an exception that nothing catches), or loops for ever; the three
      outcomes are kept apart. *)

From Stdlib Require Import String Ascii.
From Stdlib Require Import ZArith List Bool Lia.
From Stdlib Require Import QArith Qround Lqa.
From Stdlib Require Import Floats.SpecFloat.
Import ListNotations.
Open Scope Z_scope.

(* ================================================================== *)
(** * Part I: the embedding *)
(* ================================================================== *)

(** ** Bytes and C strings *)

Definition bytes_of (s : string) : list Z :=
  map (fun a => Z.of_nat (nat_of_ascii a)) (list_ascii_of_string s).
Arguments bytes_of s%_string.

Fixpoint bytes_eqb (a b : list Z) : bool :=
  match a, b with
  | [], [] => true
  | x :: a', y :: b' => (x =? y) && bytes_eqb a' b'
  | _, _ => false
  end.

(** The C string held by a buffer: the bytes before the first NUL. *)
Fixpoint cstr (l : list Z) : list Z :=
  match l with
  | [] => []
  | c :: t => if c =? 0 then [] else c :: cstr t
  end.

(** [strcmp(a, b) == 0] and [strncmp(a, b, n) == 0] on C strings. *)
Definition strcmp0 (a b : list Z) : bool := bytes_eqb a b.
Definition strncmp0 (a b : list Z) (n : nat) : bool :=
  bytes_eqb (firstn n a) (firstn n b).

(** [tolower] in the "C" locale, which [OpenVTKFile] installs. *)
Definition tolower (c : Z) : Z :=
  if (65 <=? c) && (c <=? 90) then c + 32 else c.

(** [isspace] in the "C" locale: space, and \t \n \v \f \r. *)
Definition isspace (c : Z) : bool :=
  (c =? 32) || ((9 <=? c) && (c <=? 13)).

Definition isdigit (c : Z) : bool := (48 <=? c) && (c <=? 57).

(** vtkDataReader::LowerCase (lines 3424-3434): lower-cases the first
    [len] characters of the string, in place.  The header declares the
    default [len = 256]. *)
Definition LowerCase (str : list Z) (len : nat) : list Z :=
  map tolower (firstn len str) ++ skipn len str.

Definition LowerCase_default : nat := 256%nat.

(** Longest prefix of at most [n] elements that all satisfy [p], and what
    follows it. *)
Fixpoint span_n (n : nat) (p : Z -> bool) (l : list Z) : list Z * list Z :=
  match n, l with
  | S n', c :: t =>
      if p c then let (a, b) := span_n n' p t in (c :: a, b) else ([], l)
  | _, _ => ([], l)
  end.

Definition span (p : Z -> bool) (l : list Z) : list Z * list Z :=
  span_n (length l) p l.

(** ** Outcomes and the state monad *)

Inductive outcome (A : Type) : Type :=
| Ret (a : A)      (* the call returns *)
| Undefined        (* no defined behaviour, or an uncaught exception *)
| Diverges.        (* the call never returns *)
Arguments Ret {A} a.
Arguments Undefined {A}.
Arguments Diverges {A}.

Definition ST (S A : Type) : Type := S -> outcome (A * S).

Definition ret {S A} (a : A) : ST S A := fun s => Ret (a, s).

Definition bind {S A B} (m : ST S A) (k : A -> ST S B) : ST S B :=
  fun s =>
    match m s with
    | Ret (a, s') => k a s'
    | Undefined => Undefined
    | Diverges => Diverges
    end.

Definition undefined {S A} : ST S A := fun _ => Undefined.
Definition diverges {S A} : ST S A := fun _ => Diverges.

Declare Scope st_scope.
Delimit Scope st_scope with st.
Notation "x <- m ;; k" := (bind m (fun x => k))
  (at level 61, m at next level, right associativity) : st_scope.
Notation "' p <- m ;; k" := (bind m (fun p => k))
  (at level 61, p pattern, m at next level, right associativity) : st_scope.
Notation "m ;;; k" := (bind m (fun _ => k))
  (at level 61, right associativity) : st_scope.
Open Scope st_scope.

(** A total operation on the state, as a monadic action. *)
Definition lift {S A} (f : S -> A * S) : ST S A := fun s => Ret (f s).
Definition modify {S} (f : S -> S) : ST S unit := fun s => Ret (tt, f s).
Definition gets {S A} (f : S -> A) : ST S A := fun s => Ret (f s, s).

(** A [for (i = 0; i < n; i++)] loop threading an accumulator. *)
Fixpoint for_loop {S A} (n : nat) (i : Z) (body : Z -> A -> ST S A) (acc : A)
  : ST S A :=
  match n with
  | O => ret acc
  | S n' => acc' <- body i acc ;; for_loop n' (i + 1) body acc'
  end.

(** ** std::istream over an in-memory buffer *)

Record istream : Type := mkIS {
  buf : list Z;       (* the whole input *)
  gpos : nat;         (* get position *)
  eofbit : bool;
  failbit : bool
}.

Definition open_string (bytes : list Z) : istream := mkIS bytes 0 false false.

Definition rest (s : istream) : list Z := skipn (gpos s) (buf s).
Definition good (s : istream) : bool := negb (eofbit s) && negb (failbit s).
Definition fail (s : istream) : bool := failbit s.
Definition eof (s : istream) : bool := eofbit s.

Definition setstate (e f : bool) (s : istream) : istream :=
  mkIS (buf s) (gpos s) (eofbit s || e) (failbit s || f).
Definition clear (s : istream) : istream := mkIS (buf s) (gpos s) false false.
Definition advance (n : nat) (s : istream) : istream :=
  mkIS (buf s) (gpos s + n) (eofbit s) (failbit s).

Definition EOF : Z := -1.

(** [peek()]: unformatted; a failed sentry sets [failbit]; end of input
    sets [eofbit]; returns the next character without extracting it. *)
Definition peek (s : istream) : Z * istream :=
  if good s then
    match rest s with
    | [] => (EOF, setstate true false s)
    | c :: _ => (c, s)
    end
  else (EOF, setstate false true s).

(** [get()]: extracts one character; nothing extracted sets [failbit]. *)
Definition get (s : istream) : Z * istream :=
  if good s then
    match rest s with
    | [] => (EOF, setstate true true s)
    | c :: _ => (c, advance 1 s)
    end
  else (EOF, setstate false true s).

(** [read(p, n)]: extracts [n] characters; a short read stores what there
    is and sets [eofbit | failbit].  Returns the characters stored. *)
Definition read (n : nat) (s : istream) : list Z * istream :=
  if good s then
    let got := firstn n (rest s) in
    let k := length got in
    (got, setstate (k <? n)%nat (k <? n)%nat (advance k s))
  else ([], setstate false true s).

(** [getline(p, n, delim)]: stores at most [n - 1] characters; stops at end
    of input ([eofbit]), at the delimiter (extracted, not stored), or when
    [n - 1] characters are stored ([failbit]); nothing extracted sets
    [failbit].  Returns the characters stored and [gcount()]. *)
Definition getline (n : nat) (delim : Z) (s : istream)
  : list Z * nat * istream :=
  if good s then
    let (taken, remaining) :=
      span_n (n - 1) (fun c => negb (c =? delim)) (rest s) in
    let k := length taken in
    match remaining with
    | [] => (taken, k, setstate true (k =? 0)%nat (advance k s))
    | c :: _ =>
        if c =? delim then (taken, S k, advance (S k) s)
        else (taken, k, setstate false true (advance k s))
    end
  else ([], 0%nat, setstate false true s).

(** [ignore(n, delim)]: extracts and discards up to [n] characters, or up
    to and including the delimiter. *)
Definition ignore (n : Z) (delim : Z) (s : istream) : istream :=
  if good s then
    let (taken, remaining) := span (fun c => negb (c =? delim)) (rest s) in
    let k := length taken in
    if Z.of_nat k <? n then
      match remaining with
      | [] => setstate true false (advance k s)
      | _ :: _ => advance (S k) s
      end
    else advance (Z.to_nat n) s
  else setstate false true s.

(** [seekg(off, ios_base::cur)] with [off = - back]: clears [eofbit], then
    repositions unless the stream has failed. *)
Definition seekg_back (back : nat) (s : istream) : istream :=
  if failbit s then mkIS (buf s) (gpos s) false true
  else if (back <=? gpos s)%nat
       then mkIS (buf s) (gpos s - back) false false
       else mkIS (buf s) (gpos s) false true.

(** The sentry of a formatted extraction: skips white space when the
    stream is good; reaching the end of input while skipping, or a stream
    that is not good, fails the sentry and sets [failbit]. *)
Definition sentry (s : istream) : bool * istream :=
  if good s then
    let (ws, remaining) := span isspace (rest s) in
    let s1 := advance (length ws) s in
    match remaining with
    | [] => (false, setstate true true s1)
    | _ :: _ => (true, s1)
    end
  else (false, setstate false true s).

(** [is >> char_array] with [width(w)], and [is >> std::string] when there
    is no width: extracts up to [w - 1] non-space characters.  [None]: the
    sentry failed and nothing was stored. *)
Definition extract_word (limit : option nat) (s : istream)
  : option (list Z) * istream :=
  let (ok, s1) := sentry s in
  if ok then
    let (tok, remaining) :=
      match limit with
      | Some n => span_n n (fun c => negb (isspace c)) (rest s1)
      | None => span (fun c => negb (isspace c)) (rest s1)
      end in
    let k := length tok in
    (Some tok,
     setstate (match remaining with [] => true | _ => false end)
              (k =? 0)%nat (advance k s1))
  else (None, s1).

(** Decimal value of a run of digits. *)
Definition digits_value (ds : list Z) : Z :=
  fold_left (fun acc d => 10 * acc + (d - 48)) ds 0.

(** [num_get] for an integer type of [bits] bits, base 10: an optional
    sign, then the longest run of digits.  No digit: the value is 0 and the
    extraction fails; out of range: the value saturates and the extraction
    fails; a negative input to an unsigned type is negated modulo
    [2 ^ bits].  Returns the count of characters consumed, the value
    stored, and whether [failbit] is raised. *)
Definition num_get_int (signed : bool) (bits : Z) (l : list Z)
  : nat * Z * bool :=
  let '(neg, nsign, l1) :=
    match l with
    | 45 :: t => (true, 1%nat, t)
    | 43 :: t => (false, 1%nat, t)
    | _ => (false, 0%nat, l)
    end in
  let (ds, _) := span isdigit l1 in
  let k := (nsign + length ds)%nat in
  let mag := digits_value ds in
  match ds with
  | [] => (k, 0, true)
  | _ :: _ =>
      if signed then
        if neg then
          if mag <=? 2 ^ (bits - 1) then (k, - mag, false)
          else (k, - 2 ^ (bits - 1), true)
        else
          if mag <=? 2 ^ (bits - 1) - 1 then (k, mag, false)
          else (k, 2 ^ (bits - 1) - 1, true)
      else
        if mag <=? 2 ^ bits - 1
        then (k, (if neg then (- mag) mod 2 ^ bits else mag), false)
        else (k, 2 ^ bits - 1, true)
  end.

(** [is >> n] for an integer [n].  [None]: the sentry failed and [n] was
    not written. *)
Definition extract_int (signed : bool) (bits : Z) (s : istream)
  : option Z * istream :=
  let (ok, s1) := sentry s in
  if ok then
    let '(k, v, bad) := num_get_int signed bits (rest s1) in
    (Some v, setstate (k =? length (rest s1))%nat bad (advance k s1))
  else (None, s1).

(** ** The C library's scanning functions, as far as the reader uses them *)

Definition skip_ws (l : list Z) : list Z := snd (span isspace l).

(** [%d]: white space, an optional sign, one or more digits. *)
Definition scan_d (l : list Z) : option (Z * list Z) :=
  let l0 := skip_ws l in
  let (neg, l1) :=
    match l0 with
    | 45 :: t => (true, t)
    | 43 :: t => (false, t)
    | _ => (false, l0)
    end in
  let (ds, l2) := span isdigit l1 in
  match ds with
  | [] => None
  | _ :: _ => Some ((if neg then - digits_value ds else digits_value ds), l2)
  end.

(** [%s]: white space, then one or more characters that are not. *)
Definition scan_s (l : list Z) : option (list Z * list Z) :=
  let (tok, l1) := span (fun c => negb (isspace c)) (skip_ws l) in
  match tok with
  | [] => None
  | _ :: _ => Some (tok, l1)
  end.

(** A run of ordinary characters of a format: each must match. *)
Fixpoint scan_lit (lit l : list Z) : option (list Z) :=
  match lit, l with
  | [], _ => Some l
  | a :: lit', b :: l' => if a =? b then scan_lit lit' l' else None
  | _ :: _, [] => None
  end.

Definition in_int_range (v : Z) : bool :=
  (- 2 ^ 31 <=? v) && (v <=? 2 ^ 31 - 1).

Definition hex_digit (c : Z) : option Z :=
  if isdigit c then Some (c - 48)
  else if (97 <=? c) && (c <=? 102) then Some (c - 87)
  else if (65 <=? c) && (c <=? 70) then Some (c - 55)
  else None.

(** [atoi]: white space, an optional sign, digits; 0 when there is no
    digit; a value that does not fit [int] has no defined behaviour. *)
Definition atoi (l : list Z) : option Z :=
  match scan_d l with
  | Some (v, _) => if in_int_range v then Some v else None
  | None => Some 0
  end.

(** ** The reader's primitive reads (lines 264-468) *)

Definition VTK_INT_MAX : Z := 2147483647.

Definition strip_cr (l : list Z) : list Z :=
  match rev l with
  | 13 :: r => rev r
  | _ => l
  end.

(** vtkDataReader::ReadLine (lines 267-290).  Returns the value returned
    and the C string left in [result]. *)
Definition ReadLine : ST istream (bool * list Z) :=
  lift (fun s =>
    let '(stored, gcount, s1) := getline 256 10 s in
    let result := cstr stored in
    if fail s1 then
      if eof s1 then ((false, result), s1)
      else
        let s2 := if (gcount =? 255)%nat
                  then ignore VTK_INT_MAX 10 (clear s1) else s1 in
        ((true, strip_cr result), s2)
    else ((true, strip_cr result), s1)).

(** vtkDataReader::ReadString (lines 295-307).  [Some tok]: returns 1 and
    [result] holds the token; [None]: returns 0 and [result] is left as it
    was. *)
Definition ReadString : ST istream (option (list Z)) :=
  lift (fun s =>
    let (stored, s1) := extract_word (Some 255%nat) s in
    if fail s1 then (None, s1)
    else (option_map cstr stored, s1)).

(** The C integer types the reader extracts. *)
Inductive ctype : Type :=
| c_short | c_ushort | c_int | c_uint | c_long | c_ulong
| c_longlong | c_ulonglong.

(** Platform constants, of a build with 64-bit [long] and 64-bit ids
    (VTK_SIZEOF_LONG == 8, VTK_USE_64BIT_IDS); [vtkIdType] is then
    [long long]. *)
Definition VTK_SIZEOF_LONG : Z := 8.
Definition c_vtkIdType : ctype := c_longlong.

Definition ctype_signed (t : ctype) : bool :=
  match t with
  | c_short | c_int | c_long | c_longlong => true
  | _ => false
  end.

Definition ctype_bits (t : ctype) : Z :=
  match t with
  | c_short | c_ushort => 16
  | c_int | c_uint => 32
  | c_long | c_ulong => 8 * VTK_SIZEOF_LONG
  | c_longlong | c_ulonglong => 64
  end.

(** vtkDataReader::Read for the integer types other than the two [char]
    ones (lines 340-425): [*this->IS >> *result], 0 when the stream has
    failed.  Returns the value returned and what was written to
    [*result], if anything was. *)
Definition Read (t : ctype) : ST istream (bool * option Z) :=
  lift (fun s =>
    let (written, s1) := extract_int (ctype_signed t) (ctype_bits t) s in
    ((negb (fail s1), written), s1)).

Definition to_schar (v : Z) : Z := (v + 128) mod 256 - 128.
Definition to_uchar (v : Z) : Z := v mod 256.

(** vtkDataReader::Read for [char] and [unsigned char] (lines 312-337):
    an [int] is extracted and narrowed; [*result] is written only on
    success. *)
Definition Read_char (narrow : Z -> Z) : ST istream (bool * option Z) :=
  lift (fun s =>
    let (intData, s1) := extract_int true 32 s in
    if fail s1 then ((false, None), s1)
    else ((true, option_map narrow intData), s1)).

(** vtkDataReader::Peek (lines 450-468).  Returns the characters read
    into [str]; their count is the value returned. *)
Definition Peek (n : nat) : ST istream (list Z) :=
  lift (fun s =>
    match n with
    | O => ([], s)
    | _ =>
        let (got, s1) := read n s in
        let len := length got in
        let s2 := if fail s1 then clear s1 else s1 in
        (got, seekg_back len s2)
    end).

(** my_getline (lines 3857-3879): characters up to the delimiter, which is
    extracted and dropped, or up to the end of input. *)
Definition my_getline (delimiter : Z) : ST istream (list Z) :=
  lift (fun s =>
    if good s then
      let (taken, remaining) :=
        span (fun c => negb (c =? delimiter)) (rest s) in
      let k := length taken in
      match remaining with
      | [] => (taken, setstate true true (advance k s))
      | _ :: _ => (taken, advance (S k) s)
      end
    else ([], setstate false true s)).

(** ** vtkDataReader::DecodeString (lines 3818-3855) *)

(** [strncpy(dst, src, n)] from a buffer [src] that may hold NULs: copies
    up to the first NUL and pads with NULs. *)
Definition strncpy (src : list Z) (n : nat) : list Z :=
  firstn n (cstr src ++ repeat 0 n).

(** [sscanf(buffer, "%x", &ch)] on the buffer "0x" h1 h2.  When [h1] is a
    hexadecimal digit the conversion stores the value of the digits.  When
    it is not, the C standard has the directive fail and leave [ch] as it
    was (indeterminate on the first pass), while some C libraries store 0:
    the embedding gives that case no defined behaviour. *)
Definition scan_percent_hex (h1 h2 : Z) : option Z :=
  match hex_digit h1, hex_digit h2 with
  | Some a, Some b => Some (16 * a + b)
  | Some a, None => Some a
  | None, _ => None
  end.

(** The [while (name[cc])] loop; [name] is the part of the string from
    index [cc] on, [len] is [strlen] of the whole string, and the result is
    what has been written to the [ostringstream].  [len - 3] is computed
    in [size_t] and wraps around for [len < 3]; the test then passes and the
    two characters after the percent sign are read at or past the
    terminator. *)
Fixpoint DecodeString_loop (len cc : Z) (name : list Z)
  : outcome (list Z) :=
  match name with
  | [] => Ret []
  | c :: tl =>
      if c =? 37 then
        if cc <=? (len - 3) mod 2 ^ 64 then
          match tl with
          | h1 :: h2 :: tl' =>
              match scan_percent_hex h1 h2 with
              | Some ch =>
                  match DecodeString_loop len (cc + 3) tl' with
                  | Ret out => Ret (to_uchar ch :: out)
                  | o => o
                  end
              | None => Undefined
              end
          | _ => Undefined
          end
        else DecodeString_loop len (cc + 1) tl
      else
        match DecodeString_loop len (cc + 1) tl with
        | Ret out => Ret (c :: out)
        | o => o
        end
  end.

(** Returns the first [reslen] bytes of [resname]; [reslen], the value
    returned by the C++ function, is their count, and [resname[reslen]] is
    NUL. *)
Definition DecodeString (name : list Z) : outcome (list Z) :=
  match DecodeString_loop (Z.of_nat (length name)) 0 name with
  | Ret str => Ret (strncpy str (length str))
  | o => o
  end.

(** [DecodeString] as an action, for use between reads. *)
Definition decode {S} (name : list Z) : ST S (list Z) :=
  fun s => match DecodeString name with
           | Ret r => Ret (r, s)
           | Undefined => Undefined
           | Diverges => Diverges
           end.

(** ** Arrays, information objects and what the reader takes from outside *)

(** The concrete array classes [ReadArray] instantiates. *)
Inductive vtkArrayClass : Type :=
| vtkBitArray | vtkCharArray | vtkUnsignedCharArray
| vtkShortArray | vtkUnsignedShortArray | vtkIdTypeArray
| vtkIntArray | vtkUnsignedIntArray | vtkLongArray | vtkUnsignedLongArray
| vtkTypeInt64Array | vtkTypeUInt64Array
| vtkFloatArray | vtkDoubleArray
| vtkStringArray | vtkVariantArray.

(** [vtkArrayDownCast<vtkDataArray>]: every class but the string and the
    variant arrays derives from [vtkDataArray]. *)
Definition is_vtkDataArray (c : vtkArrayClass) : bool :=
  match c with
  | vtkStringArray | vtkVariantArray => false
  | _ => true
  end.

(** One element of an array.  A variant is kept as the type code and the
    decoded text it is converted from; [VInvalid] is the default-built
    variant stored for an unknown type code. *)
Inductive Value : Type :=
| VInt (z : Z)
| VFloat (f : spec_float)
| VString (s : list Z)
| VVariant (t : Z) (text : list Z)
| VInvalid.

(** Values of information keys. *)
Inductive InfoValue : Type :=
| IDouble (d : spec_float)
| IDoubleVector (ds : list spec_float)
| IIdType (v : Z)
| IInteger (v : Z)
| IIntegerVector (vs : list Z)
| IString (s : list Z)
| IStringVector (ss : list (list Z))
| IUnsignedLong (v : Z).

(** The class of a registered key, as the [SafeDownCast] chain of
    [ReadInformation] tells them apart. *)
Inductive KeyClass : Type :=
| DoubleKey | DoubleVectorKey | IdTypeKey | IntegerKey | IntegerVectorKey
| StringKey | StringVectorKey | UnsignedLongKey | OtherKey.

(** A key is identified by its location and name. *)
Definition InfoKey : Type := (list Z * list Z)%type.

Definition key_eqb (a b : InfoKey) : bool :=
  bytes_eqb (fst a) (fst b) && bytes_eqb (snd a) (snd b).

(** Modelled from the spec: [vtkInformation], declared outside this
    file; an information object maps keys to values.  [Set] stores under
    the key, [Append] adds one string at the end of the key's
    string vector (creating it), [Remove] deletes the entry. *)
Definition vtkInformation : Type := list (InfoKey * InfoValue).

Fixpoint info_Get (info : vtkInformation) (k : InfoKey) : option InfoValue :=
  match info with
  | [] => None
  | (k', v) :: r => if key_eqb k k' then Some v else info_Get r k
  end.

Fixpoint info_Remove (info : vtkInformation) (k : InfoKey) : vtkInformation :=
  match info with
  | [] => []
  | (k', v) :: r =>
      if key_eqb k k' then info_Remove r k else (k', v) :: info_Remove r k
  end.

Definition info_Set (info : vtkInformation) (k : InfoKey) (v : InfoValue)
  : vtkInformation :=
  info_Remove info k ++ [(k, v)].

Definition info_Append (info : vtkInformation) (k : InfoKey) (s : list Z)
  : vtkInformation :=
  match info_Get info k with
  | Some (IStringVector ss) => info_Set info k (IStringVector (ss ++ [s]))
  | _ => info_Set info k (IStringVector [s])
  end.

(** A lookup table: [size] RGBA rows.  The binary form gives the bytes
    (an undetermined byte is [None]), the ASCII form the four floats that
    [SetTableValue] receives. *)
Inductive vtkLookupTable : Type :=
| LutBytes (bytes : list (option Z))
| LutRows (rows : list (spec_float * spec_float * spec_float * spec_float)).

(** An array object.  [Values] has one entry per element; [None] is an
    element of the buffer that was allocated and never written. *)
Record vtkAbstractArray : Type := mkArray {
  Class : vtkArrayClass;
  Name : option (list Z);
  NumberOfComponents : Z;
  Values : list (option Value);
  ComponentNames : list (Z * list Z);
  Information : vtkInformation;
  LookupTable : option vtkLookupTable
}.

(** [Class::New()] followed by [SetNumberOfComponents(numComp)], which
    clamps its argument to at least 1. *)
Definition New (c : vtkArrayClass) (numComp : Z) : vtkAbstractArray :=
  mkArray c None (Z.max 1 numComp) [] [] [] None.

Definition SetValues (a : vtkAbstractArray) (vs : list (option Value))
  : vtkAbstractArray :=
  mkArray (Class a) (Name a) (NumberOfComponents a) vs
          (ComponentNames a) (Information a) (LookupTable a).

Definition SetName (a : vtkAbstractArray) (n : list Z) : vtkAbstractArray :=
  mkArray (Class a) (Some n) (NumberOfComponents a) (Values a)
          (ComponentNames a) (Information a) (LookupTable a).

Definition SetComponentName (a : vtkAbstractArray) (i : Z) (n : list Z)
  : vtkAbstractArray :=
  mkArray (Class a) (Name a) (NumberOfComponents a) (Values a)
          (ComponentNames a ++ [(i, n)]) (Information a) (LookupTable a).

Definition SetInformation (a : vtkAbstractArray) (info : vtkInformation)
  : vtkAbstractArray :=
  mkArray (Class a) (Name a) (NumberOfComponents a) (Values a)
          (ComponentNames a) info (LookupTable a).

Definition SetLookupTable (a : vtkAbstractArray) (lut : vtkLookupTable)
  : vtkAbstractArray :=
  mkArray (Class a) (Name a) (NumberOfComponents a) (Values a)
          (ComponentNames a) (Information a) (Some lut).

(** What the reader uses and this file does not define: the C++ library's
    extraction of floating-point numbers ([num_get] for [float] and
    [double]: the count of characters consumed, the value stored, and
    whether [failbit] is raised), the process-wide registry of information
    keys ([vtkInformationKeyLookup::Find (name, location)]), the ghost
    constants of [vtkDataSetAttributes], and the version of the reader
    ([vtkLegacyReaderVersion.h]). *)
Record Externals : Type := mkExternals {
  num_get_float : list Z -> nat * spec_float * bool;
  num_get_double : list Z -> nat * spec_float * bool;
  KeyLookup_Find : list Z -> list Z -> option KeyClass;
  DUPLICATEPOINT : Z;
  DUPLICATECELL : Z;
  GhostArrayName : list Z;
  vtkLegacyReaderMajorVersion : Z;
  vtkLegacyReaderMinorVersion : Z
}.

(** ** Numbers on the wire *)

(** Big-endian value of a run of bytes: what the [Swap*BE] functions of
    [vtkByteSwap] leave in a host integer. *)
Definition be_value (bytes : list Z) : Z :=
  fold_left (fun acc b => 256 * acc + b) bytes 0.

Definition to_signed (bits : Z) (v : Z) : Z :=
  if v <? 2 ^ (bits - 1) then v else v - 2 ^ bits.

(** The IEEE 754 value of a bit pattern with [ebits] exponent bits and
    [mbits] fraction bits. *)
Definition float_of_bits (ebits mbits : Z) (v : Z) : spec_float :=
  let sign := Z.testbit v (ebits + mbits) in
  let e := (v / 2 ^ mbits) mod 2 ^ ebits in
  let m := v mod 2 ^ mbits in
  let bias := 2 ^ (ebits - 1) - 1 in
  if e =? 0 then
    match m with
    | Zpos p => S754_finite sign p (1 - bias - mbits)
    | _ => S754_zero sign
    end
  else if e =? 2 ^ ebits - 1 then
    if m =? 0 then S754_infinity sign else S754_nan
  else
    match m + 2 ^ mbits with
    | Zpos p => S754_finite sign p (e - bias - mbits)
    | _ => S754_nan
    end.

Definition float32_of_bits : Z -> spec_float := float_of_bits 8 23.
Definition float64_of_bits : Z -> spec_float := float_of_bits 11 52.

(** [n] chunks of [sz] bytes from what a read stored: a chunk the read did
    not fill is an element left undetermined. *)
Fixpoint chunks (sz : nat) (n : nat) (l : list Z) : list (option (list Z)) :=
  match n with
  | O => []
  | S n' =>
      (if (sz <=? length l)%nat then Some (firstn sz l) else None)
        :: chunks sz n' (skipn sz l)
  end.

(** vtkReadBinaryData (lines 1504-1523), for elements of [sz] bytes.
    Returns the value returned and, per element, the bytes stored. *)
Definition vtkReadBinaryData (sz : nat) (numTuples numComp : Z)
  : ST istream (bool * list (option (list Z))) :=
  if (numTuples =? 0) || (numComp =? 0) then ret (true, [])
  else
    _ <- lift (getline 256 10) ;;
    got <- lift (read (sz * Z.to_nat (numComp * numTuples))) ;;
    iseof <- gets eof ;;
    ret (negb iseof, chunks sz (Z.to_nat (numTuples * numComp)) got).

(** vtkReadASCIIData (lines 1526-1544): one [Read] per element, stopping
    at the first that fails; the elements after it are never written. *)
Fixpoint vtkReadASCIIData_loop (rd : ST istream (bool * option Value))
  (n : nat) : ST istream (bool * list (option Value)) :=
  match n with
  | O => ret (true, [])
  | S n' =>
      '(ok, w) <- rd ;;
      if ok : bool then
        '(ok', ws) <- vtkReadASCIIData_loop rd n' ;;
        ret (ok', w :: ws)
      else ret (false, w :: repeat None n')
  end.

Definition vtkReadASCIIData (rd : ST istream (bool * option Value))
  (numTuples numComp : Z) : ST istream (bool * list (option Value)) :=
  if (0 <? numTuples) && (0 <? numComp)
  then vtkReadASCIIData_loop rd (Z.to_nat (numTuples * numComp))
  else ret (true, []).

(** ** Functions of the reader that use only the stream *)

Section Stream.

Variable X : Externals.

(** [is >> x] for a [float] or [double] [x], through the library's
    [num_get]. *)
Definition extract_fp (ng : list Z -> nat * spec_float * bool) (s : istream)
  : option spec_float * istream :=
  let (ok, s1) := sentry s in
  if ok then
    let '(k0, v, bad) := ng (rest s1) in
    let k := Nat.min k0 (length (rest s1)) in
    (Some v, setstate (k =? length (rest s1))%nat bad (advance k s1))
  else (None, s1).

(** vtkDataReader::Read for [float], lines 428-436, and for [double],
    lines 439-447. *)
Definition Read_fp (ng : list Z -> nat * spec_float * bool)
  : ST istream (bool * option spec_float) :=
  lift (fun s =>
    let (written, s1) := extract_fp ng s in
    ((negb (fail s1), written), s1)).

Definition Read_float := Read_fp (num_get_float X).
Definition Read_double := Read_fp (num_get_double X).

(** *** vtkDataReader::ReadInformation (lines 2763-3018) *)

(** The [do ... while (strlen(line) == 0)] loop of lines 2771-2778.
    [None]: [ReadLine] failed and [ReadInformation] returns 0.  On a
    stream whose [failbit] is set and whose [eofbit] is not, [ReadLine]
    returns 1 with an empty line and changes nothing, so the loop never
    ends; otherwise every turn of the loop consumes input, and the fuel,
    which [skip_empty_lines] takes from the length of the input left,
    bounds it. *)
Fixpoint skip_empty_lines_fuel (fuel : nat) : ST istream (option (list Z)) :=
  fun s =>
    if failbit s && negb (eofbit s) then Diverges
    else
      match fuel with
      | O => Diverges
      | S fuel' =>
          ('(ok, line) <- ReadLine ;;
           if ok : bool then
             match line with
             | [] => skip_empty_lines_fuel fuel'
             | _ :: _ => ret (Some line)
             end
           else ret None) s
      end.

Definition skip_empty_lines : ST istream (option (list Z)) :=
  fun s => skip_empty_lines_fuel (S (length (rest s))) s.

(** [sscanf(line, "NAME %s LOCATION %s", name, location) == 2]. *)
Definition scan_NAME_LOCATION (line : list Z) : option (list Z * list Z) :=
  match scan_lit (bytes_of "NAME") line with
  | None => None
  | Some l1 =>
      match scan_s l1 with
      | None => None
      | Some (name, l2) =>
          match scan_lit (bytes_of "LOCATION") (skip_ws l2) with
          | None => None
          | Some l3 =>
              match scan_s l3 with
              | None => None
              | Some (location, _) => Some (name, location)
              end
          end
      end
  end.

(** [sscanf(line, "DATA %s", value) == 1]. *)
Definition scan_DATA (line : list Z) : option (list Z) :=
  match scan_lit (bytes_of "DATA") line with
  | None => None
  | Some l1 => option_map fst (scan_s l1)
  end.

(** The guard shared by the numeric keys:
    [!ReadString(line) || strncmp("DATA", line, 4) != 0 || !Read(&value)];
    [None] when the guard holds (the block is malformed). *)
Definition read_DATA {A} (rd : ST istream (bool * option A))
  : ST istream (option A) :=
  tok <- ReadString ;;
  match tok with
  | None => ret None
  | Some line =>
      if strncmp0 (bytes_of "DATA") line 4 then
        '(ok, w) <- rd ;;
        ret (if ok : bool then w else None)
      else ret None
  end.

(** The loops of lines 2836-2845 and 2903-2912: values are pushed until a
    [Read] fails. *)
Fixpoint read_vector {A} (rd : ST istream (bool * option A)) (n : nat)
  : ST istream (list A) :=
  match n with
  | O => ret []
  | S n' =>
      '(ok, w) <- rd ;;
      match ok, w with
      | true, Some v => vs <- read_vector rd n' ;; ret (v :: vs)
      | _, _ => ret []
      end
  end.

(** A vector key (lines 2819-2855 and 2886-2922).  [values.reserve]
    throws for a negative [length]. *)
Definition read_vector_key {A} (rd : ST istream (bool * option A))
  (mk : list A -> InfoValue) (key : InfoKey) (info : vtkInformation)
  : ST istream vtkInformation :=
  len <- read_DATA (Read c_int) ;;
  match len with
  | None => ret info
  | Some length =>
      if length =? 0 then ret (info_Set info key (mk []))
      else if length <? 0 then undefined
      else
        values <- read_vector rd (Z.to_nat length) ;;
        _ <- ReadLine ;;
        ret (if (List.length values =? Z.to_nat length)%nat
             then info_Set info key (mk values) else info)
  end.

(** A scalar key (lines 2804-2818, 2856-2885, 2986-3000). *)
Definition read_scalar_key {A} (rd : ST istream (bool * option A))
  (mk : A -> InfoValue) (key : InfoKey) (info : vtkInformation)
  : ST istream vtkInformation :=
  v <- read_DATA rd ;;
  match v with
  | None => ret info
  | Some value => _ <- ReadLine ;; ret (info_Set info key (mk value))
  end.

(** The [for] loop of lines 2965-2979 of the string-vector key: each line
    read is decoded and appended; returns [success]. *)
Fixpoint read_string_vector (key : InfoKey) (n : nat) (info : vtkInformation)
  : ST istream (bool * vtkInformation) :=
  match n with
  | O => ret (true, info)
  | S n' =>
      '(ok, value) <- ReadLine ;;
      if ok : bool then
        decoded <- decode value ;;
        read_string_vector key n' (info_Append info key (cstr decoded))
      else ret (false, info)
  end.

(** The string-vector key (lines 2943-2985). *)
Definition read_string_vector_key (key : InfoKey) (info : vtkInformation)
  : ST istream vtkInformation :=
  len <- read_DATA (Read c_int) ;;
  match len with
  | None => ret info
  | Some length =>
      _ <- ReadLine ;;
      if length =? 0 then ret (info_Set info key (IStringVector []))
      else
        '(success, info') <- read_string_vector key (Z.to_nat length) info ;;
        ret (if success : bool then info' else info_Remove info' key)
  end.

(** The string key (lines 2923-2942). *)
Definition read_string_key (key : InfoKey) (info : vtkInformation)
  : ST istream vtkInformation :=
  '(ok, line) <- ReadLine ;;
  if ok : bool then
    match scan_DATA line with
    | None => ret info
    | Some value =>
        decoded <- decode value ;;
        ret (info_Set info key (IString (cstr decoded)))
    end
  else ret info.

(** The body of the [for] loop once a non-empty line is read (lines
    2780-3014). *)
Definition ReadInformation_entry (line : list Z) (info : vtkInformation)
  : ST istream vtkInformation :=
  if strncmp0 (bytes_of "NAME ") line 5 then
    match scan_NAME_LOCATION line with
    | None => ret info
    | Some (name, location) =>
        let key : InfoKey := (location, name) in
        match KeyLookup_Find X name location with
        | None => ret info
        | Some DoubleKey => read_scalar_key Read_double IDouble key info
        | Some DoubleVectorKey =>
            read_vector_key Read_double IDoubleVector key info
        | Some IdTypeKey => read_scalar_key (Read c_vtkIdType) IIdType key info
        | Some IntegerKey => read_scalar_key (Read c_int) IInteger key info
        | Some IntegerVectorKey =>
            read_vector_key (Read c_int) IIntegerVector key info
        | Some StringKey => read_string_key key info
        | Some StringVectorKey => read_string_vector_key key info
        | Some UnsignedLongKey =>
            read_scalar_key (Read c_ulong) IUnsignedLong key info
        | Some OtherKey => ret info
        end
    end
  else ret info.

Fixpoint ReadInformation_loop (n : nat) (info : vtkInformation)
  : ST istream (Z * vtkInformation) :=
  match n with
  | O => ret (1, info)
  | S n' =>
      l <- skip_empty_lines ;;
      match l with
      | None => ret (0, info)
      | Some line =>
          info' <- ReadInformation_entry line info ;;
          ReadInformation_loop n' info'
      end
  end.

(** Returns the value returned and the information object as left. *)
Definition ReadInformation (info : vtkInformation) (numKeys : Z)
  : ST istream (Z * vtkInformation) :=
  ReadInformation_loop (Z.to_nat numKeys) info.

End Stream.

(** ** vtkDataReader::ReadArray (lines 1553-2096) *)

Definition VTK_ASCII : Z := 1.
Definition VTK_BINARY : Z := 2.

Section Arrays.

Variable X : Externals.

(** [Read] producing an array element. *)
Definition Read_elem {A} (mk : A -> Value) (rd : ST istream (bool * option A))
  : ST istream (bool * option Value) :=
  '(ok, w) <- rd ;; ret (ok, option_map mk w).

(** The two branches every fixed-width numeric type shares: in BINARY,
    [vtkReadBinaryData] then the byte swap; in ASCII, [vtkReadASCIIData].
    The value either returns is not looked at. *)
Definition read_fixed (FileType : Z) (sz : nat) (of_bytes : list Z -> Value)
  (rd : ST istream (bool * option Value)) (numTuples numComp : Z)
  : ST istream (list (option Value)) :=
  if FileType =? VTK_BINARY then
    '(_, raw) <- vtkReadBinaryData sz numTuples numComp ;;
    ret (map (option_map of_bytes) raw)
  else
    '(_, vs) <- vtkReadASCIIData rd numTuples numComp ;;
    ret vs.

Definition of_be (signed : bool) (bits : Z) (bytes : list Z) : Value :=
  VInt (if signed then to_signed bits (be_value bytes) else be_value bytes).

(** The "vtkidtype" branch (lines 1666-1686) reads into a [std::vector<int>],
    whose elements start at zero, and copies every element out. *)
Definition read_vtkidtype (FileType : Z) (numTuples numComp : Z)
  : ST istream (list (option Value)) :=
  let n := Z.to_nat (numTuples * numComp) in
  if FileType =? VTK_BINARY then
    if (numTuples =? 0) || (numComp =? 0) then ret []
    else
      _ <- lift (getline 256 10) ;;
      got <- lift (read (4 * Z.to_nat (numComp * numTuples))) ;;
      ret (map (option_map (of_be true 32))
               (chunks 4 n (got ++ repeat 0 (4 * n - length got))))
  else
    '(_, vs) <- vtkReadASCIIData (Read_elem VInt (Read c_int))
                                 numTuples numComp ;;
    ret (map (fun v => match v with Some x => Some x | None => Some (VInt 0) end)
             vs).

(** Bit [i] of a packed buffer, most significant bit first. *)
Definition bit_at (bytes : list Z) (i : nat) : option Value :=
  option_map (fun b => VInt (Z.b2z (Z.testbit b (7 - Z.of_nat (i mod 8)))))
             (nth_error bytes (i / 8)).

(** The ASCII loop of the "bit" branch (lines 1583-1599); [None] when a
    [Read] fails and [ReadArray] returns [nullptr].  [SetValue] takes an
    [int]. *)
Fixpoint read_ascii_bits (n : nat) : ST istream (option (list (option Value))) :=
  match n with
  | O => ret (Some [])
  | S n' =>
      '(ok, b) <- Read c_vtkIdType ;;
      match ok, b with
      | true, Some v =>
          r <- read_ascii_bits n' ;;
          ret (option_map
                 (cons (Some (VInt (if to_signed 32 (v mod 2 ^ 32) =? 0
                                    then 0 else 1)))) r)
      | _, _ => ret None
      end
  end.

(** The "bit" branch (lines 1560-1602). *)
Definition read_bit (FileType : Z) (numTuples numComp : Z)
  : ST istream (option (list (option Value))) :=
  if negb (numTuples =? 0) && negb (numComp =? 0) then
    let n := Z.to_nat (numTuples * numComp) in
    if FileType =? VTK_BINARY then
      _ <- lift (getline 256 10) ;;
      got <- lift (read (Z.to_nat ((numTuples * numComp + 7) / 8))) ;;
      iseof <- gets eof ;;
      if iseof : bool then ret None
      else ret (Some (map (bit_at got) (seq 0 n)))
    else read_ascii_bits n
  else ret (Some []).

(** One value of a binary string array (lines 1845-1885).  A length field
    that the stream cannot fill leaves [length] undetermined. *)
Definition read_length_field (nbytes : nat) : ST istream Z :=
  bs <- lift (read nbytes) ;;
  if (length bs <? nbytes)%nat then undefined else ret (be_value bs).

Definition read_binary_string : ST istream (list Z) :=
  c <- lift peek ;;
  let firstByte := to_uchar c in
  let headerType := Z.shiftr firstByte 6 in
  stringLength <-
    (if headerType =? 3 then
       g <- lift get ;;
       let length := to_uchar g in
       ret (Z.shiftr (Z.shiftl length 2 mod 2 ^ 8) 2)
     else if headerType =? 2 then
       length <- read_length_field 2 ;;
       ret (Z.shiftr (Z.shiftl length 2 mod 2 ^ 16) 2)
     else if headerType =? 1 then
       length <- read_length_field 4 ;;
       ret (Z.shiftr (Z.shiftl length 2 mod 2 ^ 32) 2)
     else
       read_length_field 8) ;;
  got <- lift (read (Z.to_nat stringLength)) ;;
  ret (got ++ repeat 0 (Z.to_nat stringLength - length got)).

Fixpoint read_values (rd : ST istream Value) (n : nat)
  : ST istream (list (option Value)) :=
  match n with
  | O => ret []
  | S n' => v <- rd ;; vs <- read_values rd n' ;; ret (Some v :: vs)
  end.

(** One value of an ASCII string array (lines 1899-1904). *)
Definition read_ascii_string : ST istream (list Z) :=
  s <- my_getline 10 ;;
  decode (cstr s).

(** The type codes of [vtkType.h] that the variant branch knows. *)
Definition variant_type_known (t : Z) : bool :=
  existsb (Z.eqb t) [2; 15; 3; 4; 5; 6; 7; 8; 9; 10; 11; 16; 17; 13].

(** One value of a variant array (lines 1917-1972):
    [*(this->IS) >> t >> str].  When the first extraction does not write
    [t], the [switch] reads an undetermined [int]. *)
Definition read_variant : ST istream Value :=
  t <- lift (extract_int true 32) ;;
  str <- lift (extract_word None) ;;
  match t with
  | None => undefined
  | Some t =>
      decodedStr <- decode (cstr (match str with Some w => w | None => [] end)) ;;
      ret (if variant_type_known t then VVariant t decodedStr else VInvalid)
  end.

Definition loop_count (numTuples numComp : Z) : nat :=
  if (0 <? numTuples) && (0 <? numComp)
  then Z.to_nat (numTuples * numComp) else O.

(** The dispatch on the lower-cased type tag (lines 1560-1981): the array
    built and filled, or [None] for [nullptr]. *)
Definition ReadArray_data (FileType : Z) (type : list Z)
  (numTuples numComp : Z) : ST istream (option vtkAbstractArray) :=
  let fixed cls sz of_bytes rd :=
    vs <- read_fixed FileType sz of_bytes rd numTuples numComp ;;
    ret (Some (SetValues (New cls numComp) vs)) in
  let ints cls t :=
    fixed cls (Z.to_nat (ctype_bits t / 8))
          (of_be (ctype_signed t) (ctype_bits t))
          (Read_elem VInt (Read t)) in
  if strncmp0 type (bytes_of "bit") 3 then
    r <- read_bit FileType numTuples numComp ;;
    ret (option_map (SetValues (New vtkBitArray numComp)) r)
  else if strcmp0 type (bytes_of "char")
          || strcmp0 type (bytes_of "signed_char") then
    fixed vtkCharArray 1%nat (of_be true 8) (Read_elem VInt (Read_char to_schar))
  else if strncmp0 type (bytes_of "unsigned_char") 13 then
    fixed vtkUnsignedCharArray 1%nat (of_be false 8)
          (Read_elem VInt (Read_char to_uchar))
  else if strncmp0 type (bytes_of "short") 5 then ints vtkShortArray c_short
  else if strncmp0 type (bytes_of "unsigned_short") 14 then
    ints vtkUnsignedShortArray c_ushort
  else if strncmp0 type (bytes_of "vtkidtype") 9 then
    vs <- read_vtkidtype FileType numTuples numComp ;;
    ret (Some (SetValues (New vtkIdTypeArray numComp) vs))
  else if strncmp0 type (bytes_of "int") 3 then ints vtkIntArray c_int
  else if strncmp0 type (bytes_of "unsigned_int") 12 then
    ints vtkUnsignedIntArray c_uint
  else if strncmp0 type (bytes_of "long") 4 then ints vtkLongArray c_long
  else if strncmp0 type (bytes_of "unsigned_long") 13 then
    ints vtkUnsignedLongArray c_ulong
  else if strncmp0 type (bytes_of "vtktypeint64") 12 then
    ints vtkTypeInt64Array c_longlong
  else if strncmp0 type (bytes_of "vtktypeuint64") 13 then
    ints vtkTypeUInt64Array c_ulonglong
  else if strncmp0 type (bytes_of "float") 5 then
    fixed vtkFloatArray 4%nat (fun bs => VFloat (float32_of_bits (be_value bs)))
          (Read_elem VFloat (Read_float X))
  else if strncmp0 type (bytes_of "double") 6 then
    fixed vtkDoubleArray 8%nat (fun bs => VFloat (float64_of_bits (be_value bs)))
          (Read_elem VFloat (Read_double X))
  else if strncmp0 type (bytes_of "string") 6
          || strncmp0 type (bytes_of "utf8_string") 11 then
    vs <- (if FileType =? VTK_BINARY then
             _ <- lift (getline 256 10) ;;
             read_values (s <- read_binary_string ;; ret (VString s))
                         (loop_count numTuples numComp)
           else
             _ <- my_getline 10 ;;
             read_values (s <- read_ascii_string ;; ret (VString s))
                         (loop_count numTuples numComp)) ;;
    ret (Some (SetValues (New vtkStringArray numComp) vs))
  else if strncmp0 type (bytes_of "variant") 7 then
    vs <- read_values read_variant (loop_count numTuples numComp) ;;
    ret (Some (SetValues (New vtkVariantArray numComp) vs))
  else ret None.

(** *** The tail of ReadArray: blank lines, then the METADATA block *)

Inductive blank_scan : Type := SawNewline | SawOther | AllBlank.

(** The [for] loop over the characters peeked (lines 1995-2022), up to the
    first that is neither a space nor a carriage return. *)
Fixpoint scan_blank (line : list Z) : blank_scan :=
  match line with
  | [] => AllBlank
  | c :: t =>
      if (c =? 32) || (c =? 13) then scan_blank t
      else if c =? 10 then SawNewline
      else SawOther
  end.

(** The [do ... while] loop of lines 1991-2030, entered with the characters
    peeked.  [true]: the loop is left and the metadata check follows;
    [false]: [ReadArray] returns the array from inside the loop.  When 256
    characters were peeked and all are spaces or carriage returns, nothing
    is consumed and the loop condition holds again: the loop never ends.
    Each line popped consumes input, which bounds the other turns. *)
Fixpoint pop_blank_lines_fuel (fuel : nat) (line : list Z) : ST istream bool :=
  match scan_blank line with
  | SawOther => ret true
  | AllBlank => if (length line =? 256)%nat then diverges else ret true
  | SawNewline =>
      match fuel with
      | O => diverges
      | S fuel' =>
          '(ok, _) <- ReadLine ;;
          if ok : bool then
            line' <- Peek 256 ;;
            match line' with
            | [] => ret false
            | _ :: _ => pop_blank_lines_fuel fuel' line'
            end
          else ret false
      end
  end.

Definition pop_blank_lines (line : list Z) : ST istream bool :=
  fun s => pop_blank_lines_fuel (S (length (rest s))) line s.

(** [sscanf(line, "information %d", &numKeys) == 1]; a number that does
    not fit [int] has no defined conversion. *)
Definition scan_information (line : list Z) : outcome (option Z) :=
  match scan_lit (bytes_of "information") line with
  | None => Ret None
  | Some l1 =>
      match scan_d l1 with
      | None => Ret None
      | Some (v, _) => if in_int_range v then Ret (Some v) else Undefined
      end
  end.

(** The COMPONENT_NAMES loop (lines 2065-2076). *)
Fixpoint component_names_loop (n : nat) (i : Z) (array : vtkAbstractArray)
  : ST istream vtkAbstractArray :=
  match n with
  | O => ret array
  | S n' =>
      '(ok, line) <- ReadLine ;;
      if ok : bool then
        decoded <- decode line ;;
        component_names_loop n' (i + 1)
          (SetComponentName array i (cstr decoded))
      else component_names_loop n' (i + 1) array
  end.

(** The [while (this->ReadLine(line))] loop of lines 2052-2093. *)
Fixpoint metadata_loop (fuel : nat) (numComp : Z) (array : vtkAbstractArray)
  : ST istream vtkAbstractArray :=
  match fuel with
  | O => diverges
  | S fuel' =>
      '(ok, line0) <- ReadLine ;;
      if ok : bool then
        let line := LowerCase line0 256 in
        match line with
        | [] => ret array
        | _ :: _ =>
            if strncmp0 line (bytes_of "component_names") 15 then
              array' <- component_names_loop (Z.to_nat numComp) 0 array ;;
              metadata_loop fuel' numComp array'
            else if strncmp0 line (bytes_of "information") 11 then
              match scan_information line with
              | Ret None => metadata_loop fuel' numComp array
              | Ret (Some numKeys) =>
                  '(_, info) <- ReadInformation X (Information array) numKeys ;;
                  metadata_loop fuel' numComp (SetInformation array info)
              | Undefined => undefined
              | Diverges => diverges
              end
            else metadata_loop fuel' numComp array
        end
      else ret array
  end.

(** Lines 1985-2095. *)
Definition ReadArray_tail (numComp : Z) (array : vtkAbstractArray)
  : ST istream vtkAbstractArray :=
  line <- Peek 256 ;;
  readyToCheckMetaData <- pop_blank_lines line ;;
  if readyToCheckMetaData : bool then
    line8 <- Peek 8 ;;
    if (length line8 <? 8)%nat then ret array
    else if negb (strncmp0 (LowerCase (cstr line8) 8) (bytes_of "metadata") 8)
    then ret array
    else
      '(ok, _) <- ReadLine ;;
      if ok : bool then
        fun s => metadata_loop (S (length (rest s))) numComp array s
      else ret array
  else ret array.

(** vtkDataReader::ReadArray.  [None] is [nullptr].  The array classes are
    declared outside this file, and what they do with a negative count is
    not modelled: the embedding takes a negative tuple or component count
    as having no defined result. *)
Definition ReadArray (FileType : Z) (dataType : list Z)
  (numTuples numComp : Z) : ST istream (option vtkAbstractArray) :=
  if (numTuples <? 0) || (numComp <? 0) then undefined
  else
    let type := LowerCase dataType LowerCase_default in
    r <- ReadArray_data FileType type numTuples numComp ;;
    match r with
    | None => ret None
    | Some array =>
        array' <- ReadArray_tail numComp array ;;
        ret (Some array')
    end.

End Arrays.

(** ** The reader object and the attribute containers *)

Inductive vtkErrorCode : Type :=
| NoError | NoFileNameError | CannotOpenFileError
| PrematureEndOfFileError | UnrecognizedFileTypeError.

(** The two warnings of [ReadHeader]. *)
Inductive Warning : Type :=
| CannotReadFileVersion
| NewerFileVersion.

(** The members of [vtkDataReader] the functions below use.  [IS] is
    [None] for [nullptr].  [FileOnDisk] stands for the file system: the
    bytes of the file named [fname], [None] when it cannot be opened. *)
Record vtkDataReader : Type := mkReader {
  IS : option istream;
  FileType : Z;
  FileVersion : Z;
  FileMajorVersion : Z;
  FileMinorVersion : Z;
  Header : option (list Z);
  ScalarsName : option (list Z);
  VectorsName : option (list Z);
  TensorsName : option (list Z);
  NormalsName : option (list Z);
  TCoordsName : option (list Z);
  LookupTableName : option (list Z);
  FieldDataName : option (list Z);
  ScalarLut : option (list Z);
  ReadAllScalars : bool;
  ReadAllVectors : bool;
  ReadAllNormals : bool;
  ReadAllTensors : bool;
  ReadAllColorScalars : bool;
  ReadAllTCoords : bool;
  ReadAllFields : bool;
  ReadFromInputString : bool;
  FileOnDisk : option (list Z);
  ErrorCode : vtkErrorCode;
  Warnings : list Warning
}.

Definition set_IS (r : vtkDataReader) (s : option istream) : vtkDataReader :=
  mkReader s (FileType r) (FileVersion r) (FileMajorVersion r)
    (FileMinorVersion r) (Header r) (ScalarsName r) (VectorsName r)
    (TensorsName r) (NormalsName r) (TCoordsName r) (LookupTableName r)
    (FieldDataName r) (ScalarLut r) (ReadAllScalars r) (ReadAllVectors r)
    (ReadAllNormals r) (ReadAllTensors r) (ReadAllColorScalars r)
    (ReadAllTCoords r) (ReadAllFields r) (ReadFromInputString r)
    (FileOnDisk r) (ErrorCode r) (Warnings r).

Definition set_FileType (r : vtkDataReader) (t : Z) : vtkDataReader :=
  mkReader (IS r) t (FileVersion r) (FileMajorVersion r)
    (FileMinorVersion r) (Header r) (ScalarsName r) (VectorsName r)
    (TensorsName r) (NormalsName r) (TCoordsName r) (LookupTableName r)
    (FieldDataName r) (ScalarLut r) (ReadAllScalars r) (ReadAllVectors r)
    (ReadAllNormals r) (ReadAllTensors r) (ReadAllColorScalars r)
    (ReadAllTCoords r) (ReadAllFields r) (ReadFromInputString r)
    (FileOnDisk r) (ErrorCode r) (Warnings r).

Definition set_version (r : vtkDataReader) (major minor version : Z)
  : vtkDataReader :=
  mkReader (IS r) (FileType r) version major minor (Header r)
    (ScalarsName r) (VectorsName r)
    (TensorsName r) (NormalsName r) (TCoordsName r) (LookupTableName r)
    (FieldDataName r) (ScalarLut r) (ReadAllScalars r) (ReadAllVectors r)
    (ReadAllNormals r) (ReadAllTensors r) (ReadAllColorScalars r)
    (ReadAllTCoords r) (ReadAllFields r) (ReadFromInputString r)
    (FileOnDisk r) (ErrorCode r) (Warnings r).

Definition set_Header (r : vtkDataReader) (h : list Z) : vtkDataReader :=
  mkReader (IS r) (FileType r) (FileVersion r) (FileMajorVersion r)
    (FileMinorVersion r) (Some h) (ScalarsName r) (VectorsName r)
    (TensorsName r) (NormalsName r) (TCoordsName r) (LookupTableName r)
    (FieldDataName r) (ScalarLut r) (ReadAllScalars r) (ReadAllVectors r)
    (ReadAllNormals r) (ReadAllTensors r) (ReadAllColorScalars r)
    (ReadAllTCoords r) (ReadAllFields r) (ReadFromInputString r)
    (FileOnDisk r) (ErrorCode r) (Warnings r).

Definition set_ScalarLut (r : vtkDataReader) (l : option (list Z))
  : vtkDataReader :=
  mkReader (IS r) (FileType r) (FileVersion r) (FileMajorVersion r)
    (FileMinorVersion r) (Header r) (ScalarsName r) (VectorsName r)
    (TensorsName r) (NormalsName r) (TCoordsName r) (LookupTableName r)
    (FieldDataName r) l (ReadAllScalars r) (ReadAllVectors r)
    (ReadAllNormals r) (ReadAllTensors r) (ReadAllColorScalars r)
    (ReadAllTCoords r) (ReadAllFields r) (ReadFromInputString r)
    (FileOnDisk r) (ErrorCode r) (Warnings r).

Definition set_ErrorCode (r : vtkDataReader) (e : vtkErrorCode)
  : vtkDataReader :=
  mkReader (IS r) (FileType r) (FileVersion r) (FileMajorVersion r)
    (FileMinorVersion r) (Header r) (ScalarsName r) (VectorsName r)
    (TensorsName r) (NormalsName r) (TCoordsName r) (LookupTableName r)
    (FieldDataName r) (ScalarLut r) (ReadAllScalars r) (ReadAllVectors r)
    (ReadAllNormals r) (ReadAllTensors r) (ReadAllColorScalars r)
    (ReadAllTCoords r) (ReadAllFields r) (ReadFromInputString r)
    (FileOnDisk r) e (Warnings r).

Definition add_Warning (r : vtkDataReader) (w : Warning) : vtkDataReader :=
  mkReader (IS r) (FileType r) (FileVersion r) (FileMajorVersion r)
    (FileMinorVersion r) (Header r) (ScalarsName r) (VectorsName r)
    (TensorsName r) (NormalsName r) (TCoordsName r) (LookupTableName r)
    (FieldDataName r) (ScalarLut r) (ReadAllScalars r) (ReadAllVectors r)
    (ReadAllNormals r) (ReadAllTensors r) (ReadAllColorScalars r)
    (ReadAllTCoords r) (ReadAllFields r) (ReadFromInputString r)
    (FileOnDisk r) (ErrorCode r) (Warnings r ++ [w]).

(** An action on [this->IS], run on the reader; a null [IS] is
    dereferenced. *)
Definition onIS {A} (m : ST istream A) : ST vtkDataReader A :=
  fun r =>
    match IS r with
    | None => Undefined
    | Some s =>
        match m s with
        | Ret (a, s') => Ret (a, set_IS r (Some s'))
        | Undefined => Undefined
        | Diverges => Diverges
        end
    end.

Definition SetErrorCode (e : vtkErrorCode) : ST vtkDataReader unit :=
  modify (fun r => set_ErrorCode r e).
Definition vtkWarningMacro (w : Warning) : ST vtkDataReader unit :=
  modify (fun r => add_Warning r w).

(** [this->Name && strcmp(name, this->Name) != 0]: a filter is configured
    and differs from the name read. *)
Definition filter_differs (filter : option (list Z)) (name : list Z) : bool :=
  match filter with
  | Some f => negb (strcmp0 name f)
  | None => false
  end.

(** Modelled from the spec: [vtkDataSetAttributes], declared outside
    this file.  Each scope has one designated slot per attribute kind, filled
    by at most one array, and a sequence of named extra arrays; the
    [Set...] functions fill a slot and [AddArray] adds an extra array. *)
Record vtkDataSetAttributes : Type := mkAttributes {
  Scalars : option vtkAbstractArray;
  Vectors : option vtkAbstractArray;
  Normals : option vtkAbstractArray;
  Tensors : option vtkAbstractArray;
  TCoords : option vtkAbstractArray;
  GlobalIds : option vtkAbstractArray;
  PedigreeIds : option vtkAbstractArray;
  Arrays : list vtkAbstractArray
}.

Definition empty_attributes : vtkDataSetAttributes :=
  mkAttributes None None None None None None None [].

Definition SetScalars (a : vtkDataSetAttributes) (d : vtkAbstractArray) :=
  mkAttributes (Some d) (Vectors a) (Normals a) (Tensors a) (TCoords a)
               (GlobalIds a) (PedigreeIds a) (Arrays a).
Definition SetVectors (a : vtkDataSetAttributes) (d : vtkAbstractArray) :=
  mkAttributes (Scalars a) (Some d) (Normals a) (Tensors a) (TCoords a)
               (GlobalIds a) (PedigreeIds a) (Arrays a).
Definition SetNormals (a : vtkDataSetAttributes) (d : vtkAbstractArray) :=
  mkAttributes (Scalars a) (Vectors a) (Some d) (Tensors a) (TCoords a)
               (GlobalIds a) (PedigreeIds a) (Arrays a).
Definition SetTensors (a : vtkDataSetAttributes) (d : vtkAbstractArray) :=
  mkAttributes (Scalars a) (Vectors a) (Normals a) (Some d) (TCoords a)
               (GlobalIds a) (PedigreeIds a) (Arrays a).
Definition SetTCoords (a : vtkDataSetAttributes) (d : vtkAbstractArray) :=
  mkAttributes (Scalars a) (Vectors a) (Normals a) (Tensors a) (Some d)
               (GlobalIds a) (PedigreeIds a) (Arrays a).
Definition SetGlobalIds (a : vtkDataSetAttributes) (d : vtkAbstractArray) :=
  mkAttributes (Scalars a) (Vectors a) (Normals a) (Tensors a) (TCoords a)
               (Some d) (PedigreeIds a) (Arrays a).
Definition SetPedigreeIds (a : vtkDataSetAttributes) (d : vtkAbstractArray) :=
  mkAttributes (Scalars a) (Vectors a) (Normals a) (Tensors a) (TCoords a)
               (GlobalIds a) (Some d) (Arrays a).
Definition AddArray (a : vtkDataSetAttributes) (d : vtkAbstractArray) :=
  mkAttributes (Scalars a) (Vectors a) (Normals a) (Tensors a) (TCoords a)
               (GlobalIds a) (PedigreeIds a) (Arrays a ++ [d]).

(** Modelled from the spec: [vtkFieldData], declared outside this
    file: an ordered sequence of arrays, to which [AddArray] inserts. *)
Definition vtkFieldData : Type := list vtkAbstractArray.

(** ** Conversions of floating-point values *)

(** A [float] converted to [double]: exact. *)
Definition double_of_float (f : spec_float) : spec_float :=
  match f with
  | S754_finite s m e => binary_round 53 1024 s m e
  | _ => f
  end.

Definition double_255 : spec_float := binary_normalize 53 1024 255 0 false.
Definition double_half : spec_float := binary_normalize 53 1024 1 (-1) false.

(** The integer a finite [double] truncates to. *)
Definition trunc_double (x : spec_float) : option Z :=
  match x with
  | S754_zero _ => Some 0
  | S754_finite s m e =>
      Some (cond_Zopp s (if 0 <=? e then Zpos m * 2 ^ e
                         else Zpos m / 2 ^ (- e)))
  | _ => None
  end.

(** [(unsigned char) x] for a [double] [x]: defined when the truncated
    value is representable. *)
Definition uchar_of_double (x : spec_float) : option Z :=
  match trunc_double x with
  | Some z => if (0 <=? z) && (z <=? 255) then Some z else None
  | None => None
  end.

(** [(unsigned char)(255.0 * v + 0.5)] for a [float] [v] (line 2533). *)
Definition color_of_float (v : spec_float) : option Z :=
  uchar_of_double
    (SFadd 53 1024 (SFmul 53 1024 double_255 (double_of_float v)) double_half).

(** ** Functions of the reader that use its configuration *)

Section Sections.

Variable X : Externals.

Definition is_some {A} (o : option A) : bool :=
  match o with Some _ => true | None => false end.

Definition of_outcome {S A} (o : outcome A) : ST S A :=
  fun s => match o with
           | Ret a => Ret (a, s)
           | Undefined => Undefined
           | Diverges => Diverges
           end.

(** *** vtkDataReader::ReadHeader (lines 545-666) *)

(** [sscanf(line + 22, "%d.%d", &major, &minor) == 2]. *)
Definition scan_version (l : list Z) : outcome (option (Z * Z)) :=
  match scan_d l with
  | None => Ret None
  | Some (major, l1) =>
      if negb (in_int_range major) then Undefined
      else
        match l1 with
        | 46 :: l2 =>
            match scan_d l2 with
            | None => Ret None
            | Some (minor, _) =>
                if in_int_range minor then Ret (Some (major, minor))
                else Undefined
            end
        | _ => Ret None
        end
  end.

(** Lines 636-660: a BINARY file that was not given as a string is opened
    again and read up to the same point. *)
Definition reopen_binary : ST vtkDataReader Z :=
  r <- gets (fun r => r) ;;
  if (FileType r =? VTK_BINARY) && negb (ReadFromInputString r) then
    match FileOnDisk r with
    | None =>
        _ <- modify (fun r => set_IS r None) ;;
        _ <- SetErrorCode CannotOpenFileError ;;
        ret 0
    | Some bytes =>
        _ <- modify (fun r => set_IS r (Some (open_string bytes))) ;;
        _ <- onIS ReadLine ;;
        _ <- onIS ReadLine ;;
        _ <- onIS ReadString ;;
        ret 1
    end
  else ret 1.

(** Lines 573-591: the version after the prefix, the two warnings, and
    [FileVersion], an [int]. *)
Definition ReadHeader_version (line : list Z) : ST vtkDataReader unit :=
  v <- of_outcome (scan_version (skipn 22 line)) ;;
  '(major, minor) <-
    match v with
    | Some mm => ret mm
    | None => _ <- vtkWarningMacro CannotReadFileVersion ;; ret (0, 0)
    end ;;
  _ <- (if (major >? vtkLegacyReaderMajorVersion X)
           || ((major =? vtkLegacyReaderMajorVersion X)
               && (minor >? vtkLegacyReaderMinorVersion X))
        then vtkWarningMacro NewerFileVersion else ret tt) ;;
  if in_int_range (10 * major) && in_int_range (10 * major + minor)
  then modify (fun r => set_version r major minor (10 * major + minor))
  else undefined.

(** Lines 608-665: the type token. *)
Definition ReadHeader_type : ST vtkDataReader Z :=
  tok <- onIS ReadString ;;
  match tok with
  | None => _ <- SetErrorCode PrematureEndOfFileError ;; ret 0
  | Some line =>
      let line := LowerCase line LowerCase_default in
      if strncmp0 line (bytes_of "ascii") 5 then
        _ <- modify (fun r => set_FileType r VTK_ASCII) ;;
        reopen_binary
      else if strncmp0 line (bytes_of "binary") 6 then
        _ <- modify (fun r => set_FileType r VTK_BINARY) ;;
        reopen_binary
      else
        _ <- modify (fun r => set_FileType r 0) ;;
        _ <- SetErrorCode UnrecognizedFileTypeError ;;
        ret 0
  end.

(** Lines 593-607: the title, then the type. *)
Definition ReadHeader_title : ST vtkDataReader Z :=
  '(ok, line) <- onIS ReadLine ;;
  if negb ok then
    _ <- SetErrorCode PrematureEndOfFileError ;; ret 0
  else
    _ <- modify (fun r => set_Header r line) ;;
    ReadHeader_type.

Definition ReadHeader : ST vtkDataReader Z :=
  '(ok, line) <- onIS ReadLine ;;
  if negb ok then
    _ <- SetErrorCode PrematureEndOfFileError ;; ret 0
  else if negb (strncmp0 (bytes_of "# vtk DataFile Version") line 22) then
    _ <- SetErrorCode UnrecognizedFileTypeError ;; ret 0
  else
    _ <- ReadHeader_version line ;;
    ReadHeader_title.

(** *** The attribute sections *)

(** [this->ReadArray(...)], on [this->IS] with [this->FileType]. *)
Definition ReadArray_this (dataType : list Z) (numTuples numComp : Z)
  : ST vtkDataReader (option vtkAbstractArray) :=
  fun r => onIS (ReadArray X (FileType r) dataType numTuples numComp) r.

Definition DownCast_vtkDataArray (o : option vtkAbstractArray)
  : option vtkAbstractArray :=
  match o with
  | Some d => if is_vtkDataArray (Class d) then Some d else None
  | None => None
  end.

(** The lines every section ends with: the slot is set unless the section
    is skipped; a skipped array is added as an extra array when the
    read-all flag of its kind is on. *)
Definition install (skip readAll : bool)
  (set : vtkDataSetAttributes -> vtkAbstractArray -> vtkDataSetAttributes)
  (a : vtkDataSetAttributes) (data : vtkAbstractArray)
  : vtkDataSetAttributes :=
  if negb skip then set a data
  else if readAll then AddArray a data
  else a.

(** vtkDataReader::SetScalarLut (lines 3882-3905), for a non-null
    argument. *)
Definition SetScalarLut (lut : list Z) : ST vtkDataReader unit :=
  modify (fun r => set_ScalarLut r (Some lut)).

(** vtkDataReader::ReadScalarData (lines 2216-2306). *)
Definition ReadScalarData (a : vtkDataSetAttributes) (numPts : Z)
  : ST vtkDataReader (Z * vtkDataSetAttributes) :=
  buffer <- onIS ReadString ;;
  match buffer with
  | None => ret (0, a)
  | Some buffer =>
  line <- onIS ReadString ;;
  match line with
  | None => ret (0, a)
  | Some line =>
  decoded <- decode buffer ;;
  let name := cstr decoded in
  key <- onIS ReadString ;;
  match key with
  | None => ret (0, a)
  | Some key =>
  let key := LowerCase key LowerCase_default in
  header <-
    (if negb (strcmp0 key (bytes_of "lookup_table")) then
       match atoi key with
       | None => undefined
       | Some numComp =>
           if numComp <? 1 then ret None
           else
             key' <- onIS ReadString ;;
             ret (option_map (fun k => (numComp, k)) key')
       end
     else ret (Some (1, key))) ;;
  match header with
  | None => ret (0, a)
  | Some (numComp, key) =>
  if negb (strcmp0 (LowerCase key LowerCase_default) (bytes_of "lookup_table"))
  then ret (0, a)
  else
  tableName <- onIS ReadString ;;
  match tableName with
  | None => ret (0, a)
  | Some tableName =>
  ScalarsName_ <- gets ScalarsName ;;
  let skipScalar := is_some (Scalars a) || filter_differs ScalarsName_ name in
  _ <- (if skipScalar then ret tt else SetScalarLut tableName) ;;
  data <- ReadArray_this line numPts numComp ;;
  match DownCast_vtkDataArray data with
  | Some data =>
      ReadAllScalars_ <- gets ReadAllScalars ;;
      ret (1, install skipScalar ReadAllScalars_ SetScalars a
                      (SetName data name))
  | None => ret (0, a)
  end
  end end end end end.

(** The shape that ReadVectorData (lines 2310-2358), ReadNormalData (lines
    2362-2410) and ReadTensorData (lines 2414-2461) share. *)
Definition ReadAttributeData
  (slot : vtkDataSetAttributes -> option vtkAbstractArray)
  (filter : vtkDataReader -> option (list Z))
  (readAll : vtkDataReader -> bool)
  (set : vtkDataSetAttributes -> vtkAbstractArray -> vtkDataSetAttributes)
  (a : vtkDataSetAttributes) (numPts numComp : Z)
  : ST vtkDataReader (Z * vtkDataSetAttributes) :=
  buffer <- onIS ReadString ;;
  match buffer with
  | None => ret (0, a)
  | Some buffer =>
  line <- onIS ReadString ;;
  match line with
  | None => ret (0, a)
  | Some line =>
  decoded <- decode buffer ;;
  let name := cstr decoded in
  filter_ <- gets filter ;;
  let skip := is_some (slot a) || filter_differs filter_ name in
  data <- ReadArray_this line numPts numComp ;;
  match DownCast_vtkDataArray data with
  | Some data =>
      readAll_ <- gets readAll ;;
      ret (1, install skip readAll_ set a (SetName data name))
  | None => ret (0, a)
  end
  end end.

Definition ReadVectorData (a : vtkDataSetAttributes) (numPts : Z) :=
  ReadAttributeData Vectors VectorsName ReadAllVectors SetVectors a numPts 3.

Definition ReadNormalData (a : vtkDataSetAttributes) (numPts : Z) :=
  ReadAttributeData Normals NormalsName ReadAllNormals SetNormals a numPts 3.

Definition ReadTensorData (a : vtkDataSetAttributes) (numPts numComp : Z) :=
  ReadAttributeData Tensors TensorsName ReadAllTensors SetTensors
                    a numPts numComp.

(** The quantized copy built at lines 2524-2535: [numPts] tuples of
    [numComp] components, of which the elements [i * numComp + j] are set.
    An element of [data] never written has no value to convert. *)
Fixpoint quantize_values (vs : list (option Value))
  : outcome (list (option Value)) :=
  match vs with
  | [] => Ret []
  | Some (VFloat f) :: t =>
      match color_of_float f, quantize_values t with
      | Some b, Ret r => Ret (Some (VInt b) :: r)
      | None, _ => Undefined
      | _, o => o
      end
  | _ :: _ => Undefined
  end.

(** vtkDataReader::ReadCoScalarData (lines 2465-2558). *)
Definition ReadCoScalarData (a : vtkDataSetAttributes) (numPts : Z)
  : ST vtkDataReader (Z * vtkDataSetAttributes) :=
  buffer <- onIS ReadString ;;
  match buffer with
  | None => ret (0, a)
  | Some buffer =>
  '(ok, w) <- onIS (Read c_int) ;;
  match ok, w with
  | true, Some numComp =>
  decoded <- decode buffer ;;
  let name := cstr decoded in
  ScalarsName_ <- gets ScalarsName ;;
  ReadAllColorScalars_ <- gets ReadAllColorScalars ;;
  FileType_ <- gets FileType ;;
  let skipScalar := is_some (Scalars a) || filter_differs ScalarsName_ name in
  if FileType_ =? VTK_BINARY then
    data <- ReadArray_this (bytes_of "unsigned_char") numPts numComp ;;
    match data with
    | Some data =>
        ret (1, install skipScalar ReadAllColorScalars_ SetScalars a
                        (SetName data name))
    | None => ret (0, a)
    end
  else
    data <- ReadArray_this (bytes_of "float") numPts numComp ;;
    match data with
    | Some data =>
        if negb skipScalar || ReadAllColorScalars_ then
          let n := loop_count numPts numComp in
          q <- of_outcome (quantize_values (firstn n (Values data))) ;;
          let scalars :=
            SetName
              (SetValues (New vtkUnsignedCharArray numComp)
                 (q ++ repeat None (Z.to_nat (numPts * Z.max 1 numComp) - n)))
              name in
          ret (1, install skipScalar ReadAllColorScalars_ SetScalars a scalars)
        else ret (1, a)
    | None => ret (0, a)
    end
  | _, _ => ret (0, a)
  end end.

(** vtkDataReader::ReadTCoordsData (lines 2562-2619). *)
Definition ReadTCoordsData (a : vtkDataSetAttributes) (numPts : Z)
  : ST vtkDataReader (Z * vtkDataSetAttributes) :=
  buffer <- onIS ReadString ;;
  match buffer with
  | None => ret (0, a)
  | Some buffer =>
  '(ok, w) <- onIS (Read c_int) ;;
  match ok, w with
  | true, Some dim =>
  line <- onIS ReadString ;;
  match line with
  | None => ret (0, a)
  | Some line =>
  decoded <- decode buffer ;;
  let name := cstr decoded in
  if (dim <? 1) || (dim >? 3) then ret (0, a)
  else
  TCoordsName_ <- gets TCoordsName ;;
  let skipTCoord := is_some (TCoords a) || filter_differs TCoordsName_ name in
  data <- ReadArray_this line numPts dim ;;
  match DownCast_vtkDataArray data with
  | Some data =>
      ReadAllTCoords_ <- gets ReadAllTCoords ;;
      ret (1, install skipTCoord ReadAllTCoords_ SetTCoords a
                      (SetName data name))
  | None => ret (0, a)
  end
  end
  | _, _ => ret (0, a)
  end end.

(** vtkDataReader::ReadGlobalIds (lines 2623-2666) and ReadPedigreeIds
    (lines 2670-2713): there is no read-all flag, and only the first
    applies [vtkArrayDownCast<vtkDataArray>]. *)
Definition ReadIds (downcast : bool)
  (slot : vtkDataSetAttributes -> option vtkAbstractArray)
  (set : vtkDataSetAttributes -> vtkAbstractArray -> vtkDataSetAttributes)
  (a : vtkDataSetAttributes) (numPts : Z)
  : ST vtkDataReader (Z * vtkDataSetAttributes) :=
  buffer <- onIS ReadString ;;
  match buffer with
  | None => ret (0, a)
  | Some buffer =>
  line <- onIS ReadString ;;
  match line with
  | None => ret (0, a)
  | Some line =>
  decoded <- decode buffer ;;
  let name := cstr decoded in
  let skip := is_some (slot a) in
  data <- ReadArray_this line numPts 1 ;;
  match (if downcast then DownCast_vtkDataArray data else data) with
  | Some data => ret (1, install skip false set a (SetName data name))
  | None => ret (0, a)
  end
  end end.

Definition ReadGlobalIds := ReadIds true GlobalIds SetGlobalIds.
Definition ReadPedigreeIds := ReadIds false PedigreeIds SetPedigreeIds.

(** The ASCII loop of ReadLutData (lines 3065-3076); [None] when a [Read]
    fails. *)
Fixpoint read_lut_rows (n : nat)
  : ST istream (option (list (spec_float * spec_float * spec_float * spec_float))) :=
  match n with
  | O => ret (Some [])
  | S n' =>
      '(ok0, r) <- Read_float X ;;
      if negb ok0 then ret None else
      '(ok1, g) <- Read_float X ;;
      if negb ok1 then ret None else
      '(ok2, b) <- Read_float X ;;
      if negb ok2 then ret None else
      '(ok3, al) <- Read_float X ;;
      if negb ok3 then ret None else
      match r, g, b, al with
      | Some r, Some g, Some b, Some al =>
          rows <- read_lut_rows n' ;;
          ret (option_map (cons (r, g, b, al)) rows)
      | _, _, _, _ => ret None
      end
  end.

(** vtkDataReader::ReadLutData (lines 3022-3089).  What [vtkLookupTable]
    does with a negative size is not modelled. *)
Definition ReadLutData (a : vtkDataSetAttributes)
  : ST vtkDataReader (Z * vtkDataSetAttributes) :=
  name <- onIS ReadString ;;
  match name with
  | None => ret (0, a)
  | Some name =>
  '(ok, w) <- onIS (Read c_int) ;;
  match ok, w with
  | true, Some size =>
  if size <? 0 then undefined else
  LookupTableName_ <- gets LookupTableName ;;
  ScalarLut_ <- gets ScalarLut ;;
  FileType_ <- gets FileType ;;
  let skipTable := negb (is_some (Scalars a))
                   || filter_differs LookupTableName_ name
                   || filter_differs ScalarLut_ name in
  lut <-
    (if FileType_ =? VTK_BINARY then
       _ <- onIS (lift (getline 256 10)) ;;
       got <- onIS (lift (read (4 * Z.to_nat size))) ;;
       iseof <- onIS (gets eof) ;;
       if iseof : bool then ret None
       else ret (Some (LutBytes
               (map Some got ++ repeat None (4 * Z.to_nat size - length got))))
     else
       rows <- onIS (read_lut_rows (Z.to_nat size)) ;;
       ret (option_map LutRows rows)) ;;
  match lut with
  | None => ret (0, a)
  | Some lut =>
      match skipTable, Scalars a with
      | false, Some sc =>
          ret (1, mkAttributes (Some (SetLookupTable sc lut)) (Vectors a)
                    (Normals a) (Tensors a) (TCoords a) (GlobalIds a)
                    (PedigreeIds a) (Arrays a))
      | _, _ => ret (1, a)
      end
  end
  | _, _ => ret (0, a)
  end end.

(** *** Field data *)

Inductive FieldType : Type := POINT_DATA | CELL_DATA | FIELD_DATA.

Definition ghost_value (newValue : Z) (v : option Value) : option Value :=
  match v with
  | Some (VInt g) => Some (VInt (if g >? 0 then newValue else g))
  | other => other
  end.

(** vtkDataReader::ConvertGhostLevelsToGhostType (lines 3327-3353), of
    the reader [this]; returns the array as left.  [strcmp] on a null name
    has no defined behaviour. *)
Definition ConvertGhostLevelsToGhostType (this : vtkDataReader)
  (fieldType : FieldType) (data : vtkAbstractArray)
  : outcome vtkAbstractArray :=
  let ucData := match Class data with
                | vtkUnsignedCharArray => true | _ => false end in
  let numComp := NumberOfComponents data in
  if (FileMajorVersion this <? 4) && ucData && (numComp =? 1)
     && (match fieldType with CELL_DATA | POINT_DATA => true | _ => false end)
  then
    match Name data with
    | None => Undefined
    | Some name =>
        if strcmp0 name (bytes_of "vtkGhostLevels") then
          let newValue :=
            to_uchar (match fieldType with
                      | CELL_DATA => DUPLICATECELL X
                      | _ => DUPLICATEPOINT X
                      end) in
          Ret (SetName (SetValues data (map (ghost_value newValue) (Values data)))
                       (GhostArrayName X))
        else Ret data
    end
  else Ret data.

(** The locals [numComp], [numTuples] and [type] of ReadFieldData, which
    live across the turns of its loop; [None] while undetermined. *)
Record field_locals : Type := mkLocals {
  l_numComp : option Z;
  l_numTuples : option Z;
  l_type : option (list Z)
}.

Definition keep {A} (new old : option A) : option A :=
  match new with Some v => Some v | None => old end.

(** The [for] loop of lines 3382-3410; [None] when the function returns
    [nullptr] from inside it.  No read of the loop is checked: a variable
    that a failed read did not write is used as it is. *)
Fixpoint ReadFieldData_loop (n : nat) (fieldType : FieldType)
  (skipField : bool) (loc : field_locals) (f : vtkFieldData)
  : ST vtkDataReader (option vtkFieldData) :=
  match n with
  | O => ret (Some f)
  | S n' =>
      buffer <- onIS ReadString ;;
      match buffer with
      | None => undefined
      | Some buffer =>
          if strcmp0 buffer (bytes_of "NULL_ARRAY")
          then ReadFieldData_loop n' fieldType skipField loc f
          else
            decoded <- decode buffer ;;
            let name := cstr decoded in
            '(_, nc) <- onIS (Read c_vtkIdType) ;;
            '(_, nt) <- onIS (Read c_vtkIdType) ;;
            ty <- onIS ReadString ;;
            let loc' := mkLocals (keep nc (l_numComp loc))
                                 (keep nt (l_numTuples loc))
                                 (keep ty (l_type loc)) in
            match l_type loc', l_numTuples loc', l_numComp loc' with
            | Some type, Some numTuples, Some numComp =>
                data <- ReadArray_this type numTuples numComp ;;
                match data with
                | Some data =>
                    this <- gets (fun r => r) ;;
                    if negb skipField || ReadAllFields this then
                      data' <- of_outcome
                                 (ConvertGhostLevelsToGhostType this fieldType
                                    (SetName data name)) ;;
                      ReadFieldData_loop n' fieldType skipField loc'
                                         (f ++ [data'])
                    else ReadFieldData_loop n' fieldType skipField loc' f
                | None => ret None
                end
            | _, _, _ => undefined
            end
      end
  end.

(** vtkDataReader::ReadFieldData (lines 3356-3421); [None] is
    [nullptr]. *)
Definition ReadFieldData (fieldType : FieldType)
  : ST vtkDataReader (option vtkFieldData) :=
  name <- onIS ReadString ;;
  match name with
  | None => ret None
  | Some name =>
  '(ok, w) <- onIS (Read c_int) ;;
  match ok, w with
  | true, Some numArrays =>
      FieldDataName_ <- gets FieldDataName ;;
      let skipField := filter_differs FieldDataName_ name in
      r <- ReadFieldData_loop (Z.to_nat numArrays) fieldType skipField
                              (mkLocals None None None) [] ;;
      match r with
      | None => ret None
      | Some f =>
          ReadAllFields_ <- gets ReadAllFields ;;
          if skipField && negb ReadAllFields_ then ret None
          else ret (Some f)
      end
  | _, _ => ret None
  end end.

(** *** vtkDataReader::ReadRowData (lines 1363-1501) *)

(** The keyword loop.  Every turn starts with a [ReadString] that
    consumes input, which bounds the number of turns. *)
Fixpoint ReadRowData_loop (fuel : nat) (a : vtkDataSetAttributes)
  (numEdges : Z) : ST vtkDataReader (Z * vtkDataSetAttributes) :=
  match fuel with
  | O => diverges
  | S fuel' =>
      tok <- onIS ReadString ;;
      match tok with
      | None => ret (1, a)
      | Some line0 =>
          let line := LowerCase line0 LowerCase_default in
          let section (rd : ST vtkDataReader (Z * vtkDataSetAttributes)) :=
            '(rc, a') <- rd ;;
            if rc =? 0 then ret (0, a')
            else ReadRowData_loop fuel' a' numEdges in
          if strncmp0 line (bytes_of "scalars") 7 then
            section (ReadScalarData a numEdges)
          else if strncmp0 line (bytes_of "vectors") 7 then
            section (ReadVectorData a numEdges)
          else if strncmp0 line (bytes_of "tensors6") 8 then
            section (ReadTensorData a numEdges 6)
          else if strncmp0 line (bytes_of "tensors") 7 then
            section (ReadTensorData a numEdges 9)
          else if strncmp0 line (bytes_of "normals") 7 then
            section (ReadNormalData a numEdges)
          else if strncmp0 line (bytes_of "texture_coordinates") 19 then
            section (ReadTCoordsData a numEdges)
          else if strncmp0 line (bytes_of "global_ids") 10 then
            section (ReadGlobalIds a numEdges)
          else if strncmp0 line (bytes_of "pedigree_ids") 12 then
            section (ReadPedigreeIds a numEdges)
          else if strncmp0 line (bytes_of "color_scalars") 13 then
            section (ReadCoScalarData a numEdges)
          else if strncmp0 line (bytes_of "lookup_table") 12 then
            section (ReadLutData a)
          else if strncmp0 line (bytes_of "field") 5 then
            f <- ReadFieldData FIELD_DATA ;;
            match f with
            | None => ret (0, a)
            | Some f => ReadRowData_loop fuel' (fold_left AddArray f a) numEdges
            end
          else ret (0, a)
      end
  end.

(** Returns the value returned and the row data as left. *)
Definition ReadRowData (a : vtkDataSetAttributes) (numEdges : Z)
  : ST vtkDataReader (Z * vtkDataSetAttributes) :=
  fun r =>
    match IS r with
    | None => Undefined
    | Some s => ReadRowData_loop (S (length (rest s))) a numEdges r
    end.

End Sections.

(** ** An instance of the externals, for the examples *)

(** A [num_get] for plain decimal numerals (an optional sign, digits, an
    optional point and digits), rounded to nearest at the given precision:
    what the C++ library gives on such input. *)
Definition simple_num_get (prec emax : Z) (l : list Z)
  : nat * spec_float * bool :=
  let '(neg, nsign, l1) :=
    match l with
    | 45 :: t => (true, 1%nat, t)
    | 43 :: t => (false, 1%nat, t)
    | _ => (false, 0%nat, l)
    end in
  let (ip, l2) := span isdigit l1 in
  let '(fp, ndot) :=
    match l2 with
    | 46 :: l3 => (fst (span isdigit l3), 1%nat)
    | _ => ([], 0%nat)
    end in
  let k := (nsign + length ip + ndot + length fp)%nat in
  match ip ++ fp with
  | [] => (k, S754_zero false, true)
  | ds =>
      match digits_value ds with
      | Zpos n =>
          (k, SFdiv prec emax (S754_finite neg n 0)
                    (S754_finite false (Z.to_pos (10 ^ Z.of_nat (length fp))) 0),
           false)
      | _ => (k, S754_zero neg, false)
      end
  end.

Definition example_registry (name location : list Z) : option KeyClass :=
  if bytes_eqb location (bytes_of "vtkDataArray") then
    if bytes_eqb name (bytes_of "UNITS_LABEL") then Some StringKey
    else if bytes_eqb name (bytes_of "LABELS") then Some StringVectorKey
    else if bytes_eqb name (bytes_of "L2_NORM_RANGE") then Some DoubleVectorKey
    else None
  else None.

Definition example_externals : Externals :=
  mkExternals (simple_num_get 24 128) (simple_num_get 53 1024)
              example_registry 1 1 (bytes_of "vtkGhostType") 5 1.

Definition example_reader (input : list Z) (FileType_ : Z) : vtkDataReader :=
  mkReader (Some (open_string input)) FileType_ 0 0 0 None
           None None None None None None None None
           false false false false false false false
           true None NoError [].

(** ** Reference definitions the theorems compare the code with *)

(** Percent decoding in the words of the specification, with the fate of
    an incomplete triplet made explicit: a percent sign followed by two
    hexadecimal digits becomes the byte they spell; a percent sign with
    fewer than two bytes after it is dropped; every other byte passes
    through. *)
Fixpoint decode_triplets (name : list Z) : list Z :=
  match name with
  | [] => []
  | c :: tl =>
      if c =? 37 then
        match tl with
        | h1 :: h2 :: tl' =>
            match hex_digit h1, hex_digit h2 with
            | Some a, Some b => (16 * a + b) :: decode_triplets tl'
            | _, _ => c :: decode_triplets tl
            end
        | _ => decode_triplets tl
        end
      else c :: decode_triplets tl
  end.

(** The names on which the decoder is characterised: no NUL (a C string),
    and every percent sign that has two bytes after it starts a triplet of
    two hexadecimal digits other than "%00". *)
Fixpoint well_escaped (name : list Z) : bool :=
  match name with
  | [] => true
  | c :: tl =>
      if c =? 37 then
        match tl with
        | h1 :: h2 :: tl' =>
            match hex_digit h1, hex_digit h2 with
            | Some a, Some b => negb (16 * a + b =? 0) && well_escaped tl'
            | _, _ => false
            end
        | _ => well_escaped tl
        end
      else negb (c =? 0) && well_escaped tl
  end.

(** The conditions of the conversion, in the specification's words: the
    file's major version is below 4, the array is unsigned 8-bit with one
    component, the scope is POINT_DATA or CELL_DATA, and the name is
    "vtkGhostLevels". *)
Definition ghost_conditions (this : vtkDataReader) (fieldType : FieldType)
  (data : vtkAbstractArray) (name : list Z) : bool :=
  (FileMajorVersion this <? 4)
  && match Class data with vtkUnsignedCharArray => true | _ => false end
  && (NumberOfComponents data =? 1)
  && match fieldType with POINT_DATA | CELL_DATA => true | FIELD_DATA => false end
  && bytes_eqb name (bytes_of "vtkGhostLevels").

Definition duplicate_marker (X : Externals) (fieldType : FieldType) : Z :=
  match fieldType with
  | CELL_DATA => DUPLICATECELL X
  | _ => DUPLICATEPOINT X
  end.

(** The two tests of the header, as predicates on what was read: the
    first line starts with the magic prefix; the type token starts, in any
    letter case, with "ascii" or with "binary". *)
Definition header_prefix (line : list Z) : bool :=
  strncmp0 (bytes_of "# vtk DataFile Version") line 22.

Definition type_is_ascii (tok : list Z) : bool :=
  strncmp0 (LowerCase tok LowerCase_default) (bytes_of "ascii") 5.

Definition type_recognized (tok : list Z) : bool :=
  type_is_ascii tok
  || strncmp0 (LowerCase tok LowerCase_default) (bytes_of "binary") 6.

(** The version is strictly greater than the reader's. *)
Definition newer_version (X : Externals) (major minor : Z) : bool :=
  (major >? vtkLegacyReaderMajorVersion X)
  || ((major =? vtkLegacyReaderMajorVersion X)
      && (minor >? vtkLegacyReaderMinorVersion X)).

(** The length prefix of a binary string value, as the writer lays it
    out: the top two bits of the first byte give the header code;
    the prefix is 1, 2, 4 or 8 bytes long and begins with that first byte;
    the length is the big-endian value of the prefix with its top two bits
    masked off. *)
Inductive string_header : list Z -> Z -> Prop :=
| header3 b0 :
    192 <= b0 <= 255 ->
    string_header [b0] (b0 mod 2 ^ 6)
| header2 b0 b1 :
    128 <= b0 <= 191 -> 0 <= b1 <= 255 ->
    string_header [b0; b1] (be_value [b0; b1] mod 2 ^ 14)
| header1 b0 b1 b2 b3 :
    64 <= b0 <= 127 -> 0 <= b1 <= 255 -> 0 <= b2 <= 255 -> 0 <= b3 <= 255 ->
    string_header [b0; b1; b2; b3] (be_value [b0; b1; b2; b3] mod 2 ^ 30)
| header0 b0 b1 b2 b3 b4 b5 b6 b7 :
    0 <= b0 <= 63 -> 0 <= b1 <= 255 -> 0 <= b2 <= 255 -> 0 <= b3 <= 255 ->
    0 <= b4 <= 255 -> 0 <= b5 <= 255 -> 0 <= b6 <= 255 -> 0 <= b7 <= 255 ->
    string_header [b0; b1; b2; b3; b4; b5; b6; b7]
                  (be_value [b0; b1; b2; b3; b4; b5; b6; b7]).

(** The stream [n] bytes further on, with no flag raised. *)
Definition skip_bytes (n : nat) (s : istream) : istream :=
  mkIS (buf s) (gpos s + n) false false.

(** ** Concrete inputs used by the examples *)

Definition ghost_example_data : vtkAbstractArray :=
  mkArray vtkUnsignedCharArray (Some (bytes_of "vtkGhostLevels")) 1
          [Some (VInt 0); Some (VInt 1); Some (VInt 2); Some (VInt 0)]
          [] [] None.

(** A reader that has read the header of a version 3.0 file. *)
Definition version3_reader : vtkDataReader :=
  set_version (example_reader [] VTK_ASCII) 3 0 30.

(** A header whose version does not parse, and the reader after
    [ReadHeader] has run on it. *)
Definition header_example_input : list Z :=
  bytes_of "# vtk DataFile Version x" ++ [10] ++ bytes_of "demo" ++ [10]
  ++ bytes_of "ASCII" ++ [10] ++ bytes_of "DATASET POLYDATA" ++ [10].

Definition header_example_result : vtkDataReader :=
  Eval vm_compute in
    match ReadHeader example_externals
                     (example_reader header_example_input VTK_ASCII) with
    | Ret (_, r') => r'
    | _ => example_reader [] VTK_ASCII
    end.

(** A header whose type token is ASCIIX. *)
Definition header_ASCIIX_input : list Z :=
  bytes_of "# vtk DataFile Version 4.2" ++ [10] ++ bytes_of "demo" ++ [10]
  ++ bytes_of "ASCIIX" ++ [10] ++ bytes_of "DATASET POLYDATA" ++ [10].

(** A reader on ROW_DATA whose field-data name filter is "wanted". *)
Definition field_filter_reader (input : list Z) (ReadAllFields_ : bool)
  : vtkDataReader :=
  mkReader (Some (open_string input)) VTK_ASCII 0 0 0 None
           None None None None None None (Some (bytes_of "wanted")) None
           false false false false false false ReadAllFields_
           true None NoError [].

(** A FIELD section named "other", then a SCALARS section. *)
Definition field_then_scalars_input : list Z :=
  bytes_of "FIELD other 1" ++ [10] ++ bytes_of "arr 1 2 int" ++ [10]
  ++ bytes_of "5 6" ++ [10]
  ++ bytes_of "SCALARS s int 1" ++ [10] ++ bytes_of "LOOKUP_TABLE default"
  ++ [10] ++ bytes_of "7 8" ++ [10].

(** ** The scalar section, seen from the stream *)


(** What ReadScalarData does to the stream, with everything that concerns
    the filter and the container left out: the tokens of the header, then
    the array.  Returns the decoded name, the table name and the array of
    a section that is read (the function returns 1), [None] when the
    function returns 0. *)
Definition ReadScalarData_parse (X : Externals) (FileType_ : Z) (numPts : Z)
  : ST istream (option (list Z * list Z * vtkAbstractArray)) :=
  buffer <- ReadString ;;
  match buffer with
  | None => ret None
  | Some buffer =>
  line <- ReadString ;;
  match line with
  | None => ret None
  | Some line =>
  decoded <- decode buffer ;;
  let name := cstr decoded in
  key <- ReadString ;;
  match key with
  | None => ret None
  | Some key =>
  let key := LowerCase key LowerCase_default in
  header <-
    (if negb (strcmp0 key (bytes_of "lookup_table")) then
       match atoi key with
       | None => undefined
       | Some numComp =>
           if numComp <? 1 then ret None
           else
             key' <- ReadString ;;
             ret (option_map (fun k => (numComp, k)) key')
       end
     else ret (Some (1, key))) ;;
  match header with
  | None => ret None
  | Some (numComp, key) =>
  if negb (strcmp0 (LowerCase key LowerCase_default) (bytes_of "lookup_table"))
  then ret None
  else
  tableName <- ReadString ;;
  match tableName with
  | None => ret None
  | Some tableName =>
  data <- ReadArray X FileType_ line numPts numComp ;;
  match DownCast_vtkDataArray data with
  | Some data => ret (Some (name, tableName, SetName data name))
  | None => ret None
  end
  end end end end end.

(** The outcome of ReadScalarData on a reader and a container, in terms of
    what the parse gives: the value returned tells whether there is an
    array; the container receives it as [install] places it. *)
Definition scalar_outcome (a : vtkDataSetAttributes)
  (filter : option (list Z)) (readAll : bool)
  (res : option (list Z * list Z * vtkAbstractArray))
  : Z * vtkDataSetAttributes :=
  match res with
  | Some (name, _, data) =>
      (1, install (is_some (Scalars a) || filter_differs filter name) readAll
                  SetScalars a data)
  | None => (0, a)
  end.

(** The part of the configuration that the scalar section reads and never
    writes. *)
Definition scalar_config (FileType_ : Z) (filter : option (list Z))
  (readAll : bool) (r : vtkDataReader) : Prop :=
  FileType r = FileType_ /\ ScalarsName r = filter /\ ReadAllScalars r = readAll.

(** A function of the reader follows a function of the stream: from a
    reader whose stream is [s], it has the outcome the other has from [s],
    leaves the stream the other leaves, keeps the invariant, and returns a
    related value. *)
Definition follows {A B} (inv : vtkDataReader -> Prop) (rel : A -> B -> Prop)
  (mr : ST vtkDataReader A) (ms : ST istream B) : Prop :=
  forall r s,
    IS r = Some s -> inv r ->
    match ms s with
    | Ret (b, s') =>
        exists a r', mr r = Ret (a, r') /\ IS r' = Some s' /\ inv r' /\ rel a b
    | Undefined => mr r = Undefined
    | Diverges => mr r = Diverges
    end.

(** The reader with another scalars name filter and another read-all-scalars
    toggle, and the container with another content of its Scalars slot:
    [r] and [with_scalar_filter r sn ra] differ in nothing else, nor do [a]
    and [with_Scalars a sc]. *)
Definition with_scalar_filter (r : vtkDataReader) (sn : option (list Z))
  (ra : bool) : vtkDataReader :=
  mkReader (IS r) (FileType r) (FileVersion r) (FileMajorVersion r)
    (FileMinorVersion r) (Header r) sn (VectorsName r)
    (TensorsName r) (NormalsName r) (TCoordsName r) (LookupTableName r)
    (FieldDataName r) (ScalarLut r) ra (ReadAllVectors r)
    (ReadAllNormals r) (ReadAllTensors r) (ReadAllColorScalars r)
    (ReadAllTCoords r) (ReadAllFields r) (ReadFromInputString r)
    (FileOnDisk r) (ErrorCode r) (Warnings r).

Definition with_Scalars (a : vtkDataSetAttributes)
  (sc : option vtkAbstractArray) : vtkDataSetAttributes :=
  mkAttributes sc (Vectors a) (Normals a) (Tensors a) (TCoords a)
               (GlobalIds a) (PedigreeIds a) (Arrays a).

(** A SCALARS section named "s", after its keyword, read with the filter
    "t" and read-all-scalars on. *)
Definition scalar_example_input : list Z :=
  bytes_of " s int 1" ++ [10] ++ bytes_of "LOOKUP_TABLE default" ++ [10]
  ++ bytes_of "7 8" ++ [10].

Definition scalar_example_reader : vtkDataReader :=
  with_scalar_filter (example_reader scalar_example_input VTK_ASCII)
                     (Some (bytes_of "t")) true.


(** ** The string-vector key, in the words of the specification *)

(** [n] lines read one after the other; [None] as soon as one read
    fails.  Also returns the stream as left. *)
Fixpoint read_lines (n : nat) (s : istream) : option (list (list Z)) * istream :=
  match n with
  | O => (Some [], s)
  | S n' =>
      match ReadLine s with
      | Ret ((true, l), s1) =>
          let (r, s2) := read_lines n' s1 in (option_map (cons l) r, s2)
      | Ret ((false, _), s1) => (None, s1)
      | _ => (None, s)
      end
  end.

(** [d] is the C string that the line [l] decodes to. *)
Definition decodes_to (l d : list Z) : Prop :=
  exists decoded, DecodeString l = Ret decoded /\ d = cstr decoded.

(** The strings stored under a string-vector key, none if the key is
    absent. *)
Definition string_vector_of (info : vtkInformation) (key : InfoKey)
  : list (list Z) :=
  match info_Get info key with
  | Some (IStringVector ss) => ss
  | _ => []
  end.

(** An INFORMATION entry for a string-vector key that announces three
    lines. *)
Definition string_vector_example_input : list Z :=
  bytes_of " DATA 3" ++ [10] ++ bytes_of "first" ++ [10]
  ++ bytes_of "second%20line" ++ [10] ++ bytes_of "third" ++ [10].

Definition example_key : InfoKey :=
  (bytes_of "vtkDataArray", bytes_of "LABELS").

Definition string_vector_example_run : vtkInformation * istream :=
  Eval vm_compute in
    match read_string_vector_key example_key []
                                 (open_string string_vector_example_input) with
    | Ret x => x
    | _ => ([], open_string [])
    end.


(** *** Colour scalars *)

(** The rational number a finite floating-point value stands for. *)
Definition Q_of_float (f : spec_float) : option Q :=
  match f with
  | S754_zero _ => Some (inject_Z 0)
  | S754_finite s m (Zneg p) => Some (Qmake (cond_Zopp s (Zpos m)) (2 ^ p))
  | S754_finite s m e => Some (inject_Z (cond_Zopp s (Zpos m) * 2 ^ e))
  | _ => None
  end.

(** A [float] in [0, 1]: a value of the binary32 format that lies between
    0 and 1. *)
Definition unit_float (f : spec_float) : bool :=
  valid_binary 24 128 f
  && match Q_of_float f with
     | Some q => Qle_bool (inject_Z 0) q && Qle_bool q (inject_Z 1)
     | None => false
     end.

(** round(v * 255) in the words of the specification: the integer nearest
    to [255 * v], a half going up. *)
Definition round_255 (v : Q) : Z := Qfloor (255 * v + (1 # 2)).

Definition quantized (f : spec_float) : Z :=
  match Q_of_float f with
  | Some v => round_255 v
  | None => 0
  end.



(** A COLOR_SCALARS section named "rgb", after its keyword, in ASCII:
    three values of one component. *)
Definition color_example_input : list Z :=
  bytes_of " rgb 1" ++ [10] ++ bytes_of "0.5 1.0 0.2" ++ [10].

Definition color_example_reader : vtkDataReader :=
  example_reader color_example_input VTK_ASCII.


(** The same section in BINARY: two tuples of three components. *)
Definition color_binary_example_input : list Z :=
  bytes_of " rgb 3" ++ [10] ++ [255; 0; 0; 0; 128; 255] ++ [10].

(* ================================================================== *)
(** * Further functions of the reader *)
(* ================================================================== *)

(** The largest value of a C integer type. *)
Definition ctype_max (t : ctype) : Z :=
  if ctype_signed t then 2 ^ (ctype_bits t - 1) - 1 else 2 ^ ctype_bits t - 1.

Definition ctype_min (t : ctype) : Z :=
  if ctype_signed t then - 2 ^ (ctype_bits t - 1) else 0.

(** Two [int] elements announced, six payload bytes present. *)
Definition short_payload_example : istream :=
  open_string (bytes_of "int" ++ [10; 0; 0; 0; 7; 0; 0]).

(** An array element that holds an integer within the range of [t]. *)
Definition holds_ctype (t : ctype) (v : option Value) : Prop :=
  exists z, v = Some (VInt z) /\ ctype_min t <= z <= ctype_max t.

(** The type tags that the dispatch of ReadArray accepts (lines 1560-1975),
    on the lower-cased tag: most are matched on a prefix, "char" and
    "signed_char" as a whole. *)
Definition known_type (type : list Z) : bool :=
  strncmp0 type (bytes_of "bit") 3
  || strcmp0 type (bytes_of "char")
  || strcmp0 type (bytes_of "signed_char")
  || strncmp0 type (bytes_of "unsigned_char") 13
  || strncmp0 type (bytes_of "short") 5
  || strncmp0 type (bytes_of "unsigned_short") 14
  || strncmp0 type (bytes_of "vtkidtype") 9
  || strncmp0 type (bytes_of "int") 3
  || strncmp0 type (bytes_of "unsigned_int") 12
  || strncmp0 type (bytes_of "long") 4
  || strncmp0 type (bytes_of "unsigned_long") 13
  || strncmp0 type (bytes_of "vtktypeint64") 12
  || strncmp0 type (bytes_of "vtktypeuint64") 13
  || strncmp0 type (bytes_of "float") 5
  || strncmp0 type (bytes_of "double") 6
  || strncmp0 type (bytes_of "string") 6
  || strncmp0 type (bytes_of "utf8_string") 11
  || strncmp0 type (bytes_of "variant") 7.

(** A space or a carriage return: what the loop that pops blank lines
    skips (lines 1999-2002). *)
Definition is_blank (c : Z) : bool := (c =? 32) || (c =? 13).

(** ReadArray in BINARY on an [int] element of which two bytes are there:
    the array returned and the stream as left. *)
Definition array_example_run : vtkAbstractArray * istream :=
  Eval vm_compute in
    match ReadArray example_externals VTK_BINARY (bytes_of "int") 1 1
                    (open_string [10; 0; 0]) with
    | Ret (Some a, s) => (a, s)
    | _ => (New vtkIntArray 1, open_string [])
    end.

(** ** What the sections keep *)

(** [d'] is the array [d], but for its lookup table. *)
Definition same_array (d d' : vtkAbstractArray) : Prop :=
  Class d' = Class d /\ Name d' = Name d
  /\ NumberOfComponents d' = NumberOfComponents d
  /\ Values d' = Values d
  /\ ComponentNames d' = ComponentNames d
  /\ Information d' = Information d.

(** An attribute that [a] holds is still the one that [a'] holds. *)
Definition slot_kept (slot : vtkDataSetAttributes -> option vtkAbstractArray)
  (a a' : vtkDataSetAttributes) : Prop :=
  forall d, slot a = Some d -> exists d', slot a' = Some d' /\ same_array d d'.

(** [a'] holds every attribute that [a] holds, and its extra arrays begin
    with those of [a]. *)
Definition attributes_kept (a a' : vtkDataSetAttributes) : Prop :=
  slot_kept Scalars a a' /\ slot_kept Vectors a a' /\ slot_kept Normals a a'
  /\ slot_kept Tensors a a' /\ slot_kept TCoords a a'
  /\ slot_kept GlobalIds a a' /\ slot_kept PedigreeIds a a'
  /\ exists more, Arrays a' = Arrays a ++ more.

(** Whatever [m] returns, with the state it leaves, satisfies [P]. *)
Definition ensures {S A} (m : ST S A) (P : A -> S -> Prop) : Prop :=
  forall s x s', m s = Ret (x, s') -> P x s'.

(** The stream of the reader has failed. *)
Definition stream_failed (r : vtkDataReader) : Prop :=
  exists s, IS r = Some s /\ fail s = true.

(** Row data that holds scalars already, and a file with one more
    SCALARS section and a VECTORS section. *)
Definition row_example_before : vtkDataSetAttributes :=
  SetScalars empty_attributes
    (SetName (SetValues (New vtkIntArray 1) [Some (VInt 7)])
             (bytes_of "first")).

Definition row_example_reader : vtkDataReader :=
  example_reader
    (bytes_of "SCALARS second int" ++ [10]
     ++ bytes_of "LOOKUP_TABLE default" ++ [10] ++ bytes_of "3" ++ [10]
     ++ bytes_of "VECTORS v int" ++ [10] ++ bytes_of "1 2 3" ++ [10])
    VTK_ASCII.

Definition row_example_run : Z * vtkDataSetAttributes * vtkDataReader :=
  Eval vm_compute in
    match ReadRowData example_externals row_example_before 1
                      row_example_reader with
    | Ret x => x
    | _ => (0, empty_attributes, row_example_reader)
    end.

(** ** The shape of what the sections install *)

(** An array of [n] tuples with a name, of a class and with a number of
    components as said. *)
Definition array_shaped (n : Z) (data_array : bool) (comps : Z -> Prop)
  (d : vtkAbstractArray) : Prop :=
  Name d <> None
  /\ (data_array = true -> is_vtkDataArray (Class d) = true)
  /\ comps (NumberOfComponents d)
  /\ length (Values d) = Z.to_nat (n * NumberOfComponents d).

Definition slot_shaped (n : Z) (data_array : bool) (comps : Z -> Prop)
  (o : option vtkAbstractArray) : Prop :=
  forall d, o = Some d -> array_shaped n data_array comps d.

(** Attributes of [n] tuples, as the sections build them: vectors and
    normals of 3 components, tensors of 6 or 9, texture coordinates of 1
    to 3, ids of 1; every array has a name, and all but the pedigree ids
    are [vtkDataArray]s. *)
Definition attributes_shaped (n : Z) (a : vtkDataSetAttributes) : Prop :=
  (forall d, Scalars a = Some d ->
     Name d <> None /\ is_vtkDataArray (Class d) = true
     /\ 1 <= NumberOfComponents d)
  /\ slot_shaped n true (fun k => k = 3) (Vectors a)
  /\ slot_shaped n true (fun k => k = 3) (Normals a)
  /\ slot_shaped n true (fun k => k = 6 \/ k = 9) (Tensors a)
  /\ slot_shaped n true (fun k => 1 <= k <= 3) (TCoords a)
  /\ slot_shaped n true (fun k => k = 1) (GlobalIds a)
  /\ slot_shaped n false (fun k => k = 1) (PedigreeIds a)
  /\ Forall (fun d => Name d <> None) (Arrays a).

(** ** vtkDataReader::SetInputString (lines 213-262) *)

(** The members that SetInputString uses.  [InputString] is the buffer
    that the member points to, with its terminator; [None] is [nullptr].
    [MTime] counts the calls of [Modified]. *)
Record input_members : Type := mkInput {
  InputString : option (list Z);
  InputStringLength : Z;
  MTime : nat
}.

(** [strncmp(a, b, n) == 0] on two buffers: the comparison stops at the
    first difference, at a NUL and after [n] characters.  [None]: it would
    read beyond the end of a buffer. *)
Fixpoint strncmp_mem (a b : list Z) (n : Z) : option bool :=
  if n <=? 0 then Some true
  else
    match a, b with
    | x :: a', y :: b' =>
        if x =? y then
          if x =? 0 then Some true else strncmp_mem a' b' (n - 1)
        else Some false
    | _, _ => None
    end.

(** The [int] [len] converted to [size_t]. *)
Definition size_t_of_int (len : Z) : Z :=
  if len <? 0 then len + 2 ^ 64 else len.

(** Lines 242-261: the old string is deleted and the first [len]
    characters of [in] are copied, with a terminator added. *)
Definition replace_InputString (in_ : option (list Z)) (len : Z)
  (m : input_members) : outcome input_members :=
  match in_ with
  | Some i =>
      if 0 <? len then
        if len <=? Z.of_nat (length i)
        then Ret (mkInput (Some (firstn (Z.to_nat len) i ++ [0])) len
                          (S (MTime m)))
        else Undefined
      else Ret (mkInput None 0 (S (MTime m)))
  | None => Ret (mkInput None 0 (S (MTime m)))
  end.

(** SetInputString(const char* in, int len), lines 230-262, which
    SetBinaryInputString (lines 224-227) calls with the same arguments.
    [in_] is the buffer that [in] points to, [None] for [nullptr]. *)
Definition SetInputString (in_ : option (list Z)) (len : Z)
  (m : input_members) : outcome input_members :=
  match InputString m, in_ with
  | Some cur, Some i =>
      match strncmp_mem i cur (size_t_of_int len) with
      | Some true => Ret m
      | Some false => replace_InputString in_ len m
      | None => Undefined
      end
  | _, _ => replace_InputString in_ len m
  end.

(** [strlen]: [None] when the buffer holds no NUL. *)
Fixpoint strlen (l : list Z) : option Z :=
  match l with
  | [] => None
  | c :: t => if c =? 0 then Some 0 else option_map Z.succ (strlen t)
  end.

(** SetInputString(const char* in), lines 213-221, with the length
    converted to [int]. *)
Definition SetInputString_cstr (in_ : option (list Z)) (m : input_members)
  : outcome input_members :=
  match in_ with
  | Some i =>
      match strlen i with
      | Some len => SetInputString in_ (to_signed 32 (len mod 2 ^ 32)) m
      | None => Undefined
      end
  | None => SetInputString None 0 m
  end.

(** A stored input and two calls on it. *)
Definition input_example : input_members :=
  mkInput (Some (bytes_of "abc" ++ [0] ++ bytes_of "old" ++ [0])) 7 1.
(* ================================================================== *)
(** * Part II: properties *)
(* ================================================================== *)

(** ** Bytes and lists *)

Lemma bytes_eqb_eq (a b : list Z) : bytes_eqb a b = true <-> a = b.
Proof.
  revert b; induction a as [|x a IH]; intros [|y b]; simpl;
    try (split; [discriminate | congruence]); try tauto.
  rewrite andb_true_iff, Z.eqb_eq, IH. split.
  - intros [-> ->]; reflexivity.
  - intros H; injection H; auto.
Qed.

Lemma bytes_eqb_refl (a : list Z) : bytes_eqb a a = true.
Proof. apply bytes_eqb_eq; reflexivity. Qed.

Lemma cstr_no_nul (l : list Z) : ~ In 0 l -> cstr l = l.
Proof.
  induction l as [|c t IH]; simpl; intros H; [reflexivity|].
  destruct (Z.eqb_spec c 0) as [->|_]; [tauto|].
  rewrite IH; tauto.
Qed.

Lemma strncpy_no_nul (l : list Z) : ~ In 0 l -> strncpy l (length l) = l.
Proof.
  intros H. unfold strncpy. rewrite (cstr_no_nul l H).
  rewrite firstn_app, firstn_all, Nat.sub_diag. simpl.
  apply app_nil_r.
Qed.

(** Induction on the length of a list. *)
Lemma list_length_ind (P : list Z -> Prop) :
  (forall l, (forall l', (length l' < length l)%nat -> P l') -> P l) ->
  forall l, P l.
Proof.
  intros H l.
  assert (G : forall n l', (length l' < n)%nat -> P l').
  { induction n as [|n IHn]; intros l' Hl'; [lia|].
    apply H. intros l'' Hl''. apply IHn. lia. }
  apply (G (S (length l))). lia.
Qed.

(** ** C8: DecodeString *)

Lemma hex_digit_range (c v : Z) : hex_digit c = Some v -> 0 <= v <= 15.
Proof.
  unfold hex_digit, isdigit.
  destruct ((48 <=? c) && (c <=? 57)) eqn:E1.
  - apply andb_true_iff in E1. intros [= <-]. lia.
  - destruct ((97 <=? c) && (c <=? 102)) eqn:E2.
    + apply andb_true_iff in E2. intros [= <-]. lia.
    + destruct ((65 <=? c) && (c <=? 70)) eqn:E3; [|discriminate].
      apply andb_true_iff in E3. intros [= <-]. lia.
Qed.

Lemma decode_triplets_no_nul (name : list Z) :
  well_escaped name = true -> ~ In 0 (decode_triplets name).
Proof.
  induction name as [name IH] using list_length_ind.
  destruct name as [|c tl]; simpl; [tauto|].
  destruct (Z.eqb_spec c 37) as [->|Hc].
  - destruct tl as [|h1 [|h2 tl']].
    + simpl; tauto.
    + intros H. apply (IH [h1]); [simpl; lia | exact H].
    + destruct (hex_digit h1) as [a|]; [|discriminate].
      destruct (hex_digit h2) as [b|]; [|discriminate].
      intros H. apply andb_true_iff in H. destruct H as [Hz Hw].
      apply negb_true_iff, Z.eqb_neq in Hz.
      intros [Hin|Hin]; [lia|].
      revert Hin. apply IH; [simpl; lia | exact Hw].
  - intros H. apply andb_true_iff in H. destruct H as [Hz Hw].
    apply negb_true_iff, Z.eqb_neq in Hz.
    intros [Hin|Hin]; [lia|].
    revert Hin. apply IH; [simpl; lia | exact Hw].
Qed.

Lemma decode_triplets_length (name : list Z) :
  (length (decode_triplets name) <= length name)%nat.
Proof.
  induction name as [name IH] using list_length_ind.
  destruct name as [|c tl]; simpl; [lia|].
  destruct (c =? 37).
  - destruct tl as [|h1 [|h2 tl']].
    + simpl; lia.
    + specialize (IH [h1]). simpl in *. lia.
    + destruct (hex_digit h1), (hex_digit h2);
        try (specialize (IH (h1 :: h2 :: tl')); simpl in *; lia).
      specialize (IH tl'). simpl in *. lia.
  - specialize (IH tl). simpl in *. lia.
Qed.

(** The loop of [DecodeString], started at index [cc] on a well-escaped
    suffix, writes what [decode_triplets] gives. *)
Lemma DecodeString_loop_triplets (len : Z) (name : list Z) :
  forall cc,
    well_escaped name = true ->
    cc + Z.of_nat (length name) = len ->
    len < 2 ^ 64 ->
    (3 <= len \/ ~ In 37 name) ->
    DecodeString_loop len cc name = Ret (decode_triplets name).
Proof.
  induction name as [name IH] using list_length_ind.
  intros cc Hw Hlen Hmax Hpct.
  destruct name as [|c tl]; [reflexivity|].
  cbn [DecodeString_loop decode_triplets well_escaped] in *.
  destruct (Z.eqb_spec c 37) as [->|Hc].
  - assert (H3 : 3 <= len) by (destruct Hpct as [H|H]; [exact H | simpl in H; tauto]).
    rewrite (Z.mod_small (len - 3)) by lia.
    destruct tl as [|h1 [|h2 tl']].
    + simpl in Hlen. destruct (Z.leb_spec cc (len - 3)); [lia | reflexivity].
    + simpl in Hlen. destruct (Z.leb_spec cc (len - 3)); [lia|].
      apply IH; [simpl; lia | exact Hw | simpl; lia | lia | lia].
    + cbn [length] in Hlen.
      destruct (Z.leb_spec cc (len - 3)); [|lia].
      unfold scan_percent_hex.
      destruct (hex_digit h1) as [a|] eqn:Ha; [|discriminate].
      destruct (hex_digit h2) as [b|] eqn:Hb; [|discriminate].
      apply andb_true_iff in Hw. destruct Hw as [_ Hw].
      rewrite (IH tl'); [| simpl; lia | exact Hw | lia | lia | lia].
      unfold to_uchar. apply hex_digit_range in Ha, Hb.
      rewrite Z.mod_small by lia. reflexivity.
  - apply andb_true_iff in Hw. destruct Hw as [_ Hw].
    cbn [length] in Hlen.
    rewrite (IH tl); [reflexivity | simpl; lia | exact Hw | lia | lia |].
    destruct Hpct as [H|H]; [left; exact H | right].
    intros Hin. apply H. right. exact Hin.
Qed.

(** C8 (amended).  On a name that is a C string of at least three bytes,
    or one without a percent sign, in which every percent sign with two
    bytes after it starts a triplet of two hexadecimal digits other than
    "%00": DecodeString replaces each triplet by the byte of its
    hexadecimal value, drops a percent sign that has fewer than two bytes
    after it, and passes every other byte through; the decoded length is
    at most the input length; and "my%20name%2E" decodes to "my name.". *)
Theorem DecodeString_triplets :
  (forall name,
     well_escaped name = true ->
     (3 <= length name)%nat \/ ~ In 37 name ->
     Z.of_nat (length name) < 2 ^ 64 ->
     DecodeString name = Ret (decode_triplets name)
     /\ (length (decode_triplets name) <= length name)%nat)
  /\ DecodeString (bytes_of "my%20name%2E") = Ret (bytes_of "my name.").
Proof.
  split; [|reflexivity].
  intros name Hw Hpct Hmax. split; [|apply decode_triplets_length].
  unfold DecodeString.
  rewrite (DecodeString_loop_triplets (Z.of_nat (length name)) name 0);
    [| exact Hw | lia | exact Hmax | destruct Hpct; [left; lia | right; assumption]].
  rewrite strncpy_no_nul; [reflexivity|].
  apply decode_triplets_no_nul; exact Hw.
Qed.

Lemma DecodeString_triplets_witness :
  DecodeString (bytes_of "a%41%7a%") = Ret (bytes_of "aAz")
  /\ (length (bytes_of "aAz") <= length (bytes_of "a%41%7a%"))%nat.
Proof.
  apply (proj1 DecodeString_triplets (bytes_of "a%41%7a%")).
  - reflexivity.
  - left. simpl. lia.
  - simpl. lia.
Defined.

(** C8, as stated, fails: in "ab%" the percent sign is not part of a
    triplet, yet it does not pass through. *)
Lemma DecodeString_drops_percent :
  DecodeString (bytes_of "ab%") = Ret (bytes_of "ab")
  /\ bytes_of "ab" <> bytes_of "ab%".
Proof. split; [reflexivity | discriminate]. Qed.

(** ** C2: ghost levels become ghost types *)

Lemma nth_error_ghost_value (newValue : Z) (vs : list (option Value)) :
  forall i g,
    nth_error vs i = Some (Some (VInt g)) ->
    nth_error (map (ghost_value newValue) vs) i
    = Some (Some (VInt (if g >? 0 then newValue else g))).
Proof.
  intros i g H. rewrite nth_error_map, H. reflexivity.
Qed.

(** C2.  For a named array and byte-sized markers: when the conditions
    hold, the array comes back renamed to the canonical ghost name, with
    every nonzero byte replaced by the duplicate marker of the scope and
    every zero byte still zero, and otherwise as it was; when any
    condition fails, the array comes back unchanged. *)
Theorem ConvertGhostLevelsToGhostType_spec
  (X : Externals) (this : vtkDataReader) (fieldType : FieldType)
  (data : vtkAbstractArray) (name : list Z) :
  Name data = Some name ->
  0 <= DUPLICATEPOINT X <= 255 ->
  0 <= DUPLICATECELL X <= 255 ->
  (ghost_conditions this fieldType data name = true ->
   exists data',
     ConvertGhostLevelsToGhostType X this fieldType data = Ret data'
     /\ Name data' = Some (GhostArrayName X)
     /\ Class data' = Class data
     /\ NumberOfComponents data' = NumberOfComponents data
     /\ length (Values data') = length (Values data)
     /\ (forall i g, nth_error (Values data) i = Some (Some (VInt g)) ->
           0 < g ->
           nth_error (Values data') i
           = Some (Some (VInt (duplicate_marker X fieldType))))
     /\ (forall i, nth_error (Values data) i = Some (Some (VInt 0)) ->
           nth_error (Values data') i = Some (Some (VInt 0))))
  /\ (ghost_conditions this fieldType data name = false ->
      ConvertGhostLevelsToGhostType X this fieldType data = Ret data).
Proof.
  intros HN HP HC. unfold ghost_conditions, ConvertGhostLevelsToGhostType.
  rewrite HN. unfold strcmp0. split.
  - intros H. repeat (apply andb_true_iff in H; destruct H as [H ?]).
    rewrite H.
    destruct (Class data) eqn:EC; try discriminate.
    match goal with K : (NumberOfComponents data =? 1) = true |- _ =>
      rewrite K end.
    match goal with K : bytes_eqb name _ = true |- _ => rewrite K end.
    assert (Hm : to_uchar (match fieldType with
                           | CELL_DATA => DUPLICATECELL X
                           | _ => DUPLICATEPOINT X end)
                 = duplicate_marker X fieldType).
    { unfold to_uchar, duplicate_marker.
      destruct fieldType; apply Z.mod_small; lia. }
    destruct fieldType; try discriminate; cbn [andb];
      (eexists; split; [reflexivity|]);
      cbn [Name Class NumberOfComponents Values SetName SetValues];
      rewrite Hm, length_map;
      (repeat split; auto;
       [ intros i g Hi Hg;
         rewrite (nth_error_ghost_value _ _ i g Hi);
         destruct (Z.gtb_spec g 0); [reflexivity | lia]
       | intros i Hi; rewrite (nth_error_ghost_value _ _ i 0 Hi); reflexivity ]).
  - intros H.
    destruct (FileMajorVersion this <? 4); [|reflexivity].
    destruct (Class data); try reflexivity.
    destruct (NumberOfComponents data =? 1); [|reflexivity].
    destruct fieldType; try reflexivity; cbn [andb] in *; rewrite H; reflexivity.
Qed.

Lemma ConvertGhostLevelsToGhostType_witness :
  (ghost_conditions version3_reader POINT_DATA ghost_example_data
                    (bytes_of "vtkGhostLevels") = true ->
   exists data',
     ConvertGhostLevelsToGhostType example_externals version3_reader
                                   POINT_DATA ghost_example_data = Ret data'
     /\ Name data' = Some (GhostArrayName example_externals)
     /\ Class data' = Class ghost_example_data
     /\ NumberOfComponents data' = NumberOfComponents ghost_example_data
     /\ length (Values data') = length (Values ghost_example_data)
     /\ (forall i g,
           nth_error (Values ghost_example_data) i = Some (Some (VInt g)) ->
           0 < g ->
           nth_error (Values data') i
           = Some (Some (VInt (duplicate_marker example_externals POINT_DATA))))
     /\ (forall i,
           nth_error (Values ghost_example_data) i = Some (Some (VInt 0)) ->
           nth_error (Values data') i = Some (Some (VInt 0))))
  /\ (ghost_conditions version3_reader POINT_DATA ghost_example_data
                       (bytes_of "vtkGhostLevels") = false ->
      ConvertGhostLevelsToGhostType example_externals version3_reader
                                    POINT_DATA ghost_example_data
      = Ret ghost_example_data).
Proof.
  apply (ConvertGhostLevelsToGhostType_spec example_externals version3_reader
           POINT_DATA ghost_example_data (bytes_of "vtkGhostLevels")).
  - reflexivity.
  - simpl; lia.
  - simpl; lia.
Defined.

(** Scenario 6 of the specification: version 3.0, POINT_DATA, bytes
    [0, 1, 2, 0]. *)
Example ghost_scenario :
  ConvertGhostLevelsToGhostType example_externals version3_reader
                                POINT_DATA ghost_example_data
  = Ret (mkArray vtkUnsignedCharArray (Some (bytes_of "vtkGhostType")) 1
           [Some (VInt 0); Some (VInt 1); Some (VInt 1); Some (VInt 0)]
           [] [] None).
Proof. reflexivity. Qed.

(** ** The stream operations on a good stream *)

Lemma good_flags (s : istream) :
  good s = true -> eofbit s = false /\ failbit s = false.
Proof.
  unfold good. intros H. apply andb_true_iff in H. destruct H as [H1 H2].
  apply negb_true_iff in H1, H2. auto.
Qed.

Lemma good_skip_bytes (n : nat) (s : istream) : good (skip_bytes n s) = true.
Proof. reflexivity. Qed.

Lemma rest_skip_bytes (n : nat) (s : istream) :
  rest (skip_bytes n s) = skipn n (rest s).
Proof.
  unfold rest, skip_bytes. cbn [buf gpos].
  rewrite skipn_skipn. f_equal. lia.
Qed.

Lemma rest_skip_bytes_app (s : istream) (x y : list Z) :
  rest s = x ++ y -> rest (skip_bytes (length x) s) = y.
Proof.
  intros H. rewrite rest_skip_bytes, H, skipn_app, skipn_all, Nat.sub_diag.
  reflexivity.
Qed.

Lemma skip_bytes_skip_bytes (n m : nat) (s : istream) :
  skip_bytes m (skip_bytes n s) = skip_bytes (n + m) s.
Proof. unfold skip_bytes. cbn [buf gpos]. f_equal. lia. Qed.

Lemma skip_bytes_0 (s : istream) : good s = true -> skip_bytes 0 s = s.
Proof.
  intros H. destruct (good_flags s H) as [He Hf].
  destruct s as [b p e f]. cbn in *. subst. unfold skip_bytes. cbn.
  f_equal. lia.
Qed.

Lemma peek_good (s : istream) (c : Z) (t : list Z) :
  good s = true -> rest s = c :: t -> peek s = (c, s).
Proof. intros Hg Hr. unfold peek. rewrite Hg, Hr. reflexivity. Qed.

Lemma get_good (s : istream) (c : Z) (t : list Z) :
  good s = true -> rest s = c :: t -> get s = (c, skip_bytes 1 s).
Proof.
  intros Hg Hr. unfold get. rewrite Hg, Hr.
  destruct (good_flags s Hg) as [He Hf].
  unfold advance, skip_bytes. rewrite He, Hf. reflexivity.
Qed.

Lemma read_good (s : istream) (x y : list Z) :
  good s = true -> rest s = x ++ y ->
  read (length x) s = (x, skip_bytes (length x) s).
Proof.
  intros Hg Hr. unfold read. rewrite Hg, Hr.
  rewrite firstn_app, firstn_all, Nat.sub_diag. cbn [firstn].
  rewrite app_nil_r, Nat.ltb_irrefl.
  destruct (good_flags s Hg) as [He Hf].
  unfold setstate, advance, skip_bytes. cbn [buf gpos eofbit failbit].
  rewrite He, Hf. reflexivity.
Qed.

(** ** C1: the length prefix of a binary string value *)

Lemma read_payload (s : istream) (L : Z) (payload tl : list Z) :
  good s = true -> rest s = payload ++ tl -> Z.of_nat (length payload) = L ->
  (got <- lift (read (Z.to_nat L)) ;;
   ret (got ++ repeat 0 (Z.to_nat L - length got))) s
  = Ret (payload, skip_bytes (length payload) s).
Proof.
  intros Hg Hr HL. unfold bind, lift, ret.
  replace (Z.to_nat L) with (length payload) by lia.
  rewrite (read_good s payload tl Hg Hr).
  rewrite Nat.sub_diag. cbn [repeat]. rewrite app_nil_r. reflexivity.
Qed.

Lemma read_length_field_good (s : istream) (x y : list Z) :
  good s = true -> rest s = x ++ y ->
  read_length_field (length x) s = Ret (be_value x, skip_bytes (length x) s).
Proof.
  intros Hg Hr. unfold read_length_field, bind, lift.
  rewrite (read_good s x y Hg Hr). rewrite Nat.ltb_irrefl. reflexivity.
Qed.

Lemma mask_shift (v w : Z) :
  2 <= w -> Z.shiftr (Z.shiftl v 2 mod 2 ^ w) 2 = v mod 2 ^ (w - 2).
Proof.
  intros Hw. rewrite Z.shiftl_mul_pow2, Z.shiftr_div_pow2 by lia.
  replace (2 ^ w) with (2 ^ 2 * 2 ^ (w - 2))
    by (rewrite <- Z.pow_add_r by lia; f_equal; lia).
  rewrite (Z.mul_comm v), Z.mul_mod_distr_l by lia.
  rewrite Z.mul_comm, Z.div_mul by lia. reflexivity.
Qed.

Lemma header_code (b0 k : Z) :
  64 * k <= b0 < 64 * k + 64 -> 0 <= k <= 3 ->
  Z.shiftr (to_uchar b0) 6 = k.
Proof.
  intros H Hk. unfold to_uchar. rewrite Z.mod_small by lia.
  rewrite Z.shiftr_div_pow2 by lia. change (2 ^ 6) with 64.
  Z.div_mod_to_equations. lia.
Qed.

Lemma read_binary_string_layout_gen (s : istream) (hdr : list Z) (L : Z) (payload tl : list Z) :
     good s = true ->
     rest s = hdr ++ payload ++ tl ->
     string_header hdr L ->
     Z.of_nat (length payload) = L ->
     read_binary_string s
     = Ret (payload, skip_bytes (length hdr + length payload) s).
Proof.
  intros Hg Hr Hh HL.
  unfold read_binary_string.
  unfold bind at 1. unfold lift at 1.
  destruct Hh as [b0 H0 | b0 b1 H0 H1 | b0 b1 b2 b3 H0 H1 H2 H3
                 | b0 b1 b2 b3 b4 b5 b6 b7 H0 H1 H2 H3 H4 H5 H6 H7].
  - rewrite (peek_good s b0 (payload ++ tl) Hg Hr).
    rewrite (header_code b0 3) by lia. cbn [Z.eqb Pos.eqb].
    unfold bind at 1. unfold bind at 1. unfold lift at 1.
    rewrite (get_good s b0 (payload ++ tl) Hg Hr).
    unfold ret at 1.
    rewrite mask_shift by lia. unfold to_uchar.
    rewrite (Z.mod_small b0 256) by lia. change (8 - 2) with 6.
    rewrite (read_payload (skip_bytes 1 s) _ payload tl);
      [ | reflexivity | apply (rest_skip_bytes_app s [b0]); exact Hr | exact HL ].
    rewrite skip_bytes_skip_bytes. reflexivity.
  - rewrite (peek_good s b0 (b1 :: payload ++ tl) Hg Hr).
    rewrite (header_code b0 2) by lia. cbn [Z.eqb Pos.eqb].
    unfold bind at 1. unfold bind at 1.
    pose proof (read_length_field_good s [b0; b1] (payload ++ tl) Hg Hr) as E;
    cbn [length] in E; rewrite E; clear E.
    unfold ret at 1.
    rewrite mask_shift by lia. change (16 - 2) with 14.
    rewrite (read_payload (skip_bytes 2 s) _ payload tl);
      [ | reflexivity | apply (rest_skip_bytes_app s [b0; b1]); exact Hr | exact HL ].
    rewrite skip_bytes_skip_bytes. reflexivity.
  - rewrite (peek_good s b0 (b1 :: b2 :: b3 :: payload ++ tl) Hg Hr).
    rewrite (header_code b0 1) by lia. cbn [Z.eqb Pos.eqb].
    unfold bind at 1. unfold bind at 1.
    pose proof (read_length_field_good s [b0; b1; b2; b3] (payload ++ tl) Hg Hr) as E;
    cbn [length] in E; rewrite E; clear E.
    unfold ret at 1.
    rewrite mask_shift by lia. change (32 - 2) with 30.
    rewrite (read_payload (skip_bytes 4 s) _ payload tl);
      [ | reflexivity | apply (rest_skip_bytes_app s [b0; b1; b2; b3]); exact Hr | exact HL ].
    rewrite skip_bytes_skip_bytes. reflexivity.
  - rewrite (peek_good s b0 (b1 :: b2 :: b3 :: b4 :: b5 :: b6 :: b7 :: payload ++ tl) Hg Hr).
    rewrite (header_code b0 0) by lia. cbn [Z.eqb Pos.eqb].
    unfold bind at 1.
    pose proof (read_length_field_good s [b0; b1; b2; b3; b4; b5; b6; b7] (payload ++ tl) Hg Hr) as E;
    cbn [length] in E; rewrite E; clear E.
    rewrite (read_payload (skip_bytes 8 s) _ payload tl);
      [ | reflexivity | apply (rest_skip_bytes_app s [b0; b1; b2; b3; b4; b5; b6; b7]); exact Hr | exact HL ].
    rewrite skip_bytes_skip_bytes. reflexivity.
Qed.

(** C1 (amended).  The first byte is peeked, not extracted: its top two
    bits give the header code H, and the length prefix is the 1 (H=3),
    2 (H=2), 4 (H=1) or 8 (H=0) bytes that begin with that first byte, read
    big-endian with the top two bits masked off.  On a good stream that
    holds such a prefix for the length L and then at least L bytes, the
    value read is exactly those L bytes, and the stream is left just after
    them.  In particular 0xC3 'a' 'b' 'c' yields "abc", and 0x80 0x04
    'w' 'x' 'y' 'z' yields "wxyz". *)
Theorem read_binary_string_layout :
  (forall (s : istream) (hdr : list Z) (L : Z) (payload tl : list Z),
     good s = true ->
     rest s = hdr ++ payload ++ tl ->
     string_header hdr L ->
     Z.of_nat (length payload) = L ->
     read_binary_string s
     = Ret (payload, skip_bytes (length hdr + length payload) s))
  /\ read_binary_string (open_string (195 :: bytes_of "abc"))
     = Ret (bytes_of "abc", skip_bytes 4 (open_string (195 :: bytes_of "abc")))
  /\ read_binary_string (open_string (128 :: 4 :: bytes_of "wxyz"))
     = Ret (bytes_of "wxyz",
            skip_bytes 6 (open_string (128 :: 4 :: bytes_of "wxyz"))).
Proof.
  split; [exact read_binary_string_layout_gen | split; reflexivity].
Qed.

Lemma read_binary_string_layout_witness :
  read_binary_string (open_string ([64; 0; 0; 2] ++ bytes_of "hi" ++ [195]))
  = Ret (bytes_of "hi",
         skip_bytes (length [64; 0; 0; 2] + length (bytes_of "hi"))
                    (open_string ([64; 0; 0; 2] ++ bytes_of "hi" ++ [195]))).
Proof.
  apply (proj1 read_binary_string_layout
           (open_string ([64; 0; 0; 2] ++ bytes_of "hi" ++ [195]))
           [64; 0; 0; 2] 2 (bytes_of "hi") [195]).
  - reflexivity.
  - reflexivity.
  - exact (header1 64 0 0 2 ltac:(lia) ltac:(lia) ltac:(lia) ltac:(lia)).
  - reflexivity.
Defined.

(** C1, as stated, fails on its second payload: 0x80 0x00 0x04 'w' 'x'
    'y' 'z' is read as the two-byte prefix 0x80 0x00, that is the length 0,
    and yields the empty string; the stream is left before the byte 0x04.
    The same holds through [ReadArray]. *)
Lemma read_binary_string_claimed_payload :
  read_binary_string (open_string (128 :: 0 :: 4 :: bytes_of "wxyz"))
  = Ret ([], skip_bytes 2 (open_string (128 :: 0 :: 4 :: bytes_of "wxyz")))
  /\ [] <> bytes_of "wxyz"
  /\ (exists array s',
        ReadArray example_externals VTK_BINARY (bytes_of "string") 1 1
                  (open_string (10 :: 128 :: 0 :: 4 :: bytes_of "wxyz"))
        = Ret (Some array, s')
        /\ Values array = [Some (VString [])]).
Proof.
  split; [reflexivity | split; [discriminate|]].
  eexists; eexists; split; [vm_compute; reflexivity | reflexivity].
Qed.

(** Scenario 3 of the specification through [ReadArray], with the
    two-byte prefix as the code reads it. *)
Example binary_strings_scenario :
  exists array s',
    ReadArray example_externals VTK_BINARY (bytes_of "string") 2 1
      (open_string (10 :: 195 :: bytes_of "abc" ++ 128 :: 4 :: bytes_of "wxyz"))
    = Ret (Some array, s')
    /\ Values array = [Some (VString (bytes_of "abc"));
                       Some (VString (bytes_of "wxyz"))].
Proof.
  eexists; eexists; split; [vm_compute; reflexivity | reflexivity].
Qed.

(** ** C3: the header *)

Lemma ReadLine_total (s : istream) :
  exists ok line s1, ReadLine s = Ret ((ok, line), s1).
Proof.
  unfold ReadLine, lift.
  destruct (getline 256 10 s) as [[stored gc] s1].
  destruct (fail s1); [destruct (eof s1)|]; repeat eexists.
Qed.

Lemma ReadString_total (s : istream) :
  exists tok s1, ReadString s = Ret (tok, s1).
Proof.
  unfold ReadString, lift.
  destruct (extract_word (Some 255%nat) s) as [stored s1].
  destruct (fail s1); repeat eexists.
Qed.

Lemma onIS_Ret {A} (m : ST istream A) (r : vtkDataReader) (s s' : istream)
  (a : A) :
  IS r = Some s -> m s = Ret (a, s') -> onIS m r = Ret (a, set_IS r (Some s')).
Proof. intros H1 H2. unfold onIS. rewrite H1, H2. reflexivity. Qed.

Lemma ReadHeader_version_spec (X : Externals) (line : list Z)
  (r r1 : vtkDataReader) (u : unit) :
  ReadHeader_version X line r = Ret (u, r1) ->
  IS r1 = IS r /\ ErrorCode r1 = ErrorCode r
  /\ ReadFromInputString r1 = ReadFromInputString r
  /\ FileOnDisk r1 = FileOnDisk r
  /\ (scan_version (skipn 22 line) = Ret None ->
      FileMajorVersion r1 = 0 /\ FileMinorVersion r1 = 0 /\ FileVersion r1 = 0
      /\ In CannotReadFileVersion (Warnings r1))
  /\ (forall major minor,
        scan_version (skipn 22 line) = Ret (Some (major, minor)) ->
        FileMajorVersion r1 = major /\ FileMinorVersion r1 = minor
        /\ FileVersion r1 = 10 * major + minor
        /\ (newer_version X major minor = true ->
            In NewerFileVersion (Warnings r1))).
Proof.
  unfold ReadHeader_version, bind, of_outcome.
  destruct (scan_version (skipn 22 line)) as [[[major minor]|]| |];
    try discriminate.
  - unfold ret at 1. fold (newer_version X major minor).
    destruct (newer_version X major minor) eqn:EN;
      unfold vtkWarningMacro, modify, ret;
      (destruct (in_int_range (10 * major) && in_int_range (10 * major + minor));
       [|discriminate]);
      intros [= E]; subst r1; cbn -[Z.mul Z.add];
      (split; [reflexivity|]); (split; [reflexivity|]);
      (split; [reflexivity|]); (split; [reflexivity|]);
      (split; [discriminate|]);
      intros major0 minor0 [= <- <-]; rewrite EN;
      (split; [reflexivity|]); (split; [reflexivity|]);
      (split; [reflexivity|]).
    + intros _. apply in_or_app; right; left; reflexivity.
    + discriminate.
  - unfold vtkWarningMacro at 1, modify at 1, ret at 1.
    fold (newer_version X 0 0).
    destruct (newer_version X 0 0);
      unfold vtkWarningMacro, modify, ret; cbn -[Z.mul Z.add];
      intros [= E]; subst r1; cbn -[Z.mul Z.add];
      (split; [reflexivity|]); (split; [reflexivity|]);
      (split; [reflexivity|]); (split; [reflexivity|]);
      (split; [|discriminate]); intros _;
      (split; [reflexivity|]); (split; [reflexivity|]);
      (split; [reflexivity|]).
    + apply in_or_app; left. apply in_or_app; right; left; reflexivity.
    + apply in_or_app; right; left; reflexivity.
Qed.

Lemma reopen_binary_spec (r r' : vtkDataReader) (rc : Z) :
  reopen_binary r = Ret (rc, r') ->
  Warnings r' = Warnings r /\ FileMajorVersion r' = FileMajorVersion r
  /\ FileMinorVersion r' = FileMinorVersion r
  /\ FileVersion r' = FileVersion r
  /\ (if negb (FileType r =? VTK_BINARY) || ReadFromInputString r
         || is_some (FileOnDisk r)
      then rc = 1 /\ ErrorCode r' = ErrorCode r
      else rc = 0 /\ ErrorCode r' = CannotOpenFileError).
Proof.
  unfold reopen_binary, bind, gets.
  destruct (FileType r =? VTK_BINARY); cbn [andb negb orb].
  2:{ unfold ret. intros [= <- <-]. cbn. repeat split. }
  destruct (ReadFromInputString r); cbn [andb negb orb].
  { unfold ret. intros [= <- <-]. cbn. repeat split. }
  destruct (FileOnDisk r) as [bytes|]; cbn [is_some].
  - unfold modify at 1.
    destruct (ReadLine_total (open_string bytes)) as (ok1 & l1 & s1 & E1).
    rewrite (onIS_Ret ReadLine (set_IS r (Some (open_string bytes)))
               (open_string bytes) s1 _ eq_refl E1).
    destruct (ReadLine_total s1) as (ok2 & l2 & s2 & E2).
    rewrite (onIS_Ret ReadLine
               (set_IS (set_IS r (Some (open_string bytes))) (Some s1))
               s1 s2 _ eq_refl E2).
    destruct (ReadString_total s2) as (tok & s3 & E3).
    rewrite (onIS_Ret ReadString
               (set_IS (set_IS (set_IS r (Some (open_string bytes))) (Some s1))
                       (Some s2))
               s2 s3 _ eq_refl E3).
    unfold ret. intros [= <- <-]. cbn. repeat split.
  - unfold modify, SetErrorCode, modify, ret. intros [= <- <-]. cbn. repeat split.
Qed.

Lemma ReadHeader_type_spec (r r' : vtkDataReader)
  (s s3 : istream) (tok : option (list Z)) (rc : Z) :
  IS r = Some s -> ReadString s = Ret (tok, s3) ->
  ReadHeader_type r = Ret (rc, r') ->
  Warnings r' = Warnings r /\ FileMajorVersion r' = FileMajorVersion r
  /\ FileMinorVersion r' = FileMinorVersion r
  /\ FileVersion r' = FileVersion r
  /\ match tok with
     | None => rc = 0 /\ ErrorCode r' = PrematureEndOfFileError
     | Some t =>
         if type_recognized t then
           if type_is_ascii t || ReadFromInputString r || is_some (FileOnDisk r)
           then rc = 1 /\ ErrorCode r' = ErrorCode r
           else rc = 0 /\ ErrorCode r' = CannotOpenFileError
         else rc = 0 /\ ErrorCode r' = UnrecognizedFileTypeError
     end.
Proof.
  intros HIS ES. unfold ReadHeader_type. unfold bind at 1.
  rewrite (onIS_Ret ReadString r s s3 _ HIS ES).
  destruct tok as [t|].
  2:{ unfold bind, SetErrorCode, modify, ret. intros [= <- <-]. cbn.
      repeat split. }
  unfold type_recognized, type_is_ascii.
  destruct (strncmp0 (LowerCase t LowerCase_default) (bytes_of "ascii") 5).
  { unfold bind, modify. intros H. apply reopen_binary_spec in H.
    cbn in H. cbn [orb]. exact H. }
  destruct (strncmp0 (LowerCase t LowerCase_default) (bytes_of "binary") 6).
  { unfold bind, modify. intros H. apply reopen_binary_spec in H.
    cbn in H. cbn [orb]. exact H. }
  unfold bind, modify, SetErrorCode, modify, ret. intros [= <- <-]. cbn.
  repeat split.
Qed.

Lemma ReadHeader_title_spec (r r' : vtkDataReader)
  (s s2 : istream) (ok : bool) (title : list Z) (rc : Z) :
  IS r = Some s -> ReadLine s = Ret ((ok, title), s2) ->
  ReadHeader_title r = Ret (rc, r') ->
  Warnings r' = Warnings r /\ FileMajorVersion r' = FileMajorVersion r
  /\ FileMinorVersion r' = FileMinorVersion r
  /\ FileVersion r' = FileVersion r
  /\ (if ok then
        exists tok s3, ReadString s2 = Ret (tok, s3)
        /\ match tok with
           | None => rc = 0 /\ ErrorCode r' = PrematureEndOfFileError
           | Some t =>
               if type_recognized t then
                 if type_is_ascii t || ReadFromInputString r
                    || is_some (FileOnDisk r)
                 then rc = 1 /\ ErrorCode r' = ErrorCode r
                 else rc = 0 /\ ErrorCode r' = CannotOpenFileError
               else rc = 0 /\ ErrorCode r' = UnrecognizedFileTypeError
           end
      else rc = 0 /\ ErrorCode r' = PrematureEndOfFileError).
Proof.
  intros HIS EL. unfold ReadHeader_title. unfold bind at 1.
  rewrite (onIS_Ret ReadLine r s s2 _ HIS EL).
  destruct ok; cbn [negb].
  2:{ unfold bind, SetErrorCode, modify, ret. intros [= <- <-]. cbn.
      repeat split. }
  unfold bind at 1, modify at 1. intros H.
  destruct (ReadString_total s2) as (tok & s3 & ES).
  apply (ReadHeader_type_spec (set_Header (set_IS r (Some s2)) title) r' s2 s3 tok rc eq_refl ES) in H.
  cbn in H. destruct H as (H1 & H2 & H3 & H4 & H5).
  repeat (split; [assumption|]). exists tok, s3. split; [exact ES | exact H5].
Qed.

(** C3 (amended).  For a call of ReadHeader that returns:
    - it fails with the unrecognized-format error exactly when the first
      line is read and does not start with "# vtk DataFile Version", or
      the title and the type token are read and the token does not start,
      in any letter case, with "ascii" or "binary" (a token that only
      begins so, such as ASCIIX, is accepted);
    - when the prefix matches and the version does not parse, the
      cannot-read-version warning is issued and the version is 0.0;
    - when the version parsed is strictly greater than the reader's, the
      newer-version warning is issued;
    - and it succeeds exactly when the prefix matches, the title is read,
      and the type token is recognized (and, for a BINARY file not given as
      a string, the file opens again): whether the version parses, and what
      it is, takes no part in that. *)
Theorem ReadHeader_outcomes (X : Externals) (r r' : vtkDataReader)
  (s : istream) (rc : Z) :
  IS r = Some s ->
  ReadHeader X r = Ret (rc, r') ->
  ((rc = 0 /\ ErrorCode r' = UnrecognizedFileTypeError) <->
   (exists line s1,
      ReadLine s = Ret ((true, line), s1)
      /\ (header_prefix line = false
          \/ (header_prefix line = true
              /\ exists title s2 tok s3,
                   ReadLine s1 = Ret ((true, title), s2)
                   /\ ReadString s2 = Ret (Some tok, s3)
                   /\ type_recognized tok = false))))
  /\ (forall line s1,
        ReadLine s = Ret ((true, line), s1) ->
        header_prefix line = true ->
        scan_version (skipn 22 line) = Ret None ->
        In CannotReadFileVersion (Warnings r')
        /\ FileMajorVersion r' = 0 /\ FileMinorVersion r' = 0
        /\ FileVersion r' = 0)
  /\ (forall line s1 major minor,
        ReadLine s = Ret ((true, line), s1) ->
        header_prefix line = true ->
        scan_version (skipn 22 line) = Ret (Some (major, minor)) ->
        newer_version X major minor = true ->
        In NewerFileVersion (Warnings r'))
  /\ (rc = 1 <->
      (exists line s1 title s2 tok s3,
         ReadLine s = Ret ((true, line), s1)
         /\ header_prefix line = true
         /\ ReadLine s1 = Ret ((true, title), s2)
         /\ ReadString s2 = Ret (Some tok, s3)
         /\ type_recognized tok = true
         /\ (type_is_ascii tok || ReadFromInputString r
             || is_some (FileOnDisk r)) = true)).
Proof.
  intros HIS H. unfold ReadHeader in H. unfold bind at 1 in H.
  destruct (ReadLine_total s) as (ok & line & s1 & E1).
  rewrite (onIS_Ret ReadLine r s s1 _ HIS E1) in H.
  destruct ok; cbn [negb] in H.
  2:{ unfold bind, SetErrorCode, modify, ret in H. injection H as <- <-.
      split; [split; [intros [_ ?]; discriminate
                     | intros (l & s' & E & _); congruence]|].
      split; [intros l s' E; congruence|].
      split; [intros l s' ? ? E; congruence|].
      split; [discriminate
             | intros (l & s' & ? & ? & ? & ? & E & _); congruence]. }
  fold (header_prefix line) in H.
  destruct (header_prefix line) eqn:EP; cbn [negb] in H.
  2:{ unfold bind, SetErrorCode, modify, ret in H. injection H as <- <-.
      split; [split; [intros _; exists line, s1;
                      split; [exact E1 | left; exact EP]
                     | intros _; split; reflexivity]|].
      split; [intros l s' E EP' _; rewrite E1 in E; injection E as <- <-;
              congruence|].
      split; [intros l s' major minor E EP' _ _; rewrite E1 in E;
              injection E as <- <-; congruence|].
      split; [discriminate|].
      intros (l & s' & ? & ? & ? & ? & E & EP' & _). rewrite E1 in E.
      injection E as <- <-. congruence. }
  unfold bind at 1 in H.
  destruct (ReadHeader_version X line (set_IS r (Some s1))) as [[u r1]| |] eqn:EV;
    try discriminate.
  destruct (ReadHeader_version_spec X line _ r1 u EV)
    as (VIS & VErr & VStr & VDisk & Vnone & Vsome).
  cbn in VIS, VErr, VStr, VDisk.
  destruct (ReadLine_total s1) as (ok2 & title & s2 & E2).
  destruct (ReadHeader_title_spec r1 r' s1 s2 ok2 title rc VIS E2 H)
    as (TW & TMaj & TMin & TVer & Tcase).
  rewrite VStr, VDisk, VErr in Tcase.
  split; [|split; [|split]].
  - split.
    + intros [Hrc Herr]. exists line, s1. split; [exact E1|]. right.
      split; [exact EP|].
      destruct ok2.
      * destruct Tcase as (tok & s3 & ES & Hc).
        destruct tok as [t|].
        -- exists title, s2, t, s3. split; [exact E2|]. split; [exact ES|].
           destruct (type_recognized t); [|reflexivity].
           destruct (type_is_ascii t || ReadFromInputString r
                     || is_some (FileOnDisk r));
             destruct Hc as [Hc1 Hc2]; [lia | congruence].
        -- destruct Hc as [_ Hc]. congruence.
      * destruct Tcase as [_ Hc]. congruence.
    + intros (l & s' & E & [EP' | (_ & t' & s2' & tok & s3 & E2' & ES & ET)]).
      * rewrite E1 in E. injection E as <- <-. congruence.
      * rewrite E1 in E. injection E as <- <-.
        rewrite E2 in E2'. injection E2' as -> <- <-.
        destruct Tcase as (tok' & s3' & ES' & Hc).
        rewrite ES in ES'. injection ES' as <- <-.
        rewrite ET in Hc. exact Hc.
  - intros l s' E _ EN. rewrite E1 in E. injection E as <- <-.
    destruct (Vnone EN) as (N1 & N2 & N3 & N4).
    rewrite TW, TMaj, TMin, TVer. auto.
  - intros l s' major minor E _ ES EN. rewrite E1 in E. injection E as <- <-.
    destruct (Vsome major minor ES) as (_ & _ & _ & N4).
    rewrite TW. auto.
  - split.
    + intros Hrc. destruct ok2.
      * destruct Tcase as (tok & s3 & ES & Hc). destruct tok as [t|].
        -- exists line, s1, title, s2, t, s3.
           repeat (split; [assumption|]).
           destruct (type_recognized t); [|lia].
           destruct (type_is_ascii t || ReadFromInputString r
                     || is_some (FileOnDisk r)); [auto | lia].
        -- lia.
      * lia.
    + intros (l & s' & t' & s2' & tok & s3 & E & _ & E2' & ES & ET & EO).
      rewrite E1 in E. injection E as <- <-.
      rewrite E2 in E2'. injection E2' as -> <- <-.
      destruct Tcase as (tok' & s3' & ES' & Hc).
      rewrite ES in ES'. injection ES' as <- <-.
      rewrite ET, EO in Hc. apply Hc.
Qed.

Lemma ReadHeader_outcomes_witness :
  ((1 = 0 /\ ErrorCode header_example_result = UnrecognizedFileTypeError) <->
   (exists line s1,
      ReadLine (open_string header_example_input) = Ret ((true, line), s1)
      /\ (header_prefix line = false
          \/ (header_prefix line = true
              /\ exists title s2 tok s3,
                   ReadLine s1 = Ret ((true, title), s2)
                   /\ ReadString s2 = Ret (Some tok, s3)
                   /\ type_recognized tok = false))))
  /\ (forall line s1,
        ReadLine (open_string header_example_input) = Ret ((true, line), s1) ->
        header_prefix line = true ->
        scan_version (skipn 22 line) = Ret None ->
        In CannotReadFileVersion (Warnings header_example_result)
        /\ FileMajorVersion header_example_result = 0
        /\ FileMinorVersion header_example_result = 0
        /\ FileVersion header_example_result = 0)
  /\ (forall line s1 major minor,
        ReadLine (open_string header_example_input) = Ret ((true, line), s1) ->
        header_prefix line = true ->
        scan_version (skipn 22 line) = Ret (Some (major, minor)) ->
        newer_version example_externals major minor = true ->
        In NewerFileVersion (Warnings header_example_result))
  /\ (1 = 1 <->
      (exists line s1 title s2 tok s3,
         ReadLine (open_string header_example_input) = Ret ((true, line), s1)
         /\ header_prefix line = true
         /\ ReadLine s1 = Ret ((true, title), s2)
         /\ ReadString s2 = Ret (Some tok, s3)
         /\ type_recognized tok = true
         /\ (type_is_ascii tok
             || ReadFromInputString (example_reader header_example_input VTK_ASCII)
             || is_some (FileOnDisk (example_reader header_example_input VTK_ASCII)))
            = true)).
Proof.
  apply (ReadHeader_outcomes example_externals
           (example_reader header_example_input VTK_ASCII)
           header_example_result (open_string header_example_input) 1).
  - reflexivity.
  - vm_compute. reflexivity.
Defined.

(** The run behind the witness: the version "x" does not parse, the
    warning is issued, the version is 0.0, and the call succeeds. *)
Example ReadHeader_unparseable_version :
  ReadHeader example_externals (example_reader header_example_input VTK_ASCII)
  = Ret (1, header_example_result)
  /\ Warnings header_example_result = [CannotReadFileVersion]
  /\ FileVersion header_example_result = 0
  /\ ErrorCode header_example_result = NoError.
Proof. repeat split; vm_compute; reflexivity. Qed.

(** C3, as stated, fails: the type token ASCIIX is neither ASCII nor
    BINARY in any letter case, and ReadHeader succeeds on it, without an
    error, taking the file as ASCII. *)
Lemma ReadHeader_accepts_ASCIIX :
  (exists r',
     ReadHeader example_externals (example_reader header_ASCIIX_input VTK_ASCII)
     = Ret (1, r')
     /\ ErrorCode r' = NoError /\ FileType r' = VTK_ASCII)
  /\ (exists s1 s2 s3,
        ReadLine (open_string header_ASCIIX_input)
        = Ret ((true, bytes_of "# vtk DataFile Version 4.2"), s1)
        /\ ReadLine s1 = Ret ((true, bytes_of "demo"), s2)
        /\ ReadString s2 = Ret (Some (bytes_of "ASCIIX"), s3))
  /\ LowerCase (bytes_of "ASCIIX") LowerCase_default <> bytes_of "ascii"
  /\ LowerCase (bytes_of "ASCIIX") LowerCase_default <> bytes_of "binary".
Proof.
  split; [eexists; split; [vm_compute; reflexivity | split; reflexivity]|].
  split; [do 3 eexists; repeat split; vm_compute; reflexivity|].
  split; discriminate.
Qed.

(** ** C7: a field excluded by the name filter *)

(** C7 (the code at the failing input).  The field-data name filter is
    "wanted" and read-all-fields is off; the input holds a FIELD section
    named "other" and then a SCALARS section.  ReadFieldData parses the
    array of the excluded field and returns [nullptr]; ReadRowData takes
    that for a failure and returns 0: nothing is installed, and the stream
    is left at the SCALARS keyword, which the loop never reads.  With
    read-all-fields on, the same input is read to its end: the field's
    array is added and the SCALARS section fills the Scalars slot. *)
Theorem ReadRowData_excluded_field_stops :
  (exists r' s',
     ReadRowData example_externals empty_attributes 2
                 (field_filter_reader field_then_scalars_input false)
     = Ret ((0, empty_attributes), r')
     /\ IS r' = Some s'
     /\ rest s' = bytes_of "SCALARS s int 1" ++ [10]
                  ++ bytes_of "LOOKUP_TABLE default" ++ [10]
                  ++ bytes_of "7 8" ++ [10])
  /\ (exists r',
        ReadFieldData example_externals FIELD_DATA
          (field_filter_reader (skipn 6 field_then_scalars_input) false)
        = Ret (None, r'))
  /\ (exists a' r' sc arr,
        ReadRowData example_externals empty_attributes 2
                    (field_filter_reader field_then_scalars_input true)
        = Ret ((1, a'), r')
        /\ Scalars a' = Some sc /\ Name sc = Some (bytes_of "s")
        /\ Values sc = [Some (VInt 7); Some (VInt 8)]
        /\ Arrays a' = [arr] /\ Name arr = Some (bytes_of "arr")
        /\ Values arr = [Some (VInt 5); Some (VInt 6)]).
Proof.
  split; [|split].
  - do 2 eexists. split; [vm_compute; reflexivity|].
    split; [reflexivity | vm_compute; reflexivity].
  - eexists. vm_compute. reflexivity.
  - do 4 eexists. split; [vm_compute; reflexivity|].
    repeat split; reflexivity.
Qed.

(** ** C5: the bytes a binary array consumes *)

(** C5 (the code at the failing input).  In BINARY mode, for the type
    "int" with one tuple of one component, on a stream that holds the
    preamble newline and only two of the four payload bytes: the short
    read is reported by vtkReadBinaryData and not looked at, and ReadArray
    returns an array, of one element that was never filled, having
    consumed two payload bytes.  On the complete payload it consumes four;
    and the "bit" branch, which does look at the end-of-file flag, returns
    [nullptr] on a truncated payload. *)
Theorem ReadArray_short_binary_read :
  (exists array s',
     ReadArray example_externals VTK_BINARY (bytes_of "int") 1 1
               (open_string [10; 0; 0])
     = Ret (Some array, s')
     /\ Class array = vtkIntArray
     /\ Values array = [None]
     /\ gpos s' = 3%nat)
  /\ vtkReadBinaryData 4 1 1 (open_string [10; 0; 0])
     = Ret ((false, [None]), mkIS [10; 0; 0] 3 true true)
  /\ (exists array s',
        ReadArray example_externals VTK_BINARY (bytes_of "int") 1 1
                  (open_string [10; 0; 0; 0; 42])
        = Ret (Some array, s')
        /\ Values array = [Some (VInt 42)]
        /\ gpos s' = 5%nat)
  /\ (exists s',
        ReadArray example_externals VTK_BINARY (bytes_of "bit") 16 1
                  (open_string [10; 0])
        = Ret (None, s')).
Proof.
  split; [|split; [|split]].
  - do 2 eexists. split; [vm_compute; reflexivity|]. repeat split.
  - vm_compute. reflexivity.
  - do 2 eexists. split; [vm_compute; reflexivity|]. repeat split.
  - eexists. vm_compute. reflexivity.
Qed.

(** ** C6 and C10: the scalar section and its filter *)

Section Follows.

Variable inv : vtkDataReader -> Prop.
Hypothesis inv_set_IS : forall r s, inv r -> inv (set_IS r s).

Lemma follows_ret {A B} (rel : A -> B -> Prop) (a : A) (b : B) :
  rel a b -> follows inv rel (ret a) (ret b).
Proof.
  intros H r s HIS Hinv. unfold ret. exists a, r. auto.
Qed.

Lemma follows_undefined {A B} (rel : A -> B -> Prop) :
  follows inv rel undefined undefined.
Proof. intros r s _ _. reflexivity. Qed.

Lemma follows_bind {A B A' B'} (rel : A -> B -> Prop) (rel' : A' -> B' -> Prop)
  (mr : ST vtkDataReader A) (ms : ST istream B)
  (kr : A -> ST vtkDataReader A') (ks : B -> ST istream B') :
  follows inv rel mr ms ->
  (forall a b, rel a b -> follows inv rel' (kr a) (ks b)) ->
  follows inv rel' (bind mr kr) (bind ms ks).
Proof.
  intros Hm Hk r s HIS Hinv. unfold bind.
  specialize (Hm r s HIS Hinv).
  destruct (ms s) as [[b s1]| |].
  - destruct Hm as (a & r1 & E & HIS1 & Hinv1 & Hrel). rewrite E.
    exact (Hk a b Hrel r1 s1 HIS1 Hinv1).
  - rewrite Hm. reflexivity.
  - rewrite Hm. reflexivity.
Qed.

Lemma follows_onIS {A} (m : ST istream A) : follows inv eq (onIS m) m.
Proof.
  intros r s HIS Hinv. unfold onIS. rewrite HIS.
  destruct (m s) as [[a s1]| |]; try reflexivity.
  exists a, (set_IS r (Some s1)). repeat split. apply inv_set_IS. exact Hinv.
Qed.

Lemma follows_decode (name : list Z) :
  follows inv eq (decode name) (decode name).
Proof.
  intros r s HIS Hinv. unfold decode.
  destruct (DecodeString name); try reflexivity.
  eexists; eexists; repeat split; eauto.
Qed.

(** A step that only reads the reader. *)
Lemma follows_gets {A A' B'} (rel' : A' -> B' -> Prop) (f : vtkDataReader -> A)
  (v : A) (kr : A -> ST vtkDataReader A') (ms : ST istream B') :
  (forall r, inv r -> f r = v) ->
  follows inv rel' (kr v) ms ->
  follows inv rel' (bind (gets f) kr) ms.
Proof.
  intros Hf Hk r s HIS Hinv. unfold bind, gets. rewrite (Hf r Hinv).
  exact (Hk r s HIS Hinv).
Qed.

(** A step that only writes members other than the stream. *)
Lemma follows_modify {A' B'} (rel' : A' -> B' -> Prop)
  (g : vtkDataReader -> vtkDataReader)
  (kr : ST vtkDataReader A') (ms : ST istream B') :
  (forall r, inv r -> inv (g r) /\ IS (g r) = IS r) ->
  follows inv rel' kr ms ->
  follows inv rel' (bind (modify g) (fun _ => kr)) ms.
Proof.
  intros Hg Hk r s HIS Hinv. unfold bind, modify.
  destruct (Hg r Hinv) as [Hinv' HIS'].
  apply Hk; [rewrite HIS'; exact HIS | exact Hinv'].
Qed.

(** A step that leaves the stream alone. *)
Lemma follows_step_l {A' B'} (rel' : A' -> B' -> Prop)
  (m : ST vtkDataReader unit)
  (kr : ST vtkDataReader A') (ms : ST istream B') :
  (forall r, inv r -> exists r1, m r = Ret (tt, r1) /\ IS r1 = IS r /\ inv r1) ->
  follows inv rel' kr ms ->
  follows inv rel' (bind m (fun _ => kr)) ms.
Proof.
  intros Hm Hk r s HIS Hinv. unfold bind.
  destruct (Hm r Hinv) as (r1 & E & HIS' & Hinv'). rewrite E.
  apply Hk; [rewrite HIS'; exact HIS | exact Hinv'].
Qed.

End Follows.

Lemma scalar_config_set_IS (ft : Z) (sn : option (list Z)) (ra : bool)
  (r : vtkDataReader) (s : option istream) :
  scalar_config ft sn ra r -> scalar_config ft sn ra (set_IS r s).
Proof. intros H. exact H. Qed.

Lemma follows_ReadArray_this (X : Externals) (ft : Z) (sn : option (list Z))
  (ra : bool) (dataType : list Z) (numTuples numComp : Z) :
  follows (scalar_config ft sn ra) eq
          (ReadArray_this X dataType numTuples numComp)
          (ReadArray X ft dataType numTuples numComp).
Proof.
  intros r s HIS Hinv. unfold ReadArray_this.
  destruct Hinv as (Hft & Hsn & Hra). rewrite Hft.
  apply (follows_onIS (scalar_config ft sn ra)
           (scalar_config_set_IS ft sn ra) _ r s HIS).
  repeat split; assumption.
Qed.

(** ReadScalarData follows its parse: the stream is left as the parse
    leaves it, and the value returned and the container are those of
    [scalar_outcome]. *)
Lemma ReadScalarData_follows (X : Externals) (a : vtkDataSetAttributes)
  (numPts : Z) (ft : Z) (sn : option (list Z)) (ra : bool) :
  follows (scalar_config ft sn ra)
          (fun out res => out = scalar_outcome a sn ra res)
          (ReadScalarData X a numPts)
          (ReadScalarData_parse X ft numPts).
Proof.
  pose proof (scalar_config_set_IS ft sn ra) as HI.
  unfold ReadScalarData, ReadScalarData_parse.
  eapply follows_bind; [apply follows_onIS; exact HI|].
  intros ? [buffer|] ->; [|apply follows_ret; reflexivity].
  eapply follows_bind; [apply follows_onIS; exact HI|].
  intros ? [line|] ->; [|apply follows_ret; reflexivity].
  eapply follows_bind; [apply follows_decode|].
  intros ? decoded ->.
  eapply follows_bind; [apply follows_onIS; exact HI|].
  intros ? [key|] ->; [|apply follows_ret; reflexivity].
  eapply (follows_bind _ eq).
  { destruct (negb (strcmp0 (LowerCase key LowerCase_default)
                            (bytes_of "lookup_table")));
      [|apply follows_ret; reflexivity].
    destruct (atoi (LowerCase key LowerCase_default)) as [numComp|];
      [|apply follows_undefined].
    destruct (numComp <? 1); [apply follows_ret; reflexivity|].
    eapply follows_bind; [apply follows_onIS; exact HI|].
    intros ? key' ->. apply follows_ret. reflexivity. }
  intros ? [[numComp key2]|] ->; [|apply follows_ret; reflexivity].
  destruct (negb (strcmp0 (LowerCase key2 LowerCase_default)
                          (bytes_of "lookup_table")));
    [apply follows_ret; reflexivity|].
  eapply follows_bind; [apply follows_onIS; exact HI|].
  intros ? [tableName|] ->; [|apply follows_ret; reflexivity].
  apply (follows_gets _ _ ScalarsName sn); [intros r (_ & H & _); exact H|].
  apply follows_step_l.
  { intros r Hinv.
    destruct (is_some (Scalars a) || filter_differs sn (cstr decoded)).
    - exists r. split; [reflexivity|]. split; [reflexivity | exact Hinv].
    - exists (set_ScalarLut r (Some tableName)).
      split; [reflexivity|]. split; [reflexivity | exact Hinv]. }
  eapply follows_bind; [apply follows_ReadArray_this|].
  intros ? data ->.
  destruct (DownCast_vtkDataArray data) as [data0|];
    [|apply follows_ret; reflexivity].
  apply (follows_gets _ _ ReadAllScalars ra); [intros r (_ & _ & H); exact H|].
  apply follows_ret. reflexivity.
Qed.




(** The run behind the witness: the filter "t" differs from the name "s",
    read-all-scalars is on, and the array is added as an extra array. *)
Example ReadScalarData_filtered_run :
  exists data r',
    ReadScalarData example_externals empty_attributes 2 scalar_example_reader
    = Ret ((1, AddArray empty_attributes data), r')
    /\ Name data = Some (bytes_of "s")
    /\ Values data = [Some (VInt 7); Some (VInt 8)].
Proof.
  do 2 eexists. split; [vm_compute; reflexivity|]. split; reflexivity.
Qed.

(** The stream and the value returned do not depend on the scalar filter:
    two readers on the same stream with the same file type get the same
    value and leave the same stream, whatever the rest of their
    configuration and whatever the containers. *)
Lemma ReadScalarData_stream_only (X : Externals)
  (a1 a2 : vtkDataSetAttributes) (numPts : Z) (r1 r2 : vtkDataReader)
  (s : istream) :
  IS r1 = Some s -> IS r2 = Some s -> FileType r1 = FileType r2 ->
  match ReadScalarData X a1 numPts r1, ReadScalarData X a2 numPts r2 with
  | Ret ((rc1, _), r1'), Ret ((rc2, _), r2') => rc1 = rc2 /\ IS r1' = IS r2'
  | Undefined, Undefined => True
  | Diverges, Diverges => True
  | _, _ => False
  end.
Proof.
  intros H1 H2 HF.
  pose proof (ReadScalarData_follows X a1 numPts (FileType r1) (ScalarsName r1)
                (ReadAllScalars r1) r1 s H1
                (conj eq_refl (conj eq_refl eq_refl))) as F1.
  pose proof (ReadScalarData_follows X a2 numPts (FileType r1) (ScalarsName r2)
                (ReadAllScalars r2) r2 s H2
                (conj (eq_sym HF) (conj eq_refl eq_refl))) as F2.
  destruct (ReadScalarData_parse X (FileType r1) numPts s) as [[res s']| |].
  - destruct F1 as (o1 & r1' & E1 & I1 & _ & O1).
    destruct F2 as (o2 & r2' & E2 & I2 & _ & O2).
    rewrite E1, E2. subst o1 o2.
    destruct res as [[[name tn] data]|]; cbn [scalar_outcome];
      (split; [reflexivity | congruence]).
  - rewrite F1, F2. exact I.
  - rewrite F1, F2. exact I.
Qed.

(** C10.  On every stream, for two configurations that differ only in the
    scalars name filter, the read-all-scalars toggle and the content of
    the Scalars slot, ReadScalarData has the same kind of outcome, and
    when it returns it returns the same value and leaves the same stream:
    the same bytes are consumed in both runs. *)
Theorem ReadScalarData_filter_noninterference (X : Externals)
  (a : vtkDataSetAttributes) (numPts : Z) (r : vtkDataReader) (s : istream)
  (sn : option (list Z)) (ra : bool) (sc : option vtkAbstractArray) :
  IS r = Some s ->
  match ReadScalarData X a numPts r,
        ReadScalarData X (with_Scalars a sc) numPts (with_scalar_filter r sn ra)
  with
  | Ret ((rc1, _), r1'), Ret ((rc2, _), r2') => rc1 = rc2 /\ IS r1' = IS r2'
  | Undefined, Undefined => True
  | Diverges, Diverges => True
  | _, _ => False
  end.
Proof.
  intros HIS.
  apply (ReadScalarData_stream_only X a (with_Scalars a sc) numPts r
           (with_scalar_filter r sn ra) s HIS); [exact HIS | reflexivity].
Qed.

Lemma ReadScalarData_filter_noninterference_witness :
  match ReadScalarData example_externals empty_attributes 2
                       (example_reader scalar_example_input VTK_ASCII),
        ReadScalarData example_externals
                       (with_Scalars empty_attributes (Some ghost_example_data))
                       2
                       (with_scalar_filter
                          (example_reader scalar_example_input VTK_ASCII)
                          (Some (bytes_of "t")) true)
  with
  | Ret ((rc1, _), r1'), Ret ((rc2, _), r2') => rc1 = rc2 /\ IS r1' = IS r2'
  | Undefined, Undefined => True
  | Diverges, Diverges => True
  | _, _ => False
  end.
Proof.
  apply (ReadScalarData_filter_noninterference example_externals
           empty_attributes 2 (example_reader scalar_example_input VTK_ASCII)
           (open_string scalar_example_input)
           (Some (bytes_of "t")) true (Some ghost_example_data)).
  reflexivity.
Defined.

(** ** C9: the string-vector information key *)

Lemma key_eqb_refl (k : InfoKey) : key_eqb k k = true.
Proof. unfold key_eqb. rewrite !bytes_eqb_refl. reflexivity. Qed.

Lemma info_Get_Remove (info : vtkInformation) (k : InfoKey) :
  info_Get (info_Remove info k) k = None.
Proof.
  induction info as [|[k' v] info IH]; cbn; [reflexivity|].
  destruct (key_eqb k k') eqn:E; [exact IH|].
  cbn. rewrite E. exact IH.
Qed.

Lemma info_Get_app_None (i1 i2 : vtkInformation) (k : InfoKey) :
  info_Get i1 k = None -> info_Get (i1 ++ i2) k = info_Get i2 k.
Proof.
  induction i1 as [|[k' v] i1 IH]; cbn; [reflexivity|].
  destruct (key_eqb k k'); [discriminate | exact IH].
Qed.

Lemma info_Get_Set (info : vtkInformation) (k : InfoKey) (v : InfoValue) :
  info_Get (info_Set info k v) k = Some v.
Proof.
  unfold info_Set. rewrite info_Get_app_None by apply info_Get_Remove.
  cbn. rewrite key_eqb_refl. reflexivity.
Qed.

Lemma info_Get_Append (info : vtkInformation) (k : InfoKey) (d : list Z) :
  info_Get (info_Append info k d) k
  = Some (IStringVector (string_vector_of info k ++ [d])).
Proof.
  unfold info_Append, string_vector_of.
  destruct (info_Get info k) as [[]|]; apply info_Get_Set.
Qed.

Lemma read_lines_length :
  forall n s lines s3,
    read_lines n s = (Some lines, s3) -> length lines = n.
Proof.
  induction n as [|n IH]; intros s lines s3; cbn [read_lines].
  - intros H; inversion H; subst. reflexivity.
  - destruct (ReadLine_total s) as (ok & l & s1 & EL). rewrite EL.
    destruct ok; [|discriminate].
    destruct (read_lines n s1) as [[ls|] s2] eqn:E; cbn [option_map];
      [|discriminate].
    intros H; inversion H; subst. cbn [length]. f_equal. exact (IH _ _ _ E).
Qed.

(** The loop of the string-vector key against [read_lines]: when every
    line is read, it succeeds, having appended the decoded lines in order;
    when a read fails, it reports the failure. *)
Lemma read_string_vector_spec (key : InfoKey) :
  forall n info s success info1 s1,
    read_string_vector key n info s = Ret ((success, info1), s1) ->
    match read_lines n s with
    | (Some lines, s3) =>
        success = true /\ s1 = s3
        /\ exists ds,
             Forall2 decodes_to lines ds
             /\ string_vector_of info1 key = string_vector_of info key ++ ds
             /\ (0 < n -> info_Get info1 key
                          = Some (IStringVector (string_vector_of info1 key)))%nat
    | (None, _) => success = false
    end.
Proof.
  induction n as [|n IH]; intros info s success info1 s1.
  - cbn. unfold ret. intros [= <- <- <-].
    split; [reflexivity|]. split; [reflexivity|].
    exists []. split; [constructor|]. split; [symmetry; apply app_nil_r | lia].
  - cbn [read_string_vector read_lines]. unfold bind at 1.
    destruct (ReadLine_total s) as (ok & l & s2 & EL). rewrite EL.
    destruct ok.
    2:{ unfold ret. intros [= <- <- <-]. reflexivity. }
    unfold bind at 1. unfold decode at 1.
    destruct (DecodeString l) as [decoded| |] eqn:ED; try discriminate.
    intros H. specialize (IH _ _ _ _ _ H).
    destruct (read_lines n s2) as [[lines|] s3]; cbn [option_map].
    2:{ exact IH. }
    destruct IH as (-> & -> & ds & HF & Hsv & Hget).
    split; [reflexivity|]. split; [reflexivity|].
    exists (cstr decoded :: ds). split.
    { constructor; [exists decoded; split; [exact ED | reflexivity] | exact HF]. }
    assert (Hap : string_vector_of (info_Append info key (cstr decoded)) key
                  = string_vector_of info key ++ [cstr decoded]).
    { unfold string_vector_of at 1. rewrite info_Get_Append. reflexivity. }
    rewrite Hap in Hsv. rewrite <- app_assoc in Hsv. cbn [app] in Hsv.
    split; [exact Hsv|]. intros _.
    destruct n as [|n'].
    + cbn in H. unfold ret in H. inversion H; subst.
      rewrite Hap. rewrite info_Get_Append. reflexivity.
    + apply Hget. lia.
Qed.

(** C9.  For a string-vector key, once the DATA token, the length L and
    the trailing newline are consumed, with L positive: if the L lines are
    all read, the key holds what it held before followed by the L lines,
    each percent-hex decoded, in order; if the read of one of them fails,
    the key is not in the information object. *)
Theorem string_vector_key_all_or_nothing (key : InfoKey)
  (info info' : vtkInformation) (s s' s1 s2 : istream) (L : Z) (ok : bool)
  (nl : list Z) :
  read_string_vector_key key info s = Ret (info', s') ->
  read_DATA (Read c_int) s = Ret (Some L, s1) ->
  ReadLine s1 = Ret ((ok, nl), s2) ->
  0 < L ->
  match read_lines (Z.to_nat L) s2 with
  | (Some lines, s3) =>
      s' = s3
      /\ exists ds,
           Forall2 decodes_to lines ds
           /\ length ds = Z.to_nat L
           /\ info_Get info' key
              = Some (IStringVector (string_vector_of info key ++ ds))
  | (None, _) => info_Get info' key = None
  end.
Proof.
  intros H HD HL HLpos. unfold read_string_vector_key in H.
  unfold bind at 1 in H. rewrite HD in H.
  unfold bind at 1 in H. rewrite HL in H.
  destruct (Z.eqb_spec L 0) as [->|_]; [lia|].
  unfold bind at 1 in H.
  destruct (read_string_vector key (Z.to_nat L) info s2)
    as [[[success info1] s3]| |] eqn:ER; try discriminate.
  pose proof (read_string_vector_spec key _ _ _ _ _ _ ER) as Hspec.
  destruct (read_lines (Z.to_nat L) s2) as [[lines|] s4] eqn:ERL.
  - destruct Hspec as (-> & -> & ds & HF & Hsv & Hget).
    unfold ret in H. injection H as <- <-.
    split; [reflexivity|]. exists ds. split; [exact HF|].
    split.
    { rewrite <- (Forall2_length HF).
      apply (read_lines_length _ _ _ _ ERL). }
    rewrite <- Hsv. apply Hget. lia.
  - subst success. unfold ret in H. injection H as <- <-.
    apply info_Get_Remove.
Qed.

Lemma string_vector_key_all_or_nothing_witness :
  fst (read_lines 3 (skip_bytes 8 (open_string string_vector_example_input)))
  = Some [bytes_of "first"; bytes_of "second%20line"; bytes_of "third"]
  /\ info_Get (fst string_vector_example_run) example_key
     = Some (IStringVector
               [bytes_of "first"; bytes_of "second line"; bytes_of "third"])
  /\ match read_lines (Z.to_nat 3)
             (skip_bytes 8 (open_string string_vector_example_input)) with
     | (Some lines, s3) =>
         snd string_vector_example_run = s3
         /\ exists ds,
              Forall2 decodes_to lines ds
              /\ length ds = Z.to_nat 3
              /\ info_Get (fst string_vector_example_run) example_key
                 = Some (IStringVector (string_vector_of [] example_key ++ ds))
     | (None, _) => info_Get (fst string_vector_example_run) example_key = None
     end.
Proof.
  split; [vm_compute; reflexivity|].
  split; [vm_compute; reflexivity|].
  apply (string_vector_key_all_or_nothing example_key [] _
           (open_string string_vector_example_input) _
           (skip_bytes 7 (open_string string_vector_example_input))
           (skip_bytes 8 (open_string string_vector_example_input))
           3 true []).
  - vm_compute; reflexivity.
  - vm_compute; reflexivity.
  - vm_compute; reflexivity.
  - lia.
Defined.

(** A run of the failure path: three lines are announced under a key that
    already holds a string vector, one line is there; the key is gone
    afterwards. *)
Example string_vector_key_failed_read :
  let info := [(example_key, IStringVector [bytes_of "old"])] in
  let input := bytes_of " DATA 3" ++ [10] ++ bytes_of "first" ++ [10] in
  exists info' s',
    read_string_vector_key example_key info (open_string input)
    = Ret (info', s')
    /\ info_Get info' example_key = None.
Proof. eexists _, _. split; vm_compute; reflexivity. Qed.

(** The length 0 is a case of its own (lines 2954-2958): the key is set to
    the empty vector, whatever it held. *)
Lemma string_vector_key_zero_length (key : InfoKey)
  (info info' : vtkInformation) (s s' s1 : istream) :
  read_string_vector_key key info s = Ret (info', s') ->
  read_DATA (Read c_int) s = Ret (Some 0, s1) ->
  info_Get info' key = Some (IStringVector []).
Proof.
  intros H HD. unfold read_string_vector_key in H.
  unfold bind at 1 in H. rewrite HD in H.
  unfold bind at 1 in H.
  destruct (ReadLine_total s1) as (ok & nl & s2 & EL). rewrite EL in H.
  cbn [Z.eqb] in H. unfold ret in H. injection H as <- _.
  apply info_Get_Set.
Qed.

(** ** C4: colour scalars *)

(** *** The arithmetic of [double] *)












Lemma pow2_pos (k : Z) : 0 <= k -> 0 < 2 ^ k.
Proof. intros. apply Z.pow_pos_nonneg; lia. Qed.















(** [round_255 v] is the integer nearest to [255 * v]. *)
Lemma round_255_nearest (v : Q) :
  (inject_Z (round_255 v) - (1 # 2) <= 255 * v
   /\ 255 * v < inject_Z (round_255 v) + (1 # 2))%Q.
Proof.
  unfold round_255.
  pose proof (Qfloor_le (255 * v + (1 # 2))) as Hlo.
  pose proof (Qlt_floor (255 * v + (1 # 2))) as Hhi.
  rewrite inject_Z_plus in Hhi. change (inject_Z 1) with 1%Q in Hhi.
  split; lra.
Qed.


(** *** What ReadArray returns for the two types of a colour section *)

Lemma component_names_loop_keeps :
  forall n i array s array' s',
    component_names_loop n i array s = Ret (array', s') ->
    Class array' = Class array /\ Values array' = Values array.
Proof.
  induction n as [|n IH]; intros i array s array' s'; cbn [component_names_loop].
  - unfold ret. intros [= <- _]. split; reflexivity.
  - unfold bind at 1.
    destruct (ReadLine_total s) as (ok & line & s1 & EL). rewrite EL.
    destruct ok; [|apply IH].
    unfold bind at 1, decode at 1.
    destruct (DecodeString line) as [decoded| |]; try discriminate.
    intros H. apply IH in H. exact H.
Qed.

Lemma metadata_loop_keeps (X : Externals) :
  forall fuel numComp array s array' s',
    metadata_loop X fuel numComp array s = Ret (array', s') ->
    Class array' = Class array /\ Values array' = Values array.
Proof.
  induction fuel as [|fuel IH]; intros numComp array s array' s';
    cbn [metadata_loop]; [discriminate|].
  unfold bind at 1.
  destruct (ReadLine_total s) as (ok & line0 & s1 & EL). rewrite EL.
  destruct ok; [|unfold ret; intros [= <- _]; split; reflexivity].
  destruct (LowerCase line0 256) as [|c line];
    [unfold ret; intros [= <- _]; split; reflexivity|].
  destruct (strncmp0 (c :: line) (bytes_of "component_names") 15).
  { unfold bind at 1.
    destruct (component_names_loop (Z.to_nat numComp) 0 array s1)
      as [[array1 s2]| |] eqn:EC; try discriminate.
    apply component_names_loop_keeps in EC as [C1 V1].
    intros H. apply IH in H as [C2 V2]. split; congruence. }
  destruct (strncmp0 (c :: line) (bytes_of "information") 11); [|apply IH].
  destruct (scan_information (c :: line)) as [[numKeys|]| |];
    try discriminate; [|apply IH].
  unfold bind at 1.
  destruct (ReadInformation X (Information array) numKeys s1)
    as [[[rc info] s2]| |]; try discriminate.
  intros H. apply IH in H. exact H.
Qed.

Lemma ReadArray_tail_keeps (X : Externals) (numComp : Z)
  (array array' : vtkAbstractArray) (s s' : istream) :
  ReadArray_tail X numComp array s = Ret (array', s') ->
  Class array' = Class array /\ Values array' = Values array.
Proof.
  unfold ReadArray_tail. unfold bind at 1.
  destruct (Peek 256 s) as [[line s1]| |]; try discriminate.
  unfold bind at 1.
  destruct (pop_blank_lines line s1) as [[ready s2]| |]; try discriminate.
  assert (Hret : forall t, ret array t = Ret (array', s') ->
                 Class array' = Class array /\ Values array' = Values array).
  { unfold ret. intros t [= <- _]. split; reflexivity. }
  destruct ready; [|apply Hret].
  unfold bind at 1.
  destruct (Peek 8 s2) as [[line8 s3]| |]; try discriminate.
  destruct (length line8 <? 8)%nat; [apply Hret|].
  destruct (negb _); [apply Hret|].
  unfold bind at 1.
  destruct (ReadLine_total s3) as (ok & l & s4 & EL). rewrite EL.
  destruct ok; [|apply Hret].
  apply metadata_loop_keeps.
Qed.

(** ReadArray returns the array that the dispatch on the type builds, with
    the names and the information of a METADATA block, if any, added. *)
Lemma ReadArray_inv (X : Externals) (FileType_ : Z) (dataType : list Z)
  (numTuples numComp : Z) (s s' : istream) (data : vtkAbstractArray) :
  ReadArray X FileType_ dataType numTuples numComp s = Ret (Some data, s') ->
  0 <= numTuples /\ 0 <= numComp
  /\ exists array s0,
       ReadArray_data X FileType_ (LowerCase dataType LowerCase_default)
                      numTuples numComp s = Ret (Some array, s0)
       /\ Class data = Class array /\ Values data = Values array.
Proof.
  unfold ReadArray.
  destruct (Z.ltb_spec numTuples 0); [discriminate|].
  destruct (Z.ltb_spec numComp 0); [discriminate|].
  cbn [orb]. unfold bind at 1.
  destruct (ReadArray_data X FileType_ _ numTuples numComp s)
    as [[[array|] s0]| |]; try discriminate.
  unfold bind at 1.
  destruct (ReadArray_tail X numComp array s0) as [[array' s1]| |] eqn:ET;
    try discriminate.
  unfold ret. intros [= <- <-].
  apply ReadArray_tail_keeps in ET.
  split; [lia|]. split; [lia|]. exists array, s0. split; [reflexivity|exact ET].
Qed.

Lemma ReadArray_data_unsigned_char (X : Externals) (FileType_ : Z)
  (numTuples numComp : Z) :
  ReadArray_data X FileType_
    (LowerCase (bytes_of "unsigned_char") LowerCase_default) numTuples numComp
  = (vs <- read_fixed FileType_ 1%nat (of_be false 8)
                      (Read_elem VInt (Read_char to_uchar)) numTuples numComp ;;
     ret (Some (SetValues (New vtkUnsignedCharArray numComp) vs))).
Proof. reflexivity. Qed.



Lemma vtkReadASCIIData_loop_length (rd : ST istream (bool * option Value)) :
  forall n s ok vs s',
    vtkReadASCIIData_loop rd n s = Ret ((ok, vs), s') -> length vs = n.
Proof.
  induction n as [|n IH]; intros s ok vs s'; cbn [vtkReadASCIIData_loop].
  - unfold ret. intros [= _ <- _]. reflexivity.
  - unfold bind at 1. destruct (rd s) as [[[ok1 w] s1]| |]; try discriminate.
    destruct ok1.
    + unfold bind at 1.
      destruct (vtkReadASCIIData_loop rd n s1) as [[[ok2 ws] s2]| |] eqn:E;
        try discriminate.
      unfold ret. intros [= _ <- _]. cbn [length]. f_equal.
      exact (IH _ _ _ _ E).
    + unfold ret. intros [= _ <- _]. cbn [length].
      rewrite repeat_length. reflexivity.
Qed.

(** In ASCII, a fixed-width array has one element per [Read] of the loop. *)
Lemma read_fixed_ascii_length (FileType_ : Z) (sz : nat)
  (of_bytes : list Z -> Value) (rd : ST istream (bool * option Value))
  (numTuples numComp : Z) (s s' : istream) (vs : list (option Value)) :
  FileType_ <> VTK_BINARY ->
  read_fixed FileType_ sz of_bytes rd numTuples numComp s = Ret (vs, s') ->
  length vs = loop_count numTuples numComp.
Proof.
  intros Hft. unfold read_fixed.
  destruct (Z.eqb_spec FileType_ VTK_BINARY) as [|_]; [contradiction|].
  unfold bind at 1, vtkReadASCIIData, loop_count.
  destruct ((0 <? numTuples) && (0 <? numComp)).
  - destruct (vtkReadASCIIData_loop rd _ s) as [[[ok ws] s1]| |] eqn:E;
      try discriminate.
    unfold ret. intros [= <- _].
    exact (vtkReadASCIIData_loop_length _ _ _ _ _ _ E).
  - unfold ret. intros [= <- _]. reflexivity.
Qed.


Lemma onIS_inv {A} (m : ST istream A) (r r1 : vtkDataReader) (x : A) :
  onIS m r = Ret (x, r1) ->
  exists s s1, IS r = Some s /\ m s = Ret (x, s1) /\ r1 = set_IS r (Some s1).
Proof.
  unfold onIS. destruct (IS r) as [s|]; [|discriminate].
  destruct (m s) as [[y s1]| |] eqn:E; try discriminate.
  intros H. injection H as Hx Hr. subst y. subst r1.
  exists s, s1. split; [reflexivity|]. split; [exact E | reflexivity].
Qed.





(** The two encodings at work.  In ASCII, the values 0.5, 1.0 and 0.2, which
    are in [0, 1], become the bytes 128, 255 and 51; in BINARY, the six
    bytes of two tuples of three components are the elements. *)
Example ReadCoScalarData_runs :
  (exists scalars r',
     ReadCoScalarData example_externals empty_attributes 3 color_example_reader
     = Ret ((1, SetScalars empty_attributes scalars), r')
     /\ Class scalars = vtkUnsignedCharArray
     /\ Name scalars = Some (bytes_of "rgb")
     /\ Values scalars = [Some (VInt 128); Some (VInt 255); Some (VInt 51)])
  /\ (exists floats s',
        ReadArray example_externals VTK_ASCII (bytes_of "float") 3 1
                  (skip_bytes 6 (open_string color_example_input))
        = Ret (Some floats, s')
        /\ exists fs, Values floats = map (fun f => Some (VFloat f)) fs
                      /\ forallb unit_float fs = true
                      /\ map quantized fs = [128; 255; 51])
  /\ (exists scalars r',
        ReadCoScalarData example_externals empty_attributes 2
          (example_reader color_binary_example_input VTK_BINARY)
        = Ret ((1, SetScalars empty_attributes scalars), r')
        /\ Class scalars = vtkUnsignedCharArray
        /\ NumberOfComponents scalars = 3
        /\ Values scalars
           = map (fun b => Some (VInt b)) [255; 0; 0; 0; 128; 255]).
Proof.
  split; [|split].
  - do 2 eexists. split; [vm_compute; reflexivity|]. repeat split.
  - do 2 eexists. split; [vm_compute; reflexivity|].
    exists [S754_finite false 8388608 (-24); S754_finite false 8388608 (-23);
            S754_finite false 13421773 (-26)].
    split; [reflexivity|].
    split; vm_compute; reflexivity.
  - do 2 eexists. split; [vm_compute; reflexivity|]. repeat split.
Qed.

(* ================================================================== *)
(** * Part III: further properties of the reader *)
(* ================================================================== *)

(** ** The primitive reads *)

(** What [span_n] returns: a prefix whose elements all satisfy [p], of at
    most [n] elements, that stops at the bound, at the end of the list, or
    before an element that does not satisfy [p]. *)
Lemma span_n_spec (p : Z -> bool) :
  forall n l x y,
    span_n n p l = (x, y) ->
    l = x ++ y /\ forallb p x = true /\ (length x <= n)%nat
    /\ (length x = n \/ y = [] \/ exists c t, y = c :: t /\ p c = false).
Proof.
  induction n as [|n IH]; intros l x y; cbn [span_n].
  - intros [= <- <-]. cbn. repeat split; auto.
  - destruct l as [|c t].
    + intros [= <- <-]. cbn. repeat split; auto with arith.
    + destruct (p c) eqn:Epc.
      * destruct (span_n n p t) as [a b] eqn:E. intros [= <- <-].
        destruct (IH _ _ _ E) as (-> & Hall & Hlen & Hstop).
        cbn [app forallb length]. rewrite Epc, Hall.
        repeat split; [lia|]. destruct Hstop as [H|[H|H]]; auto.
      * intros [= <- <-]. cbn. repeat split; [lia|].
        right. right. exists c, t. auto.
Qed.

Lemma span_n_cons (p : Z -> bool) (n : nat) (c : Z) (t : list Z) :
  span_n (S n) p (c :: t)
  = if p c then let (a, b) := span_n n p t in (c :: a, b) else ([], c :: t).
Proof. reflexivity. Qed.

Lemma span_n_app (p : Z -> bool) :
  forall n a c t,
    forallb p a = true -> (length a <= n)%nat -> p c = false ->
    span_n n p (a ++ c :: t) = (a, c :: t).
Proof.
  induction n as [|n IH]; intros a c t Ha Hn Hc.
  - destruct a; [|cbn in Hn; lia]. reflexivity.
  - destruct a as [|x a]; cbn [span_n app].
    + rewrite Hc. reflexivity.
    + cbn in Ha, Hn. apply andb_prop in Ha as [Hx Ha]. rewrite Hx.
      rewrite IH by (auto; lia). reflexivity.
Qed.

Lemma span_n_all (p : Z -> bool) :
  forall n a,
    forallb p a = true -> (length a <= n)%nat -> span_n n p a = (a, []).
Proof.
  induction n as [|n IH]; intros a Ha Hn.
  - destruct a; [|cbn in Hn; lia]. reflexivity.
  - destruct a as [|x a]; cbn [span_n]; [reflexivity|].
    cbn in Ha, Hn. apply andb_prop in Ha as [Hx Ha]. rewrite Hx.
    rewrite IH by (auto; lia). reflexivity.
Qed.

Lemma span_n_bound (p : Z -> bool) :
  forall n l,
    forallb p (firstn n l) = true -> (n <= length l)%nat ->
    span_n n p l = (firstn n l, skipn n l).
Proof.
  induction n as [|n IH]; intros l Ha Hn; [destruct l; reflexivity|].
  destruct l as [|x l]; [cbn in Hn; lia|].
  cbn [span_n firstn skipn]. cbn in Ha, Hn.
  apply andb_prop in Ha as [Hx Ha]. rewrite Hx.
  rewrite IH by (auto; lia). reflexivity.
Qed.

Lemma not_delim_forallb (d : Z) (l : list Z) :
  ~ In d l -> forallb (fun c => negb (c =? d)) l = true.
Proof.
  intros H. apply forallb_forall. intros c Hc.
  destruct (Z.eqb_spec c d) as [->|]; [contradiction | reflexivity].
Qed.

Lemma skip_bytes_good (n : nat) (s : istream) :
  good s = true -> advance n s = skip_bytes n s.
Proof.
  intros Hg. destruct (good_flags s Hg) as [He Hf].
  unfold advance, skip_bytes. rewrite He, Hf. reflexivity.
Qed.

(** The closed form of [Peek]. *)
Lemma Peek_eq (n : nat) (s : istream) :
  Peek n s
  = Ret (if good s then firstn n (rest s) else [],
         if (n =? 0)%nat then s else mkIS (buf s) (gpos s) false false).
Proof.
  unfold Peek, lift. destruct n as [|n].
  - cbn [Nat.eqb firstn]. destruct (good s); reflexivity.
  - cbn [Nat.eqb]. unfold read. destruct (good s) eqn:Hg.
    + destruct (good_flags s Hg) as [He Hf].
      set (got := firstn (S n) (rest s)).
      unfold setstate, advance, fail, clear, seekg_back.
      cbn [buf gpos eofbit failbit]. rewrite He, Hf. cbn [orb].
      destruct (length got <? S n)%nat; cbn [failbit gpos buf].
      * replace (length got <=? gpos s + length got)%nat with true
          by (symmetry; apply Nat.leb_le; lia).
        do 3 f_equal. lia.
      * replace (length got <=? gpos s + length got)%nat with true
          by (symmetry; apply Nat.leb_le; lia).
        do 3 f_equal. lia.
    + unfold setstate, fail, clear, seekg_back.
      cbn [buf gpos eofbit failbit length]. rewrite orb_true_r.
      cbn [failbit gpos buf Nat.leb]. do 3 f_equal. lia.
Qed.

(** X1.  Peek hands out the next characters, at most [n] and none from a
    stream that is not good, without consuming anything: the input left
    is the same afterwards.  It also leaves the stream with no error flag,
    so that a stream that had failed or reached the end of the input can
    be read again. *)
Theorem Peek_restores (n : nat) (s : istream) :
  exists got s',
    Peek n s = Ret (got, s')
    /\ buf s' = buf s /\ gpos s' = gpos s
    /\ got = (if good s then firstn n (rest s) else [])
    /\ ((0 < n)%nat -> good s' = true).
Proof.
  do 2 eexists. split; [apply Peek_eq|].
  destruct n as [|n]; cbn [Nat.eqb buf gpos].
  - repeat split. lia.
  - repeat split.
Qed.


Lemma getline_line (s : istream) (l tl : list Z) :
  good s = true -> rest s = l ++ 10 :: tl -> ~ In 10 l ->
  (length l <= 255)%nat ->
  getline 256 10 s = (l, S (length l), skip_bytes (S (length l)) s).
Proof.
  intros Hg Hr Hl Hlen. unfold getline. rewrite Hg, Hr.
  cbn [Nat.sub]. rewrite span_n_app
    by (auto using not_delim_forallb; reflexivity).
  cbn [Z.eqb Pos.eqb]. rewrite skip_bytes_good by exact Hg. reflexivity.
Qed.

Lemma getline_long (s : istream) (l tl : list Z) :
  good s = true -> rest s = l ++ tl -> ~ In 10 l ->
  (255 < length l)%nat ->
  getline 256 10 s
  = (firstn 255 l, 255%nat, setstate false true (advance 255 s)).
Proof.
  intros Hg Hr Hl Hlen. unfold getline. rewrite Hg, Hr.
  cbn [Nat.sub].
  assert (Hf : firstn 255 (l ++ tl) = firstn 255 l).
  { rewrite firstn_app. replace (255 - length l)%nat with 0%nat by lia.
    rewrite firstn_O. apply app_nil_r. }
  assert (Hall : forallb (fun c => negb (c =? 10)) (firstn 255 l) = true).
  { apply not_delim_forallb. intros Hin. apply Hl.
    rewrite <- (firstn_skipn 255 l). apply in_or_app. left. exact Hin. }
  rewrite span_n_bound by (rewrite ?Hf, ?length_app; auto; lia).
  rewrite Hf, length_firstn, Nat.min_l by lia.
  rewrite skipn_app. replace (255 - length l)%nat with 0%nat by lia.
  rewrite skipn_O.
  destruct (skipn 255 l) as [|c t] eqn:Es.
  { apply (f_equal (@length Z)) in Es. rewrite length_skipn in Es.
    cbn in Es. lia. }
  cbn [app].
  assert (Hc : c <> 10).
  { intros ->. apply Hl. rewrite <- (firstn_skipn 255 l), Es.
    apply in_or_app. right. left. reflexivity. }
  destruct (Z.eqb_spec c 10); [contradiction | reflexivity].
Qed.

Lemma span_length (p : Z -> bool) (a : list Z) (c : Z) (t : list Z) :
  forallb p a = true -> p c = false -> span p (a ++ c :: t) = (a, c :: t).
Proof.
  intros Ha Hc. unfold span. apply span_n_app; auto.
  rewrite length_app. lia.
Qed.

Lemma ignore_line (s : istream) (l tl : list Z) :
  good s = true -> rest s = l ++ 10 :: tl -> ~ In 10 l ->
  Z.of_nat (length l) < VTK_INT_MAX ->
  ignore VTK_INT_MAX 10 s = skip_bytes (S (length l)) s.
Proof.
  intros Hg Hr Hl Hlen. unfold ignore. rewrite Hg, Hr.
  rewrite span_length by (auto using not_delim_forallb).
  destruct (Z.ltb_spec (Z.of_nat (length l)) VTK_INT_MAX); [|lia].
  apply skip_bytes_good, Hg.
Qed.

(** X2.  ReadLine on a stream that holds a line: the line is returned
    without its newline and without a final carriage return, cut at 255
    characters (and at a NUL, as a C string), and the whole line is
    consumed with its newline, also the part beyond 255 characters, which
    is dropped. *)
Theorem ReadLine_reads_line (s : istream) (l tl : list Z) :
  good s = true -> rest s = l ++ 10 :: tl -> ~ In 10 l ->
  Z.of_nat (length l) < VTK_INT_MAX ->
  ReadLine s
  = Ret ((true, strip_cr (cstr (firstn 255 l))), skip_bytes (S (length l)) s).
Proof.
  intros Hg Hr Hl Hlen. unfold ReadLine, lift.
  destruct (Nat.leb_spec (length l) 255) as [Hshort|Hlong].
  - rewrite (getline_line s l tl Hg Hr Hl Hshort).
    cbn [fail skip_bytes failbit]. rewrite firstn_all2 by lia. reflexivity.
  - rewrite (getline_long s l (10 :: tl) Hg Hr Hl Hlong).
    destruct (good_flags s Hg) as [He Hf].
    unfold fail, eof, setstate, advance, clear.
    cbn [failbit eofbit buf gpos]. rewrite He, Hf. cbn [orb Nat.eqb].
    change (mkIS (buf s) (gpos s + 255) false false) with (skip_bytes 255 s).
    rewrite (ignore_line (skip_bytes 255 s) (skipn 255 l) tl).
    + rewrite skip_bytes_skip_bytes. do 3 f_equal.
      rewrite length_skipn. lia.
    + reflexivity.
    + rewrite rest_skip_bytes, Hr, skipn_app.
      replace (255 - length l)%nat with 0%nat by lia. reflexivity.
    + intros Hin. apply Hl. rewrite <- (firstn_skipn 255 l).
      apply in_or_app. right. exact Hin.
    + rewrite length_skipn. lia.
Qed.

Lemma ReadLine_reads_line_witness :
  ReadLine (open_string (bytes_of "POINTS 3 float" ++ [13; 10; 48]))
  = Ret ((true, bytes_of "POINTS 3 float"),
         skip_bytes 16 (open_string (bytes_of "POINTS 3 float" ++ [13; 10; 48]))).
Proof.
  apply (ReadLine_reads_line
           (open_string (bytes_of "POINTS 3 float" ++ [13; 10; 48]))
           (bytes_of "POINTS 3 float" ++ [13]) [48]).
  - reflexivity.
  - reflexivity.
  - cbv. intuition discriminate.
  - reflexivity.
Defined.

Lemma ignore_gpos (n d : Z) (s : istream) : (gpos s <= gpos (ignore n d s))%nat.
Proof.
  unfold ignore. destruct (good s); [|cbn; lia].
  destruct (span _ (rest s)) as [taken remaining].
  destruct (Z.of_nat (length taken) <? n); [|cbn; lia].
  destruct remaining; cbn; lia.
Qed.

(** X3.  On a good stream ReadLine fails exactly at the end of the input,
    where it returns 0 with an empty line, consumes nothing and leaves the
    stream failed; anywhere else it returns 1 and consumes input, also on a
    last line that no newline ends. *)
Theorem ReadLine_end_of_input (s : istream) :
  good s = true ->
  (rest s = [] -> ReadLine s = Ret ((false, []), setstate true true s))
  /\ (rest s <> [] ->
      exists line s', ReadLine s = Ret ((true, line), s')
                      /\ (gpos s < gpos s')%nat).
Proof.
  intros Hg. destruct (good_flags s Hg) as [He Hf]. split.
  - intros Hr. unfold ReadLine, lift, getline. rewrite Hg, Hr.
    cbn [span_n Nat.sub length Nat.eqb].
    unfold fail, eof, setstate, advance. cbn [failbit eofbit buf gpos].
    rewrite He, Hf. cbn [orb]. do 3 f_equal. lia.
  - intros Hr. unfold ReadLine, lift, getline. rewrite Hg.
    cbn [Nat.sub].
    destruct (span_n 255 (fun c => negb (c =? 10)) (rest s))
      as [taken remaining] eqn:Esp.
    destruct (span_n_spec _ _ _ _ _ Esp) as (Hl & Hall & Hlen & Hstop).
    destruct remaining as [|c t].
    + assert (Hk : (length taken =? 0)%nat = false).
      { apply Nat.eqb_neq. intros H0. apply Hr. rewrite Hl, app_nil_r.
        destruct taken; [reflexivity | discriminate]. }
      unfold fail, setstate, advance. cbn [failbit eofbit buf gpos].
      rewrite Hf, Hk. cbn [orb]. do 2 eexists. split; [reflexivity|].
      cbn [gpos]. apply Nat.eqb_neq in Hk. lia.
    + destruct (Z.eqb_spec c 10) as [->|Hc].
      * unfold fail, advance. cbn [failbit]. rewrite Hf.
        do 2 eexists. split; [reflexivity|]. cbn [gpos]. lia.
      * assert (H255 : length taken = 255%nat).
        { destruct Hstop as [H|[H|(c' & t' & [= <- <-] & Hp)]];
            [exact H | discriminate |].
          destruct (Z.eqb_spec c 10); [contradiction | discriminate]. }
        unfold fail, eof, setstate, advance. cbn [failbit eofbit buf gpos].
        rewrite He, Hf, H255. cbn [orb Nat.eqb].
        do 2 eexists. split; [reflexivity|].
        eapply Nat.lt_le_trans; [|apply ignore_gpos]. cbn [clear gpos]. lia.
Qed.

Lemma ReadLine_end_of_input_witness :
  (rest (open_string [65; 66]) = [] ->
   ReadLine (open_string [65; 66])
   = Ret ((false, []), setstate true true (open_string [65; 66])))
  /\ (rest (open_string [65; 66]) <> [] ->
      exists line s', ReadLine (open_string [65; 66]) = Ret ((true, line), s')
                      /\ lt (gpos (open_string [65; 66])) (gpos s')).
Proof. apply (ReadLine_end_of_input (open_string [65; 66])). reflexivity. Defined.

Lemma sentry_skips (s : istream) (ws : list Z) (c : Z) (tl : list Z) :
  good s = true -> rest s = ws ++ c :: tl ->
  forallb isspace ws = true -> isspace c = false ->
  sentry s = (true, skip_bytes (length ws) s).
Proof.
  intros Hg Hr Hws Hc. unfold sentry. rewrite Hg, Hr.
  rewrite span_length by assumption.
  rewrite skip_bytes_good by exact Hg. reflexivity.
Qed.

Lemma sentry_blank (s : istream) :
  good s = true -> forallb isspace (rest s) = true ->
  sentry s = (false, setstate true true (advance (length (rest s)) s)).
Proof.
  intros Hg Hws. unfold sentry. rewrite Hg. unfold span.
  rewrite span_n_all by (auto; lia). reflexivity.
Qed.

(** X4.  ReadString on a stream that holds white space, then a token, then
    a white-space character: the white space is skipped and the token is
    returned, cut at 255 characters (and at a NUL); what is beyond 255
    characters stays in the stream, where the next read finds it as a
    token of its own. *)
Theorem ReadString_token (s : istream) (ws tok : list Z) (c : Z)
  (tl : list Z) :
  good s = true -> rest s = ws ++ tok ++ c :: tl ->
  forallb isspace ws = true ->
  forallb (fun x => negb (isspace x)) tok = true -> tok <> [] ->
  isspace c = true ->
  ReadString s
  = Ret (Some (cstr (firstn 255 tok)),
         skip_bytes (length ws + Nat.min 255 (length tok)) s).
Proof.
  intros Hg Hr Hws Htok Hne Hc. unfold ReadString, lift, extract_word.
  destruct tok as [|x tok']; [contradiction|].
  assert (Hx : isspace x = false).
  { cbn in Htok. apply andb_prop in Htok as [Hx _].
    apply negb_true_iff in Hx. exact Hx. }
  set (tok := x :: tok') in *.
  rewrite (sentry_skips s ws x (tok' ++ c :: tl) Hg Hr Hws Hx).
  assert (Hrest : rest (skip_bytes (length ws) s) = tok ++ c :: tl)
    by (apply rest_skip_bytes_app; exact Hr).
  rewrite Hrest.
  destruct (Nat.leb_spec (length tok) 255) as [Hshort|Hlong].
  - rewrite span_n_app by (auto; rewrite Hc; reflexivity).
    rewrite firstn_all2, Nat.min_r by lia.
    unfold fail, setstate, advance. cbn [failbit eofbit buf gpos skip_bytes].
    cbn [length Nat.eqb orb tok]. do 3 f_equal. unfold skip_bytes.
    cbn [length]. f_equal. lia.
  - assert (Hf : firstn 255 (tok ++ c :: tl) = firstn 255 tok).
    { rewrite firstn_app. replace (255 - length tok)%nat with 0%nat by lia.
      rewrite firstn_O. apply app_nil_r. }
    assert (Hall : forallb (fun x => negb (isspace x)) (firstn 255 tok) = true).
    { apply forallb_forall. intros y Hy.
      rewrite forallb_forall in Htok. apply Htok.
      rewrite <- (firstn_skipn 255 tok). apply in_or_app. left. exact Hy. }
    rewrite span_n_bound by (rewrite ?Hf, ?length_app; auto; lia).
    rewrite Hf, Nat.min_l by lia.
    rewrite skipn_app. replace (255 - length tok)%nat with 0%nat by lia.
    rewrite skipn_O.
    assert (Hlen : length (firstn 255 tok) = 255%nat)
      by (rewrite length_firstn; lia).
    destruct (skipn 255 tok ++ c :: tl) as [|y rem] eqn:Erem.
    { destruct (skipn 255 tok); discriminate. }
    unfold fail, setstate, advance. cbn [failbit eofbit buf gpos skip_bytes].
    rewrite Hlen. cbn [Nat.eqb orb]. do 3 f_equal. unfold skip_bytes.
    f_equal. lia.
Qed.

Lemma ReadString_token_witness :
  ReadString (open_string (bytes_of "  SCALARS temp float"))
  = Ret (Some (bytes_of "SCALARS"),
         skip_bytes 9 (open_string (bytes_of "  SCALARS temp float"))).
Proof.
  apply (ReadString_token (open_string (bytes_of "  SCALARS temp float"))
           (bytes_of "  ") (bytes_of "SCALARS") 32 (bytes_of "temp float"));
    try reflexivity.
  discriminate.
Defined.

(** X5.  On a good stream ReadString fails exactly when nothing but white
    space is left (the end of the input included); it then returns 0 and
    leaves the stream failed at its end. *)
Theorem ReadString_fails_iff_blank (s : istream) :
  good s = true ->
  forall tok s', ReadString s = Ret (tok, s') ->
    (tok = None <-> forallb isspace (rest s) = true)
    /\ (tok = None -> fail s' = true /\ eof s' = true).
Proof.
  intros Hg tok s'. unfold ReadString, lift, extract_word, sentry.
  rewrite Hg. unfold span at 1.
  destruct (span_n (length (rest s)) isspace (rest s)) as [ws remaining] eqn:Esp.
  destruct (span_n_spec _ _ _ _ _ Esp) as (Hl & Hall & Hlen & Hstop).
  destruct remaining as [|c t].
  - unfold fail, setstate, advance. cbn [failbit eofbit]. rewrite orb_true_r.
    intros [= <- <-]. rewrite app_nil_r in Hl. rewrite Hl.
    cbn [fail eof failbit eofbit]. rewrite !orb_true_r. tauto.
  - assert (Hc : isspace c = false).
    { destruct Hstop as [H|[H|(c' & t' & [= <- <-] & Hp)]];
        [|discriminate|exact Hp].
      apply (f_equal (@length Z)) in Hl. rewrite length_app in Hl.
      cbn in Hl. lia. }
    destruct (good_flags s Hg) as [He Hf].
    assert (Hrest : rest (advance (length ws) s) = c :: t).
    { rewrite skip_bytes_good by exact Hg.
      apply rest_skip_bytes_app. exact Hl. }
    rewrite Hrest. change 255%nat with (S 254).
    rewrite span_n_cons, Hc. cbn [negb].
    destruct (span_n 254 (fun c0 => negb (isspace c0)) t) as [a b].
    unfold fail, setstate, advance. cbn [failbit eofbit buf gpos length].
    rewrite Hf. cbn [Nat.eqb orb]. intros [= <- <-].
    split; [|discriminate]. split; [discriminate|].
    intros Hblank. rewrite Hl, forallb_app in Hblank.
    apply andb_prop in Hblank as [_ Hb]. cbn in Hb. rewrite Hc in Hb.
    discriminate.
Qed.

Lemma ReadString_fails_iff_blank_witness :
  (@None (list Z) = None
   <-> forallb isspace (rest (open_string [32; 10; 9])) = true)
  /\ (@None (list Z) = None ->
      fail (setstate true true (advance 3 (open_string [32; 10; 9]))) = true
      /\ eof (setstate true true (advance 3 (open_string [32; 10; 9]))) = true).
Proof.
  apply (ReadString_fails_iff_blank (open_string [32; 10; 9]) eq_refl None
           (setstate true true (advance 3 (open_string [32; 10; 9])))).
  reflexivity.
Defined.

Lemma isdigit_not_space (x : Z) : isdigit x = true -> isspace x = false.
Proof.
  unfold isdigit, isspace. intros H. apply andb_prop in H as [H1 H2].
  apply Z.leb_le in H1, H2.
  destruct (Z.eqb_spec x 32); [lia|]. cbn [orb].
  destruct (Z.leb_spec 9 x); destruct (Z.leb_spec x 13); cbn; lia || reflexivity.
Qed.

Lemma sign_of_digit {A} (x : Z) (t : list Z) (a b : list Z -> A) (d : A) :
  isdigit x = true ->
  match x :: t with
  | 45 :: t0 => a t0
  | 43 :: t0 => b t0
  | _ => d
  end = d.
Proof.
  intros H. destruct x as [|p|p]; try reflexivity.
  do 6 (try destruct p as [p|p|]); try reflexivity; discriminate H.
Qed.

(** The extraction of an unsigned decimal numeral into an integer of
    [bits] bits: the value, or the largest value of the type with the
    failure flag when the numeral is beyond it. *)
Lemma extract_int_numeral (signed : bool) (bits : Z) (s : istream)
  (ws ds : list Z) (c : Z) (tl : list Z) :
  good s = true -> rest s = ws ++ ds ++ c :: tl ->
  forallb isspace ws = true -> forallb isdigit ds = true -> ds <> [] ->
  isdigit c = false ->
  let top := if signed then 2 ^ (bits - 1) - 1 else 2 ^ bits - 1 in
  extract_int signed bits s
  = (Some (Z.min (digits_value ds) top),
     setstate false (negb (digits_value ds <=? top))
              (skip_bytes (length ws + length ds) s)).
Proof.
  intros Hg Hr Hws Hds Hne Hc top. unfold extract_int.
  destruct ds as [|x ds']; [contradiction|].
  assert (Hx : isdigit x = true) by (cbn in Hds; apply andb_prop in Hds; tauto).
  rewrite (sentry_skips s ws x (ds' ++ c :: tl) Hg Hr Hws
             (isdigit_not_space x Hx)).
  assert (Hrest : rest (skip_bytes (length ws) s) = (x :: ds') ++ c :: tl)
    by (apply rest_skip_bytes_app; exact Hr).
  rewrite Hrest. unfold num_get_int. cbn [app].
  rewrite (sign_of_digit x (ds' ++ c :: tl)) by exact Hx.
  change (x :: ds' ++ c :: tl) with ((x :: ds') ++ c :: tl).
  rewrite span_length by assumption.
  set (ds := x :: ds') in *. cbn [Nat.add].
  assert (Hk : (length ds =? length (ds ++ c :: tl))%nat = false).
  { apply Nat.eqb_neq. rewrite length_app. cbn. lia. }
  assert (Hpos : skip_bytes (length ws + length ds) s
                 = advance (length ds) (skip_bytes (length ws) s)).
  { unfold advance, skip_bytes. cbn [buf gpos eofbit failbit]. f_equal. lia. }
  unfold ds at 1. fold ds. subst top.
  destruct signed.
  - destruct (Z.leb_spec (digits_value ds) (2 ^ (bits - 1) - 1)).
    + rewrite Hk, Z.min_l, Hpos by lia. reflexivity.
    + rewrite Hk, Z.min_r, Hpos by lia. reflexivity.
  - destruct (Z.leb_spec (digits_value ds) (2 ^ bits - 1)).
    + rewrite Hk, Z.min_l, Hpos by lia. reflexivity.
    + rewrite Hk, Z.min_r, Hpos by lia. reflexivity.
Qed.

(** X6.  Read for an integer type, on white space followed by an unsigned
    decimal numeral: a numeral within the range of the type is returned
    with the value 1; one beyond it makes Read return 0 (the variable
    holds the largest value of the type, and the stream has failed): the
    value is never wrapped around.  The digits are consumed either way. *)
Theorem Read_numeral (t : ctype) (s : istream) (ws ds : list Z) (c : Z)
  (tl : list Z) :
  good s = true -> rest s = ws ++ ds ++ c :: tl ->
  forallb isspace ws = true -> forallb isdigit ds = true -> ds <> [] ->
  isdigit c = false ->
  Read t s
  = Ret ((digits_value ds <=? ctype_max t,
          Some (Z.min (digits_value ds) (ctype_max t))),
         setstate false (negb (digits_value ds <=? ctype_max t))
                  (skip_bytes (length ws + length ds) s)).
Proof.
  intros Hg Hr Hws Hds Hne Hc. unfold Read, lift.
  rewrite (extract_int_numeral _ _ s ws ds c tl Hg Hr Hws Hds Hne Hc).
  unfold ctype_max. cbv zeta.
  destruct (ctype_signed t); unfold fail, setstate;
    cbn [failbit skip_bytes orb]; rewrite negb_involutive; reflexivity.
Qed.

Lemma Read_numeral_witness :
  Read c_short (open_string (bytes_of " 40000 1"))
  = Ret ((false, Some 32767),
         setstate false true
                  (skip_bytes 6 (open_string (bytes_of " 40000 1")))).
Proof.
  apply (Read_numeral c_short (open_string (bytes_of " 40000 1"))
           (bytes_of " ") (bytes_of "40000") 32 (bytes_of "1"));
    try reflexivity.
  discriminate.
Defined.

(** X7.  Read for [char] and [unsigned char] extracts an [int] and narrows
    it: a numeral within the range of [int] is accepted whatever its
    value, and the variable receives it modulo 256 (300 is read as 44 into
    an [unsigned char]); only a numeral beyond the range of [int] makes
    the call return 0, and then the variable is not written. *)
Theorem Read_char_narrows (narrow : Z -> Z) (s : istream) (ws ds : list Z)
  (c : Z) (tl : list Z) :
  good s = true -> rest s = ws ++ ds ++ c :: tl ->
  forallb isspace ws = true -> forallb isdigit ds = true -> ds <> [] ->
  isdigit c = false ->
  Read_char narrow s
  = Ret ((digits_value ds <=? 2 ^ 31 - 1,
          if digits_value ds <=? 2 ^ 31 - 1
          then Some (narrow (digits_value ds)) else None),
         setstate false (negb (digits_value ds <=? 2 ^ 31 - 1))
                  (skip_bytes (length ws + length ds) s)).
Proof.
  intros Hg Hr Hws Hds Hne Hc. unfold Read_char, lift.
  rewrite (extract_int_numeral true 32 s ws ds c tl Hg Hr Hws Hds Hne Hc).
  cbv zeta. change (2 ^ (32 - 1) - 1) with (2 ^ 31 - 1).
  unfold fail, setstate. cbn [failbit skip_bytes orb].
  destruct (Z.leb_spec (digits_value ds) (2 ^ 31 - 1)); cbn [negb option_map].
  - rewrite Z.min_l by lia. reflexivity.
  - reflexivity.
Qed.

Lemma Read_char_narrows_witness :
  Read_char to_uchar (open_string (bytes_of "300 "))
  = Ret ((true, Some 44), skip_bytes 3 (open_string (bytes_of "300 "))).
Proof.
  apply (Read_char_narrows to_uchar (open_string (bytes_of "300 "))
           [] (bytes_of "300") 32 []);
    try reflexivity.
  discriminate.
Defined.

(** ** LowerCase *)

Lemma tolower_idempotent (c : Z) : tolower (tolower c) = tolower c.
Proof.
  unfold tolower.
  destruct ((65 <=? c) && (c <=? 90)) eqn:E; [|rewrite E; reflexivity].
  apply andb_prop in E as [E1 E2]. apply Z.leb_le in E1, E2.
  destruct (Z.leb_spec 65 (c + 32)); destruct (Z.leb_spec (c + 32) 90);
    cbn [andb]; lia || reflexivity.
Qed.

(** X8.  LowerCase keeps the length of the string and what is beyond the
    first [len] characters, leaves no capital letter among the first
    [len], changes nothing but capital letters, and applying it twice is
    applying it once. *)
Theorem LowerCase_properties (str : list Z) (len : nat) :
  length (LowerCase str len) = length str
  /\ skipn len (LowerCase str len) = skipn len str
  /\ (forall i c, nth_error (LowerCase str len) i = Some c ->
        (i < len)%nat -> ~ (65 <= c <= 90))
  /\ (forall i c, nth_error str i = Some c -> ~ (65 <= c <= 90) ->
        nth_error (LowerCase str len) i = Some c)
  /\ LowerCase (LowerCase str len) len = LowerCase str len.
Proof.
  unfold LowerCase.
  assert (Hlen : length (map tolower (firstn len str)) = Nat.min len (length str))
    by (rewrite length_map, length_firstn; reflexivity).
  split; [|split; [|split; [|split]]].
  - rewrite length_app, Hlen, length_skipn. lia.
  - rewrite skipn_app, Hlen.
    destruct (Nat.leb_spec len (length str)) as [H|H].
    + rewrite Nat.min_l, Nat.sub_diag by lia.
      rewrite skipn_all2 by (rewrite length_map, length_firstn; lia).
      reflexivity.
    + rewrite !skipn_all2; rewrite ?length_map, ?length_firstn,
        ?length_skipn; try lia.
      reflexivity.
  - intros i c Hn Hi.
    destruct (Nat.ltb_spec i (length (map tolower (firstn len str)))) as [H|H].
    + rewrite nth_error_app1 in Hn by exact H.
      rewrite nth_error_map in Hn.
      destruct (nth_error (firstn len str) i) as [x|]; [|discriminate].
      cbn in Hn. injection Hn as <-. unfold tolower.
      destruct (Z.leb_spec 65 x); destruct (Z.leb_spec x 90); cbn [andb]; lia.
    + rewrite nth_error_app2 in Hn by exact H.
      apply nth_error_In in Hn. rewrite Hlen in H.
      destruct (Nat.leb_spec len (length str)).
      * rewrite Nat.min_l in H by lia. lia.
      * rewrite skipn_all2 in Hn by lia. destruct Hn.
  - intros i c Hn Hc.
    rewrite <- (firstn_skipn len str) in Hn.
    destruct (Nat.ltb_spec i (length (firstn len str))) as [H|H].
    + rewrite nth_error_app1 in Hn by exact H.
      rewrite nth_error_app1 by (rewrite length_map; exact H).
      rewrite nth_error_map, Hn. cbn. f_equal. unfold tolower.
      destruct (Z.leb_spec 65 c); destruct (Z.leb_spec c 90); cbn [andb];
        lia || reflexivity.
    + rewrite nth_error_app2 in Hn by exact H.
      rewrite nth_error_app2 by (rewrite length_map; exact H).
      rewrite length_map. exact Hn.
  - assert (F1 : firstn len (map tolower (firstn len str) ++ skipn len str)
                 = map tolower (firstn len str)).
    { rewrite firstn_app, Hlen.
      rewrite (firstn_all2 (map tolower (firstn len str)))
        by (rewrite Hlen; lia).
      destruct (Nat.leb_spec len (length str)) as [H|H].
      - rewrite Nat.min_l, Nat.sub_diag, firstn_O by lia. apply app_nil_r.
      - rewrite (skipn_all2 str) by lia. rewrite firstn_nil.
        apply app_nil_r. }
    assert (F2 : skipn len (map tolower (firstn len str) ++ skipn len str)
                 = skipn len str).
    { rewrite skipn_app, Hlen.
      destruct (Nat.leb_spec len (length str)) as [H|H].
      - rewrite Nat.min_l, Nat.sub_diag by lia.
        rewrite skipn_all2 by (rewrite Hlen; lia). reflexivity.
      - rewrite !skipn_all2; rewrite ?Hlen, ?length_skipn; try lia.
        reflexivity. }
    rewrite F1, F2, map_map.
    rewrite (map_ext _ tolower tolower_idempotent). reflexivity.
Qed.

(** ** vtkReadBinaryData and vtkReadASCIIData *)

Lemma chunks_length (sz : nat) :
  forall n l, length (chunks sz n l) = n.
Proof.
  induction n as [|n IH]; intros l; cbn [chunks length]; [reflexivity|].
  rewrite IH. reflexivity.
Qed.

Lemma chunks_full (sz : nat) :
  forall n l,
    length l = (sz * n)%nat ->
    exists elems,
      chunks sz n l = map Some elems
      /\ concat elems = l
      /\ Forall (fun e => length e = sz) elems
      /\ length elems = n.
Proof.
  induction n as [|n IH]; intros l Hl.
  - exists []. destruct l; [|cbn in Hl; lia]. repeat split. constructor.
  - destruct (IH (skipn sz l)) as (elems & E & Hc & Hf & Hn).
    { rewrite length_skipn. lia. }
    exists (firstn sz l :: elems). cbn [chunks map concat length].
    destruct (Nat.leb_spec sz (length l)) as [_|H]; [|lia].
    rewrite E, Hc, firstn_skipn. repeat split.
    + constructor; [rewrite length_firstn; lia | exact Hf].
    + f_equal. exact Hn.
Qed.

Lemma read_short (s : istream) (n : nat) :
  good s = true -> (length (rest s) < n)%nat ->
  read n s = (rest s, setstate true true (advance (length (rest s)) s)).
Proof.
  intros Hg Hn. unfold read. rewrite Hg, firstn_all2 by lia.
  replace (length (rest s) <? n)%nat with true
    by (symmetry; apply Nat.ltb_lt; exact Hn).
  reflexivity.
Qed.

(** X9.  vtkReadBinaryData for [n = numTuples * numComp] elements of [sz]
    bytes (both counts positive), on a good stream: the rest of the
    current line is dropped; when the [sz * n] bytes are there, they are
    consumed, exactly they, every element receives its [sz] bytes in
    order and the value returned is 1; when fewer are left, the value
    returned is 0, the input is exhausted, and there are still [n]
    elements, those beyond the bytes read never filled. *)
Theorem vtkReadBinaryData_payload (sz : nat) (numTuples numComp : Z)
  (s : istream) (line payload : list Z) :
  let n := Z.to_nat (numTuples * numComp) in
  good s = true -> 0 < numTuples -> 0 < numComp ->
  rest s = line ++ 10 :: payload -> ~ In 10 line -> (length line <= 255)%nat ->
  ((sz * n <= length payload)%nat ->
   exists elems,
     vtkReadBinaryData sz numTuples numComp s
     = Ret ((true, map Some elems),
            skip_bytes (S (length line) + sz * n) s)
     /\ concat elems = firstn (sz * n) payload
     /\ Forall (fun e => length e = sz) elems
     /\ length elems = n)
  /\ ((length payload < sz * n)%nat ->
      exists elems s',
        vtkReadBinaryData sz numTuples numComp s = Ret ((false, elems), s')
        /\ length elems = n
        /\ rest s' = [] /\ eof s' = true /\ fail s' = true
        /\ ((0 < sz)%nat -> forall i, (length payload / sz <= i)%nat -> (i < n)%nat ->
              nth_error elems i = Some None)).
Proof.
  intros n Hg HN HK Hr Hl Hlen.
  unfold vtkReadBinaryData.
  destruct (Z.eqb_spec numTuples 0) as [|_]; [lia|].
  destruct (Z.eqb_spec numComp 0) as [|_]; [lia|].
  cbn [orb].
  set (s1 := skip_bytes (S (length line)) s).
  assert (Hr1 : rest s1 = payload).
  { unfold s1. replace (S (length line)) with (length (line ++ [10]))
      by (rewrite length_app; cbn; lia).
    apply rest_skip_bytes_app. rewrite <- app_assoc. exact Hr. }
  rewrite (Z.mul_comm numComp numTuples). fold n.
  assert (Hstep : forall k : list Z -> ST istream (bool * list (option (list Z))),
            (_ <- lift (getline 256 10) ;; got <- lift (read (sz * n)) ;; k got) s
            = (let (got, s2) := read (sz * n) s1 in k got s2)).
  { intros k. unfold bind, lift.
    rewrite (getline_line s line payload Hg Hr Hl Hlen). reflexivity. }
  rewrite Hstep. clear Hstep.
  split.
  - intros Hall.
    rewrite <- (firstn_skipn (sz * n) payload) in Hr1.
    assert (Hfl : length (firstn (sz * n) payload) = (sz * n)%nat)
      by (rewrite length_firstn; lia).
    pose proof (read_good s1 _ _ eq_refl Hr1) as Hread.
    rewrite Hfl in Hread. rewrite Hread.
    destruct (chunks_full sz n _ Hfl) as (elems & E & Hc & Hf & Hn).
    exists elems. unfold bind, gets, ret.
    cbn [eof skip_bytes eofbit negb]. rewrite E.
    unfold s1. rewrite skip_bytes_skip_bytes.
    repeat split; assumption.
  - intros Hshort.
    rewrite (read_short s1 (sz * n)) by (rewrite ?Hr1; auto).
    rewrite Hr1. unfold bind, gets, ret.
    cbn [eof setstate advance eofbit orb negb].
    rewrite orb_true_r. cbn [negb].
    do 2 eexists. split; [reflexivity|].
    split; [apply chunks_length|].
    split.
    { unfold rest, setstate, advance. cbn [buf gpos].
      unfold rest in Hr1. rewrite Nat.add_comm, <- skipn_skipn, Hr1.
      apply skipn_all. }
    split; [apply orb_true_r|]. split; [apply orb_true_r|].
    intros Hsz i Hi Hin. clear - Hsz Hi Hin.
    revert payload i Hi Hin. generalize n. clear n.
    induction n as [|n IH]; intros payload i Hi Hin; [lia|].
    cbn [chunks]. destruct i as [|i].
    + cbn [nth_error].
      assert (length payload < sz)%nat.
      { destruct (Nat.ltb_spec (length payload) sz); [assumption|].
        assert (1 <= length payload / sz)%nat
          by (apply Nat.div_le_lower_bound; lia). lia. }
      destruct (Nat.leb_spec sz (length payload)); [lia | reflexivity].
    + cbn [nth_error]. apply IH; [|lia].
      rewrite length_skipn.
      destruct (Nat.leb_spec sz (length payload)) as [Hge|Hlt].
      * replace (length payload) with ((length payload - sz) + 1 * sz)%nat
          in Hi by lia.
        rewrite Nat.div_add in Hi by lia. lia.
      * replace (length payload - sz)%nat with 0%nat by lia.
        rewrite Nat.Div0.div_0_l. lia.
Qed.

Lemma vtkReadBinaryData_payload_witness :
  ((4 * Z.to_nat (2 * 1) <= length [0; 0; 0; 7; 0; 0])%nat ->
   exists elems,
     vtkReadBinaryData 4 2 1 short_payload_example
     = Ret ((true, map Some elems),
            skip_bytes (S (length (bytes_of "int")) + 4 * Z.to_nat (2 * 1))
                       short_payload_example)
     /\ concat elems = firstn (4 * Z.to_nat (2 * 1)) [0; 0; 0; 7; 0; 0]
     /\ Forall (fun e => length e = 4%nat) elems
     /\ length elems = Z.to_nat (2 * 1))
  /\ ((length [0; 0; 0; 7; 0; 0] < 4 * Z.to_nat (2 * 1))%nat ->
      exists elems s',
        vtkReadBinaryData 4 2 1 short_payload_example
        = Ret ((false, elems), s')
        /\ length elems = Z.to_nat (2 * 1)
        /\ rest s' = [] /\ eof s' = true /\ fail s' = true
        /\ ((0 < 4)%nat ->
            forall i, (length [0; 0; 0; 7; 0; 0] / 4 <= i)%nat ->
                      (i < Z.to_nat (2 * 1))%nat ->
                      nth_error elems i = Some None)).
Proof.
  apply (vtkReadBinaryData_payload 4 2 1 short_payload_example
           (bytes_of "int") [0; 0; 0; 7; 0; 0]).
  - reflexivity.
  - lia.
  - lia.
  - reflexivity.
  - cbv. intuition discriminate.
  - cbn. lia.
Defined.

Lemma digits_value_nonneg (ds : list Z) :
  forallb isdigit ds = true -> 0 <= digits_value ds.
Proof.
  unfold digits_value.
  assert (G : forall acc, 0 <= acc -> forallb isdigit ds = true ->
                0 <= fold_left (fun a d => 10 * a + (d - 48)) ds acc).
  { induction ds as [|d ds IH]; intros acc Hacc Hd; [exact Hacc|].
    cbn in Hd. apply andb_prop in Hd as [Hd Hds]. cbn [fold_left].
    apply IH; [|exact Hds]. unfold isdigit in Hd.
    apply andb_prop in Hd as [H1 H2]. apply Z.leb_le in H1, H2. lia. }
  apply G. lia.
Qed.

Lemma sentry_false (s s1 : istream) :
  sentry s = (false, s1) -> fail s1 = true.
Proof.
  unfold sentry. destruct (good s).
  - destruct (span isspace (rest s)) as [ws [|c t]]; [|discriminate].
    intros [= <-]. apply orb_true_r.
  - intros [= <-]. apply orb_true_r.
Qed.

(** What [num_get] stores without raising [failbit] is in the range of the
    type. *)
Lemma num_get_int_range (signed : bool) (bits : Z) (l : list Z) (k : nat)
  (v : Z) :
  0 < bits -> num_get_int signed bits l = (k, v, false) ->
  (if signed then - 2 ^ (bits - 1) else 0) <= v
  <= (if signed then 2 ^ (bits - 1) - 1 else 2 ^ bits - 1).
Proof.
  intros Hb. unfold num_get_int.
  destruct (match l with
            | 45 :: t => (true, 1%nat, t)
            | 43 :: t => (false, 1%nat, t)
            | _ => (false, 0%nat, l)
            end) as [[neg nsign] l1].
  unfold span.
  destruct (span_n (length l1) isdigit l1) as [ds rem] eqn:Esp.
  destruct (span_n_spec _ _ _ _ _ Esp) as (_ & Hall & _ & _).
  pose proof (digits_value_nonneg ds Hall) as Hnn.
  pose proof (pow2_pos (bits - 1) ltac:(lia)) as Hp1.
  pose proof (pow2_pos bits ltac:(lia)) as Hp.
  destruct ds as [|d ds']; [discriminate|].
  set (mag := digits_value (d :: ds')) in *. clearbody mag.
  destruct signed; cbv iota.
  - destruct neg.
    + destruct (Z.leb_spec mag (2 ^ (bits - 1))); intros [= _ <-]; lia.
    + destruct (Z.leb_spec mag (2 ^ (bits - 1) - 1)); intros [= _ <-]; lia.
  - destruct (Z.leb_spec mag (2 ^ bits - 1)); [|discriminate].
    intros [= _ <-]. destruct neg; [|lia].
    pose proof (Z.mod_pos_bound (- mag) (2 ^ bits) Hp). lia.
Qed.

(** A Read that returns 1 has written a value of the type. *)
Lemma Read_in_range (t : ctype) (s s' : istream) (w : option Z) :
  Read t s = Ret ((true, w), s') ->
  exists v, w = Some v /\ ctype_min t <= v <= ctype_max t.
Proof.
  unfold Read, lift, extract_int.
  destruct (sentry s) as [[] s1] eqn:Es.
  - destruct (num_get_int (ctype_signed t) (ctype_bits t) (rest s1))
      as [[k v] bad] eqn:En.
    unfold fail, setstate. cbn [failbit].
    intros [= Hok <- _]. apply negb_true_iff, orb_false_iff in Hok as [_ ->].
    exists v. split; [reflexivity|].
    unfold ctype_min, ctype_max.
    assert (Hb : 0 < ctype_bits t) by (destruct t; reflexivity).
    exact (num_get_int_range _ _ _ _ _ Hb En).
  - rewrite (sentry_false _ _ Es). discriminate.
Qed.

Lemma Read_fails (t : ctype) (s s' : istream) (w : option Z) :
  Read t s = Ret ((false, w), s') -> fail s' = true.
Proof.
  unfold Read, lift.
  destruct (extract_int (ctype_signed t) (ctype_bits t) s) as [written s1].
  intros [= H _ <-]. apply negb_false_iff in H. exact H.
Qed.

Lemma vtkReadASCIIData_loop_integers (t : ctype) :
  forall n s ok vs s',
    vtkReadASCIIData_loop (Read_elem VInt (Read t)) n s = Ret ((ok, vs), s') ->
    (ok = true -> Forall (holds_ctype t) vs)
    /\ (ok = false ->
        fail s' = true
        /\ exists k, (k < n)%nat
             /\ Forall (holds_ctype t) (firstn k vs)
             /\ skipn (S k) vs = repeat None (n - S k)).
Proof.
  induction n as [|n IH]; intros s ok vs s'; cbn [vtkReadASCIIData_loop].
  - unfold ret. intros [= <- <- _]. split; [constructor | discriminate].
  - unfold bind at 1, Read_elem at 1, bind at 1.
    destruct (Read t s) as [[[ok1 w] s1]| |] eqn:ER; try discriminate.
    unfold ret at 1. destruct ok1.
    + destruct (Read_in_range _ _ _ _ ER) as (v & -> & Hv).
      unfold bind at 1.
      destruct (vtkReadASCIIData_loop _ n s1) as [[[ok2 ws] s2]| |] eqn:EL;
        try discriminate.
      unfold ret. intros [= <- <- <-].
      destruct (IH _ _ _ _ EL) as [Hok Hfail].
      assert (Hhd : holds_ctype t (option_map VInt (Some v)))
        by (exists v; split; [reflexivity | exact Hv]).
      split.
      * intros E. constructor; [exact Hhd | exact (Hok E)].
      * intros E. destruct (Hfail E) as (Hf & k & Hk & Hpre & Hsuf).
        split; [exact Hf|]. exists (S k). split; [lia|].
        cbn [firstn skipn]. split; [constructor; assumption|].
        exact Hsuf.
    + unfold ret. intros [= <- <- <-]. split; [discriminate|].
      intros _. split; [exact (Read_fails _ _ _ _ ER)|].
      exists 0%nat. split; [lia|]. cbn [firstn skipn].
      split; [constructor|].
      replace (S n - 1)%nat with n by lia. reflexivity.
Qed.

(** X10.  vtkReadASCIIData for an integer type: the array always has one
    element per tuple and component; when the value returned is 1 every
    element was read and is within the range of the type; when it is 0 the
    stream has failed, the elements before the failing one were read, and
    those after it were never written. *)
Theorem vtkReadASCIIData_integers (t : ctype) (numTuples numComp : Z)
  (s s' : istream) (ok : bool) (vs : list (option Value)) :
  vtkReadASCIIData (Read_elem VInt (Read t)) numTuples numComp s
  = Ret ((ok, vs), s') ->
  length vs = loop_count numTuples numComp
  /\ (ok = true -> Forall (holds_ctype t) vs)
  /\ (ok = false ->
      fail s' = true
      /\ exists k, (k < length vs)%nat
           /\ Forall (holds_ctype t) (firstn k vs)
           /\ skipn (S k) vs = repeat None (length vs - S k)).
Proof.
  unfold vtkReadASCIIData, loop_count.
  destruct ((0 <? numTuples) && (0 <? numComp)).
  - intros H.
    pose proof (vtkReadASCIIData_loop_length _ _ _ _ _ _ H) as Hlen.
    rewrite Hlen. split; [reflexivity|].
    exact (vtkReadASCIIData_loop_integers t _ _ _ _ _ H).
  - unfold ret. intros [= <- <- _]. split; [reflexivity|].
    split; [constructor | discriminate].
Qed.

Lemma vtkReadASCIIData_integers_witness :
  length [Some (VInt 1); Some (VInt 65535); None]
  = loop_count 3 1
  /\ (false = true ->
      Forall (holds_ctype c_ushort) [Some (VInt 1); Some (VInt 65535); None])
  /\ (false = false ->
      fail (mkIS (bytes_of "1 70000 3") 7 false true) = true
      /\ exists k, (k < length [Some (VInt 1); Some (VInt 65535); None])%nat
           /\ Forall (holds_ctype c_ushort)
                     (firstn k [Some (VInt 1); Some (VInt 65535); None])
           /\ skipn (S k) [Some (VInt 1); Some (VInt 65535); None]
              = repeat None
                  (length [Some (VInt 1); Some (VInt 65535); None] - S k)).
Proof.
  apply (vtkReadASCIIData_integers c_ushort 3 1
           (open_string (bytes_of "1 70000 3"))).
  vm_compute. reflexivity.
Defined.

(** ** ReadArray *)

Lemma loop_count_nonneg (numTuples numComp : Z) :
  0 <= numTuples -> 0 <= numComp ->
  loop_count numTuples numComp = Z.to_nat (numTuples * numComp).
Proof.
  intros HN HK. unfold loop_count.
  destruct (Z.ltb_spec 0 numTuples); destruct (Z.ltb_spec 0 numComp);
    cbn [andb]; try reflexivity.
  - replace numComp with 0 by lia. rewrite Z.mul_0_r. reflexivity.
  - replace numTuples with 0 by lia. reflexivity.
  - replace numTuples with 0 by lia. reflexivity.
Qed.

Lemma read_fixed_length (FileType_ : Z) (sz : nat)
  (of_bytes : list Z -> Value) (rd : ST istream (bool * option Value))
  (numTuples numComp : Z) (s s' : istream) (vs : list (option Value)) :
  0 <= numTuples -> 0 <= numComp ->
  read_fixed FileType_ sz of_bytes rd numTuples numComp s = Ret (vs, s') ->
  length vs = Z.to_nat (numTuples * numComp).
Proof.
  intros HN HK H.
  destruct (Z.eqb_spec FileType_ VTK_BINARY) as [->|Hft].
  - revert H. unfold read_fixed. cbn [Z.eqb VTK_BINARY Pos.eqb].
    unfold bind at 1, vtkReadBinaryData.
    destruct (Z.eqb_spec numTuples 0) as [->|HN0].
    { cbn [orb]. unfold ret. intros [= <- _]. reflexivity. }
    destruct (Z.eqb_spec numComp 0) as [->|HK0].
    { cbn [orb]. unfold ret. intros [= <- _]. rewrite Z.mul_0_r. reflexivity. }
    cbn [orb]. unfold bind, lift, gets, ret.
    destruct (getline 256 10 s) as [[l c] s1].
    destruct (read _ s1) as [got s2]. intros [= <- _].
    rewrite length_map. apply chunks_length.
  - rewrite <- loop_count_nonneg by assumption.
    exact (read_fixed_ascii_length _ _ _ _ _ _ _ _ _ Hft H).
Qed.

Lemma read_values_length (rd : ST istream Value) :
  forall n s vs s', read_values rd n s = Ret (vs, s') -> length vs = n.
Proof.
  induction n as [|n IH]; intros s vs s'; cbn [read_values].
  - unfold ret. intros [= <- _]. reflexivity.
  - unfold bind at 1. destruct (rd s) as [[v s1]| |]; try discriminate.
    unfold bind at 1.
    destruct (read_values rd n s1) as [[ws s2]| |] eqn:E; try discriminate.
    unfold ret. intros [= <- _]. cbn [length]. f_equal.
    exact (IH _ _ _ E).
Qed.

Lemma read_ascii_bits_length :
  forall n s vs s', read_ascii_bits n s = Ret (Some vs, s') -> length vs = n.
Proof.
  induction n as [|n IH]; intros s vs s'; cbn [read_ascii_bits].
  - unfold ret. intros [= <- _]. reflexivity.
  - unfold bind at 1.
    destruct (Read c_vtkIdType s) as [[[ok b] s1]| |]; try discriminate.
    destruct ok; [|discriminate]. destruct b as [v|]; [|discriminate].
    unfold bind at 1.
    destruct (read_ascii_bits n s1) as [[[ws|] s2]| |] eqn:E;
      try discriminate.
    unfold ret. cbn [option_map]. intros [= <- _]. cbn [length]. f_equal.
    exact (IH _ _ _ E).
Qed.

Lemma read_bit_length (FileType_ : Z) (numTuples numComp : Z)
  (s s' : istream) (vs : list (option Value)) :
  read_bit FileType_ numTuples numComp s = Ret (Some vs, s') ->
  length vs = Z.to_nat (numTuples * numComp).
Proof.
  unfold read_bit.
  destruct (Z.eqb_spec numTuples 0) as [->|HN0].
  { cbn [negb andb]. unfold ret. intros [= <- _]. reflexivity. }
  destruct (Z.eqb_spec numComp 0) as [->|HK0].
  { cbn [negb andb]. unfold ret. intros [= <- _].
    rewrite Z.mul_0_r. reflexivity. }
  cbn [negb andb]. destruct (FileType_ =? VTK_BINARY).
  - unfold bind, lift, gets, ret.
    destruct (getline 256 10 s) as [[l c] s1].
    destruct (read _ s1) as [got s2].
    destruct (eof s2); [discriminate|]. intros [= <- _].
    rewrite length_map, length_seq. reflexivity.
  - apply read_ascii_bits_length.
Qed.

Lemma read_vtkidtype_length (X : Externals) (FileType_ : Z)
  (numTuples numComp : Z) (s s' : istream) (vs : list (option Value)) :
  0 <= numTuples -> 0 <= numComp ->
  read_vtkidtype FileType_ numTuples numComp s = Ret (vs, s') ->
  length vs = Z.to_nat (numTuples * numComp).
Proof.
  intros HN HK. unfold read_vtkidtype.
  destruct (FileType_ =? VTK_BINARY).
  - destruct (Z.eqb_spec numTuples 0) as [->|HN0].
    { cbn [orb]. unfold ret. intros [= <- _]. reflexivity. }
    destruct (Z.eqb_spec numComp 0) as [->|HK0].
    { cbn [orb]. unfold ret. intros [= <- _]. rewrite Z.mul_0_r. reflexivity. }
    cbn [orb]. unfold bind, lift, ret.
    destruct (getline 256 10 s) as [[l c] s1].
    destruct (read _ s1) as [got s2]. intros [= <- _].
    rewrite length_map. apply chunks_length.
  - unfold bind at 1.
    destruct (vtkReadASCIIData _ numTuples numComp s) as [[[ok ws] s1]| |] eqn:E;
      try discriminate.
    unfold ret. intros [= <- _]. rewrite length_map.
    rewrite <- loop_count_nonneg by assumption.
    revert E. unfold vtkReadASCIIData, loop_count.
    destruct ((0 <? numTuples) && (0 <? numComp)).
    + apply vtkReadASCIIData_loop_length.
    + unfold ret. intros [= _ <- _]. reflexivity.
Qed.

Lemma component_names_loop_keeps_shape :
  forall n i array s array' s',
    component_names_loop n i array s = Ret (array', s') ->
    Name array' = Name array
    /\ NumberOfComponents array' = NumberOfComponents array.
Proof.
  induction n as [|n IH]; intros i array s array' s'; cbn [component_names_loop].
  - unfold ret. intros [= <- _]. split; reflexivity.
  - unfold bind at 1.
    destruct (ReadLine_total s) as (ok & line & s1 & EL). rewrite EL.
    destruct ok; [|apply IH].
    unfold bind at 1, decode at 1.
    destruct (DecodeString line) as [decoded| |]; try discriminate.
    intros H. apply IH in H. exact H.
Qed.

Lemma metadata_loop_keeps_shape (X : Externals) :
  forall fuel numComp array s array' s',
    metadata_loop X fuel numComp array s = Ret (array', s') ->
    Name array' = Name array
    /\ NumberOfComponents array' = NumberOfComponents array.
Proof.
  induction fuel as [|fuel IH]; intros numComp array s array' s';
    cbn [metadata_loop]; [discriminate|].
  unfold bind at 1.
  destruct (ReadLine_total s) as (ok & line0 & s1 & EL). rewrite EL.
  destruct ok; [|unfold ret; intros [= <- _]; split; reflexivity].
  destruct (LowerCase line0 256) as [|c line];
    [unfold ret; intros [= <- _]; split; reflexivity|].
  destruct (strncmp0 (c :: line) (bytes_of "component_names") 15).
  { unfold bind at 1.
    destruct (component_names_loop (Z.to_nat numComp) 0 array s1)
      as [[array1 s2]| |] eqn:EC; try discriminate.
    apply component_names_loop_keeps_shape in EC as [C1 V1].
    intros H. apply IH in H as [C2 V2]. split; congruence. }
  destruct (strncmp0 (c :: line) (bytes_of "information") 11); [|apply IH].
  destruct (scan_information (c :: line)) as [[numKeys|]| |];
    try discriminate; [|apply IH].
  unfold bind at 1.
  destruct (ReadInformation X (Information array) numKeys s1)
    as [[[rc info] s2]| |]; try discriminate.
  intros H. apply IH in H. exact H.
Qed.

Lemma ReadArray_tail_keeps_shape (X : Externals) (numComp : Z)
  (array array' : vtkAbstractArray) (s s' : istream) :
  ReadArray_tail X numComp array s = Ret (array', s') ->
  Name array' = Name array
  /\ NumberOfComponents array' = NumberOfComponents array.
Proof.
  unfold ReadArray_tail. unfold bind at 1.
  destruct (Peek 256 s) as [[line s1]| |]; try discriminate.
  unfold bind at 1.
  destruct (pop_blank_lines line s1) as [[ready s2]| |]; try discriminate.
  assert (Hret : forall t, ret array t = Ret (array', s') ->
                 Name array' = Name array
                 /\ NumberOfComponents array' = NumberOfComponents array).
  { unfold ret. intros t [= <- _]. split; reflexivity. }
  destruct ready; [|apply Hret].
  unfold bind at 1.
  destruct (Peek 8 s2) as [[line8 s3]| |]; try discriminate.
  destruct (length line8 <? 8)%nat; [apply Hret|].
  destruct (negb _); [apply Hret|].
  unfold bind at 1.
  destruct (ReadLine_total s3) as (ok & l & s4 & EL). rewrite EL.
  destruct ok; [|apply Hret].
  apply metadata_loop_keeps_shape.
Qed.

Ltac read_branch lem :=
  unfold bind at 1;
  match goal with
  | |- match ?m with _ => _ end = _ -> _ =>
      let E := fresh "E" in
      destruct m as [[? ?]| |] eqn:E; try discriminate;
      unfold ret; intros [= <- _]; cbn [Values SetValues New NumberOfComponents Name];
      split; [|split; reflexivity];
      eapply lem; eassumption
  end.

(** The array that the dispatch on the type builds: one element per tuple
    and component, the number of components asked for (one when none is),
    and no name. *)
Lemma ReadArray_data_shape (X : Externals) (FileType_ : Z) (type : list Z)
  (numTuples numComp : Z) (s s0 : istream) (array : vtkAbstractArray) :
  0 <= numTuples -> 0 <= numComp ->
  ReadArray_data X FileType_ type numTuples numComp s = Ret (Some array, s0) ->
  length (Values array) = Z.to_nat (numTuples * numComp)
  /\ NumberOfComponents array = Z.max 1 numComp
  /\ Name array = None.
Proof.
  intros HN HK. unfold ReadArray_data. cbv zeta.
  destruct (strncmp0 type (bytes_of "bit") 3).
  { unfold bind at 1.
    destruct (read_bit FileType_ numTuples numComp s) as [[[vs|] s1]| |] eqn:E;
      try discriminate.
    unfold ret. cbn [option_map]. intros [= <- _].
    cbn [Values SetValues New NumberOfComponents Name].
    split; [|split; reflexivity]. exact (read_bit_length _ _ _ _ _ _ E). }
  destruct (strcmp0 type (bytes_of "char") || strcmp0 type (bytes_of "signed_char")).
  { read_branch read_fixed_length. }
  destruct (strncmp0 type (bytes_of "unsigned_char") 13).
  { read_branch read_fixed_length. }
  destruct (strncmp0 type (bytes_of "short") 5).
  { read_branch read_fixed_length. }
  destruct (strncmp0 type (bytes_of "unsigned_short") 14).
  { read_branch read_fixed_length. }
  destruct (strncmp0 type (bytes_of "vtkidtype") 9).
  { read_branch (read_vtkidtype_length X). }
  destruct (strncmp0 type (bytes_of "int") 3).
  { read_branch read_fixed_length. }
  destruct (strncmp0 type (bytes_of "unsigned_int") 12).
  { read_branch read_fixed_length. }
  destruct (strncmp0 type (bytes_of "long") 4).
  { read_branch read_fixed_length. }
  destruct (strncmp0 type (bytes_of "unsigned_long") 13).
  { read_branch read_fixed_length. }
  destruct (strncmp0 type (bytes_of "vtktypeint64") 12).
  { read_branch read_fixed_length. }
  destruct (strncmp0 type (bytes_of "vtktypeuint64") 13).
  { read_branch read_fixed_length. }
  destruct (strncmp0 type (bytes_of "float") 5).
  { read_branch read_fixed_length. }
  destruct (strncmp0 type (bytes_of "double") 6).
  { read_branch read_fixed_length. }
  destruct (strncmp0 type (bytes_of "string") 6
            || strncmp0 type (bytes_of "utf8_string") 11).
  { unfold bind at 1.
    destruct (FileType_ =? VTK_BINARY).
    - unfold bind at 1, lift at 1.
      destruct (getline 256 10 s) as [[l c] s1].
      destruct (read_values _ _ s1) as [[vs s2]| |] eqn:E; try discriminate.
      unfold ret. intros [= <- _].
      cbn [Values SetValues New NumberOfComponents Name].
      split; [|split; reflexivity].
      rewrite (read_values_length _ _ _ _ _ E).
      apply loop_count_nonneg; assumption.
    - unfold bind at 1.
      destruct (my_getline 10 s) as [[l s1]| |]; try discriminate.
      destruct (read_values _ _ s1) as [[vs s2]| |] eqn:E; try discriminate.
      unfold ret. intros [= <- _].
      cbn [Values SetValues New NumberOfComponents Name].
      split; [|split; reflexivity].
      rewrite (read_values_length _ _ _ _ _ E).
      apply loop_count_nonneg; assumption. }
  destruct (strncmp0 type (bytes_of "variant") 7); [|discriminate].
  unfold bind at 1.
  destruct (read_values _ _ s) as [[vs s2]| |] eqn:E; try discriminate.
  unfold ret. intros [= <- _].
  cbn [Values SetValues New NumberOfComponents Name].
  split; [|split; reflexivity].
  rewrite (read_values_length _ _ _ _ _ E).
  apply loop_count_nonneg; assumption.
Qed.

(** X11.  Every array that ReadArray returns, whatever the type tag and the
    encoding, and however much of the data was there, has exactly
    numTuples * numComp elements, the number of components asked for (one
    when zero was asked for), and no name yet. *)
Theorem ReadArray_shape (X : Externals) (FileType_ : Z) (dataType : list Z)
  (numTuples numComp : Z) (s s' : istream) (data : vtkAbstractArray) :
  0 <= numTuples -> 0 <= numComp ->
  ReadArray X FileType_ dataType numTuples numComp s = Ret (Some data, s') ->
  length (Values data) = Z.to_nat (numTuples * numComp)
  /\ NumberOfComponents data = Z.max 1 numComp
  /\ Name data = None.
Proof.
  intros HN HK. unfold ReadArray.
  destruct (Z.ltb_spec numTuples 0); [lia|].
  destruct (Z.ltb_spec numComp 0); [lia|].
  cbn [orb]. unfold bind at 1.
  destruct (ReadArray_data X FileType_ _ numTuples numComp s)
    as [[[array|] s0]| |] eqn:ED; try discriminate.
  unfold bind at 1.
  destruct (ReadArray_tail X numComp array s0) as [[array' s1]| |] eqn:ET;
    try discriminate.
  unfold ret. intros [= <- _].
  destruct (ReadArray_data_shape _ _ _ _ _ _ _ _ HN HK ED) as (H1 & H2 & H3).
  destruct (ReadArray_tail_keeps _ _ _ _ _ _ ET) as [_ HV].
  destruct (ReadArray_tail_keeps_shape _ _ _ _ _ _ ET) as [HNm HNc].
  rewrite HV, HNm, HNc. auto.
Qed.

Lemma ReadArray_shape_witness :
  length (Values (fst array_example_run)) = Z.to_nat (1 * 1)
  /\ NumberOfComponents (fst array_example_run) = Z.max 1 1
  /\ Name (fst array_example_run) = None.
Proof.
  apply (ReadArray_shape example_externals VTK_BINARY (bytes_of "int") 1 1
           (open_string [10; 0; 0]) (snd array_example_run)
           (fst array_example_run)); [lia | lia | vm_compute; reflexivity].
Defined.

Ltac some_branch :=
  cbn [orb]; unfold bind at 1;
  match goal with
  | |- match ?m with _ => _ end = _ -> _ =>
      destruct m as [[? ?]| |]; discriminate
  end.

Lemma ReadArray_data_None (X : Externals) (FileType_ : Z) (type : list Z)
  (numTuples numComp : Z) (s s' : istream) :
  ReadArray_data X FileType_ type numTuples numComp s = Ret (None, s') ->
  strncmp0 type (bytes_of "bit") 3 = true
  \/ (known_type type = false /\ s' = s).
Proof.
  unfold ReadArray_data, known_type. cbv zeta.
  destruct (strncmp0 type (bytes_of "bit") 3); [left; reflexivity|].
  destruct (strcmp0 type (bytes_of "char")); [some_branch|].
  destruct (strcmp0 type (bytes_of "signed_char")); [some_branch|].
  cbn [orb].
  destruct (strncmp0 type (bytes_of "unsigned_char") 13); [some_branch|].
  destruct (strncmp0 type (bytes_of "short") 5); [some_branch|].
  destruct (strncmp0 type (bytes_of "unsigned_short") 14); [some_branch|].
  destruct (strncmp0 type (bytes_of "vtkidtype") 9); [some_branch|].
  destruct (strncmp0 type (bytes_of "int") 3); [some_branch|].
  destruct (strncmp0 type (bytes_of "unsigned_int") 12); [some_branch|].
  destruct (strncmp0 type (bytes_of "long") 4); [some_branch|].
  destruct (strncmp0 type (bytes_of "unsigned_long") 13); [some_branch|].
  destruct (strncmp0 type (bytes_of "vtktypeint64") 12); [some_branch|].
  destruct (strncmp0 type (bytes_of "vtktypeuint64") 13); [some_branch|].
  destruct (strncmp0 type (bytes_of "float") 5); [some_branch|].
  destruct (strncmp0 type (bytes_of "double") 6); [some_branch|].
  destruct (strncmp0 type (bytes_of "string") 6); [some_branch|].
  destruct (strncmp0 type (bytes_of "utf8_string") 11); [some_branch|].
  cbn [orb].
  destruct (strncmp0 type (bytes_of "variant") 7); [some_branch|].
  unfold ret. intros [= <-]. right. split; reflexivity.
Qed.

Lemma ReadArray_data_unknown (X : Externals) (FileType_ : Z) (type : list Z)
  (numTuples numComp : Z) (s : istream) :
  known_type type = false ->
  ReadArray_data X FileType_ type numTuples numComp s = Ret (None, s).
Proof.
  unfold known_type, ReadArray_data. cbv zeta. intros H.
  repeat (apply orb_false_iff in H; destruct H as [H ?H]).
  repeat match goal with E : _ = false |- _ => rewrite E; clear E end.
  reflexivity.
Qed.

(** X12.  ReadArray returns [nullptr] in two cases only: for a type tag
    that the dispatch does not know, and then nothing was consumed; and
    for a "bit" array.  For a tag it does not know it always does.  A
    numeric, string or variant array is returned however its read went. *)
Theorem ReadArray_nullptr (X : Externals) (FileType_ : Z) (dataType : list Z)
  (numTuples numComp : Z) (s : istream) :
  (0 <= numTuples -> 0 <= numComp ->
   known_type (LowerCase dataType LowerCase_default) = false ->
   ReadArray X FileType_ dataType numTuples numComp s = Ret (None, s))
  /\ (forall s',
        ReadArray X FileType_ dataType numTuples numComp s = Ret (None, s') ->
        strncmp0 (LowerCase dataType LowerCase_default) (bytes_of "bit") 3
        = true
        \/ (known_type (LowerCase dataType LowerCase_default) = false
            /\ s' = s)).
Proof.
  set (type := LowerCase dataType LowerCase_default). split.
  - intros HN HK Hk. unfold ReadArray.
    destruct (Z.ltb_spec numTuples 0); [lia|].
    destruct (Z.ltb_spec numComp 0); [lia|].
    cbn [orb]. unfold bind. fold type.
    rewrite ReadArray_data_unknown by exact Hk. reflexivity.
  - intros s'. unfold ReadArray.
    destruct ((numTuples <? 0) || (numComp <? 0)); [discriminate|].
    unfold bind at 1. fold type.
    destruct (ReadArray_data X FileType_ type numTuples numComp s)
      as [[[array|] s0]| |] eqn:ED; try discriminate.
    + unfold bind.
      destruct (ReadArray_tail X numComp array s0) as [[? ?]| |]; discriminate.
    + unfold ret. intros [= <-]. exact (ReadArray_data_None _ _ _ _ _ _ _ ED).
Qed.

Lemma scan_blank_all (line : list Z) :
  forallb is_blank line = true -> scan_blank line = AllBlank.
Proof.
  induction line as [|c t IH]; [reflexivity|].
  cbn [forallb scan_blank]. unfold is_blank at 1. intros H.
  apply andb_prop in H as [Hc Ht]. rewrite Hc. exact (IH Ht).
Qed.

(** The tail of ReadArray on 256 blanks. *)
Lemma ReadArray_tail_blanks (X : Externals) (numComp : Z)
  (array : vtkAbstractArray) (s : istream) :
  good s = true -> (256 <= length (rest s))%nat ->
  forallb is_blank (firstn 256 (rest s)) = true ->
  ReadArray_tail X numComp array s = Diverges.
Proof.
  intros Hg Hlen Hb. unfold ReadArray_tail. unfold bind at 1.
  rewrite Peek_eq, Hg. cbn [Nat.eqb]. unfold bind at 1.
  unfold pop_blank_lines. cbn [pop_blank_lines_fuel].
  rewrite (scan_blank_all _ Hb).
  rewrite length_firstn, Nat.min_l by exact Hlen. reflexivity.
Qed.

(** X13.  When the data of an array is followed by 256 characters that
    are all spaces or carriage returns, ReadArray never returns: the loop
    that pops blank lines looks at the 256 characters it peeked, finds no
    newline and nothing else, consumes nothing, and starts again on the
    same characters. *)
Theorem ReadArray_hangs_on_blanks (X : Externals) (FileType_ : Z)
  (dataType : list Z) (numTuples numComp : Z) (s s0 : istream)
  (array : vtkAbstractArray) :
  0 <= numTuples -> 0 <= numComp ->
  ReadArray_data X FileType_ (LowerCase dataType LowerCase_default)
                 numTuples numComp s = Ret (Some array, s0) ->
  good s0 = true -> (256 <= length (rest s0))%nat ->
  forallb is_blank (firstn 256 (rest s0)) = true ->
  ReadArray X FileType_ dataType numTuples numComp s = Diverges.
Proof.
  intros HN HK HD Hg Hlen Hb. unfold ReadArray.
  destruct (Z.ltb_spec numTuples 0); [lia|].
  destruct (Z.ltb_spec numComp 0); [lia|].
  cbn [orb]. unfold bind at 1. rewrite HD. unfold bind at 1.
  rewrite (ReadArray_tail_blanks X numComp array s0 Hg Hlen Hb). reflexivity.
Qed.

Lemma ReadArray_hangs_on_blanks_witness :
  ReadArray example_externals VTK_ASCII (bytes_of "int") 1 1
            (open_string (bytes_of "7" ++ repeat 32 256 ++ [10; 56]))
  = Diverges.
Proof.
  apply (ReadArray_hangs_on_blanks example_externals VTK_ASCII (bytes_of "int")
           1 1 (open_string (bytes_of "7" ++ repeat 32 256 ++ [10; 56]))
           (skip_bytes 1 (open_string (bytes_of "7" ++ repeat 32 256 ++ [10; 56])))
           (SetValues (New vtkIntArray 1) [Some (VInt 7)]));
    try lia; try (vm_compute; reflexivity).
  vm_compute. lia.
Defined.

(** ** What the sections keep *)

Lemma same_array_refl (d : vtkAbstractArray) : same_array d d.
Proof. repeat split. Qed.

Lemma same_array_trans (d1 d2 d3 : vtkAbstractArray) :
  same_array d1 d2 -> same_array d2 d3 -> same_array d1 d3.
Proof.
  intros (A1 & A2 & A3 & A4 & A5 & A6) (B1 & B2 & B3 & B4 & B5 & B6).
  repeat split; congruence.
Qed.

Lemma slot_kept_refl slot (a : vtkDataSetAttributes) : slot_kept slot a a.
Proof. intros d H. exists d. split; [exact H | apply same_array_refl]. Qed.

Lemma slot_kept_trans slot (a1 a2 a3 : vtkDataSetAttributes) :
  slot_kept slot a1 a2 -> slot_kept slot a2 a3 -> slot_kept slot a1 a3.
Proof.
  intros H12 H23 d H. destruct (H12 d H) as (d2 & E2 & S2).
  destruct (H23 d2 E2) as (d3 & E3 & S3).
  exists d3. split; [exact E3 | exact (same_array_trans _ _ _ S2 S3)].
Qed.

Lemma slot_kept_eq slot (a a' : vtkDataSetAttributes) :
  slot a' = slot a -> slot_kept slot a a'.
Proof.
  intros E d H. exists d. rewrite E. split; [exact H | apply same_array_refl].
Qed.

Lemma slot_kept_empty slot (a a' : vtkDataSetAttributes) :
  slot a = None -> slot_kept slot a a'.
Proof. intros E d H. congruence. Qed.

Lemma attributes_kept_refl (a : vtkDataSetAttributes) : attributes_kept a a.
Proof.
  repeat split; try apply slot_kept_refl. exists []. symmetry. apply app_nil_r.
Qed.

Lemma attributes_kept_trans (a1 a2 a3 : vtkDataSetAttributes) :
  attributes_kept a1 a2 -> attributes_kept a2 a3 -> attributes_kept a1 a3.
Proof.
  intros (A1 & A2 & A3 & A4 & A5 & A6 & A7 & m1 & E1)
         (B1 & B2 & B3 & B4 & B5 & B6 & B7 & m2 & E2).
  repeat split; try (eapply slot_kept_trans; eassumption).
  exists (m1 ++ m2). rewrite E2, E1, app_assoc. reflexivity.
Qed.

Lemma attributes_kept_AddArray (a : vtkDataSetAttributes)
  (d : vtkAbstractArray) : attributes_kept a (AddArray a d).
Proof.
  repeat split; try (apply slot_kept_eq; reflexivity).
  exists [d]. reflexivity.
Qed.

Lemma attributes_kept_fold_AddArray (f : list vtkAbstractArray) :
  forall a, attributes_kept a (fold_left AddArray f a).
Proof.
  induction f as [|d f IH]; intros a; cbn [fold_left].
  - apply attributes_kept_refl.
  - eapply attributes_kept_trans; [apply attributes_kept_AddArray | apply IH].
Qed.

Ltac kept_set :=
  intros H; repeat split;
  try (apply slot_kept_eq; reflexivity);
  try (apply slot_kept_empty; exact H);
  exists []; symmetry; apply app_nil_r.

Lemma attributes_kept_SetScalars a d :
  Scalars a = None -> attributes_kept a (SetScalars a d).
Proof. kept_set. Qed.
Lemma attributes_kept_SetVectors a d :
  Vectors a = None -> attributes_kept a (SetVectors a d).
Proof. kept_set. Qed.
Lemma attributes_kept_SetNormals a d :
  Normals a = None -> attributes_kept a (SetNormals a d).
Proof. kept_set. Qed.
Lemma attributes_kept_SetTensors a d :
  Tensors a = None -> attributes_kept a (SetTensors a d).
Proof. kept_set. Qed.
Lemma attributes_kept_SetTCoords a d :
  TCoords a = None -> attributes_kept a (SetTCoords a d).
Proof. kept_set. Qed.
Lemma attributes_kept_SetGlobalIds a d :
  GlobalIds a = None -> attributes_kept a (SetGlobalIds a d).
Proof. kept_set. Qed.
Lemma attributes_kept_SetPedigreeIds a d :
  PedigreeIds a = None -> attributes_kept a (SetPedigreeIds a d).
Proof. kept_set. Qed.

(** [install] on a slot that is skipped when it is filled. *)
Lemma attributes_kept_install
  (slot : vtkDataSetAttributes -> option vtkAbstractArray) set
  (a : vtkDataSetAttributes) (other readAll : bool) (d : vtkAbstractArray) :
  (forall d0, slot a = None -> attributes_kept a (set a d0)) ->
  attributes_kept a (install (is_some (slot a) || other) readAll set a d).
Proof.
  intros Hset. unfold install.
  destruct (slot a) as [d0|] eqn:E; cbn [is_some orb negb].
  - destruct readAll; [apply attributes_kept_AddArray | apply attributes_kept_refl].
  - destruct other; cbn [negb].
    + destruct readAll;
        [apply attributes_kept_AddArray | apply attributes_kept_refl].
    + apply Hset. reflexivity.
Qed.

Lemma ensures_ret {S A} (x : A) (P : A -> S -> Prop) :
  (forall s, P x s) -> ensures (ret x) P.
Proof. intros H s y s' E. inversion E. subst. apply H. Qed.

Lemma ensures_undefined {S A} (P : A -> S -> Prop) : ensures undefined P.
Proof. intros s y s' E. discriminate E. Qed.

Lemma ensures_diverges {S A} (P : A -> S -> Prop) : ensures diverges P.
Proof. intros s y s' E. discriminate E. Qed.

Lemma ensures_bind {S A B} (m : ST S A) (k : A -> ST S B)
  (P : B -> S -> Prop) :
  (forall x, ensures (k x) P) -> ensures (bind m k) P.
Proof.
  intros H s y s' E. unfold bind in E.
  destruct (m s) as [[x s1]| |]; try discriminate E.
  exact (H x s1 y s' E).
Qed.

Lemma ensures_bind_with {S A B} (m : ST S A) (k : A -> ST S B)
  (Q : A -> S -> Prop) (P : B -> S -> Prop) :
  ensures m Q ->
  (forall x s1, Q x s1 -> forall y s', k x s1 = Ret (y, s') -> P y s') ->
  ensures (bind m k) P.
Proof.
  intros Hm H s y s' E. unfold bind in E.
  destruct (m s) as [[x s1]| |] eqn:Em; try discriminate E.
  exact (H x s1 (Hm _ _ _ Em) y s' E).
Qed.

(** One step through the text of a section. *)
Ltac ensures_step :=
  match goal with
  | |- ensures (bind _ _) _ => apply ensures_bind; intros ?
  | |- ensures (ret _) _ => apply ensures_ret; intros ?
  | |- ensures undefined _ => apply ensures_undefined
  | |- ensures diverges _ => apply ensures_diverges
  | |- ensures (match ?x with _ => _ end) _ => destruct x eqn:?
  end.

Section Kept.
Variable X : Externals.

Lemma ReadAttributeData_kept slot filter readAll set
  (a : vtkDataSetAttributes) (numPts numComp : Z) :
  (forall a0 d0, slot a0 = None -> attributes_kept a0 (set a0 d0)) ->
  ensures (ReadAttributeData X slot filter readAll set a numPts numComp)
               (fun p _ => attributes_kept a (snd p)).
Proof.
  intros Hset. unfold ReadAttributeData.
  repeat ensures_step; cbn [snd]; try apply attributes_kept_refl.
  apply attributes_kept_install. intros d0. apply Hset.
Qed.

Lemma ReadScalarData_kept (a : vtkDataSetAttributes) (numPts : Z) :
  ensures (ReadScalarData X a numPts)
               (fun p _ => attributes_kept a (snd p)).
Proof.
  unfold ReadScalarData.
  repeat ensures_step; cbn [snd]; try apply attributes_kept_refl.
  apply attributes_kept_install. intros d0. apply attributes_kept_SetScalars.
Qed.

Lemma ReadCoScalarData_kept (a : vtkDataSetAttributes) (numPts : Z) :
  ensures (ReadCoScalarData X a numPts)
               (fun p _ => attributes_kept a (snd p)).
Proof.
  unfold ReadCoScalarData.
  repeat ensures_step; cbn [snd]; try apply attributes_kept_refl;
    apply attributes_kept_install; intros d0; apply attributes_kept_SetScalars.
Qed.

Lemma ReadTCoordsData_kept (a : vtkDataSetAttributes) (numPts : Z) :
  ensures (ReadTCoordsData X a numPts)
               (fun p _ => attributes_kept a (snd p)).
Proof.
  unfold ReadTCoordsData.
  repeat ensures_step; cbn [snd]; try apply attributes_kept_refl.
  apply attributes_kept_install. intros d0. apply attributes_kept_SetTCoords.
Qed.

Lemma ReadIds_kept downcast slot set (a : vtkDataSetAttributes) (numPts : Z) :
  (forall a0 d0, slot a0 = None -> attributes_kept a0 (set a0 d0)) ->
  ensures (ReadIds X downcast slot set a numPts)
               (fun p _ => attributes_kept a (snd p)).
Proof.
  intros Hset. unfold ReadIds.
  repeat ensures_step; cbn [snd]; try apply attributes_kept_refl.
  rewrite <- (orb_false_r (is_some (slot a))).
  apply attributes_kept_install. intros d0. apply Hset.
Qed.

Lemma ReadLutData_kept (a : vtkDataSetAttributes) :
  ensures (ReadLutData X a) (fun p _ => attributes_kept a (snd p)).
Proof.
  unfold ReadLutData.
  repeat ensures_step; cbn [snd]; try apply attributes_kept_refl.
  repeat split; try (apply slot_kept_eq; reflexivity).
  - intros d Hd. eexists. split; [reflexivity|].
    match goal with
    | H : Scalars a = Some ?sc |- _ =>
        assert (E : d = sc) by congruence; rewrite E
    end.
    repeat split.
  - exists []. symmetry. apply app_nil_r.
Qed.

End Kept.

Section KeptRow.
Variable X : Externals.

Lemma ReadVectorData_kept (a : vtkDataSetAttributes) (numPts : Z) :
  ensures (ReadVectorData X a numPts) (fun p _ => attributes_kept a (snd p)).
Proof.
  exact (ReadAttributeData_kept X Vectors VectorsName ReadAllVectors
           SetVectors a numPts 3
           (fun a0 d0 => attributes_kept_SetVectors a0 d0)).
Qed.

Lemma ReadNormalData_kept (a : vtkDataSetAttributes) (numPts : Z) :
  ensures (ReadNormalData X a numPts) (fun p _ => attributes_kept a (snd p)).
Proof.
  exact (ReadAttributeData_kept X Normals NormalsName ReadAllNormals
           SetNormals a numPts 3
           (fun a0 d0 => attributes_kept_SetNormals a0 d0)).
Qed.

Lemma ReadTensorData_kept (a : vtkDataSetAttributes) (numPts numComp : Z) :
  ensures (ReadTensorData X a numPts numComp)
          (fun p _ => attributes_kept a (snd p)).
Proof.
  exact (ReadAttributeData_kept X Tensors TensorsName ReadAllTensors
           SetTensors a numPts numComp
           (fun a0 d0 => attributes_kept_SetTensors a0 d0)).
Qed.

Lemma ReadGlobalIds_kept (a : vtkDataSetAttributes) (numPts : Z) :
  ensures (ReadGlobalIds X a numPts) (fun p _ => attributes_kept a (snd p)).
Proof.
  exact (ReadIds_kept X true GlobalIds SetGlobalIds a numPts
           (fun a0 d0 => attributes_kept_SetGlobalIds a0 d0)).
Qed.

Lemma ReadPedigreeIds_kept (a : vtkDataSetAttributes) (numPts : Z) :
  ensures (ReadPedigreeIds X a numPts)
          (fun p _ => attributes_kept a (snd p)).
Proof.
  exact (ReadIds_kept X false PedigreeIds SetPedigreeIds a numPts
           (fun a0 d0 => attributes_kept_SetPedigreeIds a0 d0)).
Qed.

Lemma ReadRowData_loop_kept (numEdges : Z) (fuel : nat) :
  forall a, ensures (ReadRowData_loop X fuel a numEdges)
                         (fun p _ => attributes_kept a (snd p)).
Proof.
  induction fuel as [|fuel IH]; intros a; cbn [ReadRowData_loop].
  - apply ensures_diverges.
  - assert (Hsec : forall rd : ST vtkDataReader (Z * vtkDataSetAttributes),
      ensures rd (fun p _ => attributes_kept a (snd p)) ->
      ensures
        (bind rd (fun p => let '(rc, a') := p in
                   if rc =? 0 then ret (0, a')
                   else ReadRowData_loop X fuel a' numEdges))
        (fun p _ => attributes_kept a (snd p))).
    { intros rd Hrd. eapply ensures_bind_with; [exact Hrd|].
      intros [rc a1] s1 H1. cbn [snd] in H1.
      destruct (rc =? 0).
      - apply ensures_ret; intros ?. exact H1.
      - intros x s' E. eapply attributes_kept_trans; [exact H1|].
        exact (IH a1 s1 x s' E). }
    apply ensures_bind. intros tok. destruct tok as [line0|].
    + destruct (strncmp0 _ (bytes_of "scalars") 7);
        [apply Hsec; apply ReadScalarData_kept|].
      destruct (strncmp0 _ (bytes_of "vectors") 7);
        [apply Hsec; apply ReadVectorData_kept|].
      destruct (strncmp0 _ (bytes_of "tensors6") 8);
        [apply Hsec; apply ReadTensorData_kept|].
      destruct (strncmp0 _ (bytes_of "tensors") 7);
        [apply Hsec; apply ReadTensorData_kept|].
      destruct (strncmp0 _ (bytes_of "normals") 7);
        [apply Hsec; apply ReadNormalData_kept|].
      destruct (strncmp0 _ (bytes_of "texture_coordinates") 19);
        [apply Hsec; apply ReadTCoordsData_kept|].
      destruct (strncmp0 _ (bytes_of "global_ids") 10);
        [apply Hsec; apply ReadGlobalIds_kept|].
      destruct (strncmp0 _ (bytes_of "pedigree_ids") 12);
        [apply Hsec; apply ReadPedigreeIds_kept|].
      destruct (strncmp0 _ (bytes_of "color_scalars") 13);
        [apply Hsec; apply ReadCoScalarData_kept|].
      destruct (strncmp0 _ (bytes_of "lookup_table") 12);
        [apply Hsec; apply ReadLutData_kept|].
      destruct (strncmp0 _ (bytes_of "field") 5).
      * apply ensures_bind. intros f. destruct f as [f|].
        -- intros s x s' E. eapply attributes_kept_trans;
             [apply attributes_kept_fold_AddArray | exact (IH _ s x s' E)].
        -- apply ensures_ret; intros ?. apply attributes_kept_refl.
      * apply ensures_ret; intros ?. apply attributes_kept_refl.
    + apply ensures_ret; intros ?. apply attributes_kept_refl.
Qed.

End KeptRow.

(** X14.  ReadRowData calls a [Set...] function of the row data only for
    an attribute that the row data does not hold yet.  With the
    attributes as modelled here (one slot per kind, that only its
    [Set...] function fills, and [AddArray] appending), whatever the file
    holds and whatever the value returned, every attribute that the row
    data held before the call is the one it holds afterwards, with the
    same name and values (the scalars may have received a lookup table),
    and the extra arrays it held are still there, in front of the ones
    added. *)
Theorem ReadRowData_keeps_attributes (X : Externals)
  (a a' : vtkDataSetAttributes) (numEdges rc : Z) (r r' : vtkDataReader) :
  ReadRowData X a numEdges r = Ret ((rc, a'), r') ->
  attributes_kept a a'.
Proof.
  unfold ReadRowData. intros H.
  destruct (IS r) as [s|]; [|discriminate H].
  exact (ReadRowData_loop_kept X numEdges _ a r (rc, a') r' H).
Qed.

Lemma ReadRowData_keeps_attributes_witness :
  attributes_kept row_example_before (snd (fst row_example_run)).
Proof.
  apply (ReadRowData_keeps_attributes example_externals row_example_before
           (snd (fst row_example_run)) 1 (fst (fst row_example_run))
           row_example_reader (snd row_example_run)).
  vm_compute. reflexivity.
Defined.

Lemma ReadString_None_failed (s s' : istream) :
  ReadString s = Ret (None, s') -> fail s' = true.
Proof.
  unfold ReadString, lift, extract_word.
  destruct (sentry s) as [ok s1] eqn:Es. destruct ok.
  - destruct (span_n 255 (fun c => negb (isspace c)) (rest s1)) as [tok rem].
    match goal with |- context [setstate ?e ?f ?t] =>
      destruct (fail (setstate e f t)) eqn:Ef end.
    + intros [= <-]. exact Ef.
    + cbn [option_map]. discriminate.
  - pose proof (sentry_false _ _ Es) as F. rewrite F. intros [= <-]. exact F.
Qed.

Lemma onIS_ReadString_None :
  ensures (onIS ReadString) (fun tok r => tok = None -> stream_failed r).
Proof.
  intros r tok r' E Htok. subst tok.
  destruct (onIS_inv _ _ _ _ E) as (s & s1 & _ & Em & ->).
  exists s1. split; [reflexivity | exact (ReadString_None_failed _ _ Em)].
Qed.

Lemma ReadRowData_loop_result (X : Externals) (numEdges : Z) (fuel : nat) :
  forall a, ensures (ReadRowData_loop X fuel a numEdges)
                    (fun p r => (fst p = 0 \/ fst p = 1)
                                /\ (fst p = 1 -> stream_failed r)).
Proof.
  induction fuel as [|fuel IH]; intros a; cbn [ReadRowData_loop].
  - apply ensures_diverges.
  - assert (Hsec : forall rd : ST vtkDataReader (Z * vtkDataSetAttributes),
      ensures
        (bind rd (fun p => let '(rc, a') := p in
                   if rc =? 0 then ret (0, a')
                   else ReadRowData_loop X fuel a' numEdges))
        (fun p r => (fst p = 0 \/ fst p = 1)
                    /\ (fst p = 1 -> stream_failed r))).
    { intros rd. apply ensures_bind. intros [rc a1].
      destruct (rc =? 0).
      - apply ensures_ret. intros s. cbn [fst].
        split; [left; reflexivity | discriminate].
      - apply IH. }
    eapply ensures_bind_with; [apply onIS_ReadString_None|].
    intros tok r1 Htok. destruct tok as [line0|].
    + repeat match goal with
        | |- forall y s', (if ?b then _ else _) _ = _ -> _ => destruct b
        end; try apply Hsec.
      * apply ensures_bind. intros f. destruct f as [f|].
        -- apply IH.
        -- apply ensures_ret. intros s. cbn [fst].
           split; [left; reflexivity | discriminate].
      * apply ensures_ret. intros s. cbn [fst].
        split; [left; reflexivity | discriminate].
    + intros y s' [= <- <-]. cbn [fst].
      split; [right; reflexivity | intros _; apply Htok; reflexivity].
Qed.

(** X15.  ReadRowData returns 0 or 1, and there is no keyword that ends
    the row data: the value 1 is returned only when reading the next
    keyword failed, which leaves the stream failed: row data that is
    read with success is the last thing that the input holds. *)
Theorem ReadRowData_result (X : Externals) (a a' : vtkDataSetAttributes)
  (numEdges rc : Z) (r r' : vtkDataReader) :
  ReadRowData X a numEdges r = Ret ((rc, a'), r') ->
  (rc = 0 \/ rc = 1) /\ (rc = 1 -> stream_failed r').
Proof.
  unfold ReadRowData. intros H.
  destruct (IS r) as [s|]; [|discriminate H].
  exact (ReadRowData_loop_result X numEdges _ a r (rc, a') r' H).
Qed.

Lemma ReadRowData_result_witness :
  (fst (fst row_example_run) = 0 \/ fst (fst row_example_run) = 1)
  /\ (fst (fst row_example_run) = 1 -> stream_failed (snd row_example_run)).
Proof.
  apply (ReadRowData_result example_externals row_example_before
           (snd (fst row_example_run)) 1 (fst (fst row_example_run))
           row_example_reader (snd row_example_run)).
  vm_compute. reflexivity.
Defined.

(** ** The shape of what the sections install *)

Lemma ensures_bind_pure {S A B} (m : ST S A) (k : A -> ST S B)
  (Q : A -> Prop) (P : B -> S -> Prop) :
  ensures m (fun x _ => Q x) -> (forall x, Q x -> ensures (k x) P) ->
  ensures (bind m k) P.
Proof.
  intros Hm H. eapply ensures_bind_with; [exact Hm|].
  intros x s1 HQ y s' E. exact (H x HQ s1 y s' E).
Qed.

Lemma ReadArray_this_shape (X : Externals) (line : list Z) (n k : Z) :
  0 <= n ->
  ensures (ReadArray_this X line n k)
    (fun o _ => forall d, o = Some d ->
       length (Values d) = Z.to_nat (n * k)
       /\ NumberOfComponents d = Z.max 1 k).
Proof.
  intros Hn r o r' E d ->. unfold ReadArray_this in E.
  destruct (onIS_inv _ _ _ _ E) as (s & s1 & _ & Em & _).
  revert Em. unfold ReadArray.
  destruct (Z.ltb_spec n 0); [lia|].
  destruct (Z.ltb_spec k 0) as [|Hk]; [discriminate|].
  cbn [orb]. unfold bind at 1.
  destruct (ReadArray_data X (FileType r) _ n k s)
    as [[[array|] s0]| |] eqn:ED; try discriminate.
  unfold bind at 1.
  destruct (ReadArray_tail X k array s0) as [[array' s2]| |] eqn:ET;
    try discriminate.
  unfold ret. intros [= <- _].
  destruct (ReadArray_data_shape _ _ _ _ _ _ _ _ Hn Hk ED) as (H1 & H2 & _).
  destruct (ReadArray_tail_keeps _ _ _ _ _ _ ET) as [_ HV].
  destruct (ReadArray_tail_keeps_shape _ _ _ _ _ _ ET) as [_ HNc].
  rewrite HV, HNc. auto.
Qed.

Lemma DownCast_Some (o : option vtkAbstractArray) (d : vtkAbstractArray) :
  DownCast_vtkDataArray o = Some d ->
  o = Some d /\ is_vtkDataArray (Class d) = true.
Proof.
  unfold DownCast_vtkDataArray. destruct o as [d0|]; [|discriminate].
  destruct (is_vtkDataArray (Class d0)) eqn:E; [|discriminate].
  intros [= <-]. split; [reflexivity | exact E].
Qed.

Lemma array_shaped_read (n k : Z) (da : bool) (comps : Z -> Prop)
  (d : vtkAbstractArray) (name : list Z) :
  1 <= k -> comps k -> (da = true -> is_vtkDataArray (Class d) = true) ->
  length (Values d) = Z.to_nat (n * k) /\ NumberOfComponents d = Z.max 1 k ->
  array_shaped n da comps (SetName d name).
Proof.
  intros Hk Hc Hda [HL HN]. unfold array_shaped.
  cbn [SetName Name Class NumberOfComponents Values].
  replace (Z.max 1 k) with k in HN by lia. rewrite HN.
  split; [discriminate|]. split; [exact Hda|]. split; [exact Hc | exact HL].
Qed.

Ltac shaped_slots H :=
  destruct H as (HS & HV & HN & HT & HC & HG & HP & HA);
  refine (conj _ (conj _ (conj _ (conj _ (conj _ (conj _ (conj _ _)))))));
  cbn; try assumption;
  try (intros ? [= <-]; assumption).

Lemma shaped_AddArray n a d :
  attributes_shaped n a -> Name d <> None ->
  attributes_shaped n (AddArray a d).
Proof.
  intros H Hd. shaped_slots H.
  apply Forall_app. split; [exact HA|]. constructor; [exact Hd | constructor].
Qed.

Lemma shaped_SetScalars n a d :
  attributes_shaped n a ->
  Name d <> None /\ is_vtkDataArray (Class d) = true
  /\ 1 <= NumberOfComponents d ->
  attributes_shaped n (SetScalars a d).
Proof. intros H Hd. shaped_slots H. Qed.

Lemma shaped_SetVectors n a d :
  attributes_shaped n a -> array_shaped n true (fun k => k = 3) d ->
  attributes_shaped n (SetVectors a d).
Proof. intros H Hd. shaped_slots H. Qed.

Lemma shaped_SetNormals n a d :
  attributes_shaped n a -> array_shaped n true (fun k => k = 3) d ->
  attributes_shaped n (SetNormals a d).
Proof. intros H Hd. shaped_slots H. Qed.

Lemma shaped_SetTensors n a d :
  attributes_shaped n a -> array_shaped n true (fun k => k = 6 \/ k = 9) d ->
  attributes_shaped n (SetTensors a d).
Proof. intros H Hd. shaped_slots H. Qed.

Lemma shaped_SetTCoords n a d :
  attributes_shaped n a -> array_shaped n true (fun k => 1 <= k <= 3) d ->
  attributes_shaped n (SetTCoords a d).
Proof. intros H Hd. shaped_slots H. Qed.

Lemma shaped_SetGlobalIds n a d :
  attributes_shaped n a -> array_shaped n true (fun k => k = 1) d ->
  attributes_shaped n (SetGlobalIds a d).
Proof. intros H Hd. shaped_slots H. Qed.

Lemma shaped_SetPedigreeIds n a d :
  attributes_shaped n a -> array_shaped n false (fun k => k = 1) d ->
  attributes_shaped n (SetPedigreeIds a d).
Proof. intros H Hd. shaped_slots H. Qed.

Lemma shaped_install n skip readAll set a d :
  attributes_shaped n a -> Name d <> None ->
  attributes_shaped n (set a d) ->
  attributes_shaped n (install skip readAll set a d).
Proof.
  intros H Hd Hset. unfold install. destruct (negb skip); [exact Hset|].
  destruct readAll; [apply shaped_AddArray; assumption | exact H].
Qed.

Ltac shaped_step :=
  match goal with
  | |- ensures (bind (ReadArray_this _ _ _ _) _) _ =>
      eapply ensures_bind_pure;
      [apply ReadArray_this_shape; assumption | intros ? ?]
  | |- ensures (match DownCast_vtkDataArray ?x with _ => _ end) _ =>
      let E := fresh "EDC" in
      destruct (DownCast_vtkDataArray x) eqn:E;
      [apply DownCast_Some in E; destruct E as [-> ?]|]
  | _ => ensures_step
  end.

Section Shaped.
Variable X : Externals.
Variable n : Z.
Hypothesis Hn : 0 <= n.

Lemma ReadAttributeData_shaped slot filter readAll set
  (a : vtkDataSetAttributes) (k : Z) (comps : Z -> Prop) :
  1 <= k -> comps k ->
  (forall d, array_shaped n true comps d -> attributes_shaped n (set a d)) ->
  attributes_shaped n a ->
  ensures (ReadAttributeData X slot filter readAll set a n k)
          (fun p _ => attributes_shaped n (snd p)).
Proof.
  intros Hk Hc Hset Ha. unfold ReadAttributeData.
  repeat shaped_step; cbn [snd]; try exact Ha.
  apply shaped_install; [exact Ha | discriminate |].
  apply Hset. apply (array_shaped_read n k); auto.
Qed.

Lemma ReadTCoordsData_shaped (a : vtkDataSetAttributes) :
  attributes_shaped n a ->
  ensures (ReadTCoordsData X a n) (fun p _ => attributes_shaped n (snd p)).
Proof.
  intros Ha. unfold ReadTCoordsData.
  repeat shaped_step; cbn [snd]; try exact Ha.
  match goal with
  | H : (?dim <? 1) || (?dim >? 3) = false |- _ =>
      apply orb_false_iff in H; destruct H as [H1 H3];
      apply Z.ltb_ge in H1; rewrite Z.gtb_ltb in H3; apply Z.ltb_ge in H3
  end.
  apply shaped_install; [exact Ha | discriminate |].
  apply shaped_SetTCoords; [exact Ha|].
  eapply array_shaped_read; eauto.
Qed.

Lemma ReadIds_shaped (downcast : bool) slot set (a : vtkDataSetAttributes) :
  (forall d, array_shaped n downcast (fun k => k = 1) d ->
             attributes_shaped n (set a d)) ->
  attributes_shaped n a ->
  ensures (ReadIds X downcast slot set a n)
          (fun p _ => attributes_shaped n (snd p)).
Proof.
  intros Hset Ha. unfold ReadIds.
  repeat shaped_step; cbn [snd]; try exact Ha.
  apply shaped_install; [exact Ha | discriminate |].
  match goal with
  | H : (if downcast then DownCast_vtkDataArray ?o else ?o) = Some ?v |- _ =>
      assert (Hv : o = Some v
                   /\ (downcast = true -> is_vtkDataArray (Class v) = true))
        by (destruct downcast;
            [apply DownCast_Some in H; destruct H; auto
            |split; [exact H | discriminate]])
  end.
  destruct Hv as [Hx Hc].
  apply Hset. apply (array_shaped_read n 1); auto; lia.
Qed.

Lemma ReadScalarData_shaped (a : vtkDataSetAttributes) :
  attributes_shaped n a ->
  ensures (ReadScalarData X a n) (fun p _ => attributes_shaped n (snd p)).
Proof.
  intros Ha. unfold ReadScalarData.
  repeat (lazymatch goal with
          | |- ensures (bind (if _ then _ else _) _) _ => fail
          | _ => shaped_step
          end);
    try exact Ha.
  eapply (ensures_bind_pure _ _
            (fun h => forall nc k, h = Some (nc, k) -> 1 <= nc)).
  { repeat shaped_step; cbv beta; intros nc k Hh; try discriminate Hh.
    - match goal with
      | H : option_map _ ?o = Some _ |- _ =>
          destruct o; cbn [option_map] in H; [|discriminate H];
          injection H as <- _
      end.
      match goal with H : (_ <? 1) = false |- _ => apply Z.ltb_ge in H end.
      assumption.
    - injection Hh as <- _. lia. }
  intros header Hh.
  repeat shaped_step; cbn [snd]; try exact Ha.
  apply shaped_install; [exact Ha | discriminate |].
  apply shaped_SetScalars; [exact Ha|].
  cbn [SetName Name Class NumberOfComponents].
  split; [discriminate|]. split; [assumption|].
  match goal with
  | H : forall d, Some ?v = Some d -> _ |- _ =>
      destruct (H v eq_refl) as [_ ->]
  end.
  lia.
Qed.

Lemma ReadArray_this_unsigned_char (k : Z) :
  ensures (ReadArray_this X (bytes_of "unsigned_char") n k)
    (fun o _ => forall d, o = Some d ->
       is_vtkDataArray (Class d) = true /\ 1 <= NumberOfComponents d).
Proof.
  intros r o r' E d ->.
  pose proof (ReadArray_this_shape X _ n k Hn r _ r' E d eq_refl) as [_ HC].
  unfold ReadArray_this in E.
  destruct (onIS_inv _ _ _ _ E) as (s & s1 & _ & Em & _).
  destruct (ReadArray_inv _ _ _ _ _ _ _ _ Em)
    as (_ & _ & array & s0 & ED & EC & _).
  rewrite ReadArray_data_unsigned_char in ED.
  unfold bind in ED. destruct (read_fixed _ _ _ _ _ _ _) as [[vs s2]| |];
    try discriminate ED.
  injection ED as <- _. rewrite EC, HC. split; [reflexivity | lia].
Qed.

Lemma ReadCoScalarData_shaped (a : vtkDataSetAttributes) :
  attributes_shaped n a ->
  ensures (ReadCoScalarData X a n) (fun p _ => attributes_shaped n (snd p)).
Proof.
  intros Ha. unfold ReadCoScalarData.
  repeat (lazymatch goal with
          | |- ensures (if _ =? VTK_BINARY then _ else _) _ => fail
          | _ => shaped_step
          end);
    try exact Ha.
  destruct (_ =? VTK_BINARY).
  - eapply ensures_bind_pure; [apply ReadArray_this_unsigned_char|].
    intros data Hd. destruct data as [data|].
    + apply ensures_ret. intros _. cbn [snd].
      apply shaped_install; [exact Ha | discriminate |].
      apply shaped_SetScalars; [exact Ha|].
      cbn [SetName Name Class NumberOfComponents].
      split; [discriminate | exact (Hd data eq_refl)].
    + apply ensures_ret. intros _. exact Ha.
  - repeat shaped_step; cbn [snd]; try exact Ha.
    apply shaped_install; [exact Ha | discriminate |].
    apply shaped_SetScalars; [exact Ha|].
    cbn [SetName SetValues New Name Class NumberOfComponents].
    split; [discriminate|]. split; [reflexivity | lia].
Qed.

Lemma ReadLutData_shaped (a : vtkDataSetAttributes) :
  attributes_shaped n a ->
  ensures (ReadLutData X a) (fun p _ => attributes_shaped n (snd p)).
Proof.
  intros Ha. unfold ReadLutData.
  repeat shaped_step; cbn [snd]; try exact Ha.
  match goal with
  | H : Scalars a = Some ?sc |- _ =>
      pose proof Ha as (HS & HV & HN & HT & HC & HG & HP & HA);
      specialize (HS sc H)
  end.
  refine (conj _ (conj _ (conj _ (conj _ (conj _ (conj _ (conj _ _)))))));
    cbn; try assumption.
  intros d [= <-]. exact HS.
Qed.

End Shaped.

Section ShapedRow.
Variable X : Externals.

Lemma ConvertGhostLevelsToGhostType_named (this : vtkDataReader)
  (fieldType : FieldType) (data data' : vtkAbstractArray) :
  Name data <> None ->
  ConvertGhostLevelsToGhostType X this fieldType data = Ret data' ->
  Name data' <> None.
Proof.
  intros Hd. unfold ConvertGhostLevelsToGhostType. cbv zeta.
  destruct (_ && _).
  - destruct (Name data) as [name|] eqn:EN; [|discriminate].
    destruct (strcmp0 name _); intros [= <-].
    + discriminate.
    + rewrite EN. discriminate.
  - intros [= <-]. exact Hd.
Qed.

Lemma ReadFieldData_loop_named (fieldType : FieldType) (skipField : bool)
  (k : nat) :
  forall loc f, Forall (fun d => Name d <> None) f ->
    ensures (ReadFieldData_loop X k fieldType skipField loc f)
      (fun o _ => forall l, o = Some l -> Forall (fun d => Name d <> None) l).
Proof.
  induction k as [|k IH]; intros loc f Hf; cbn [ReadFieldData_loop].
  - apply ensures_ret. intros _ l [= <-]. exact Hf.
  - repeat (lazymatch goal with
            | |- ensures (ReadFieldData_loop _ _ _ _ _ _) _ => fail
            | |- ensures (bind (of_outcome _) _) _ => fail
            | _ => ensures_step
            end);
      try (apply IH; exact Hf); try discriminate.
    intros r y r' E. unfold bind, of_outcome in E.
    destruct (ConvertGhostLevelsToGhostType X _ fieldType _)
      as [data'| |] eqn:EC; try discriminate E.
    apply ConvertGhostLevelsToGhostType_named in EC; [|discriminate].
    refine (IH _ _ _ _ _ _ E).
    apply Forall_app. split; [exact Hf|]. constructor; [exact EC|constructor].
Qed.

Lemma ReadFieldData_named (fieldType : FieldType) :
  ensures (ReadFieldData X fieldType)
    (fun o _ => forall l, o = Some l -> Forall (fun d => Name d <> None) l).
Proof.
  unfold ReadFieldData.
  repeat (lazymatch goal with
          | |- ensures (bind (ReadFieldData_loop _ _ _ _ _ _) _) _ => fail
          | _ => ensures_step
          end); try discriminate.
  eapply ensures_bind_pure; [apply ReadFieldData_loop_named; constructor|].
  intros res Hres. cbv beta in Hres.
  repeat ensures_step; try discriminate.
  intros fd [= <-]. apply Hres. reflexivity.
Qed.

Lemma shaped_fold_AddArray (n : Z) (f : list vtkAbstractArray) :
  Forall (fun d => Name d <> None) f ->
  forall a, attributes_shaped n a ->
            attributes_shaped n (fold_left AddArray f a).
Proof.
  induction 1 as [|d f Hd Hf IH]; intros a Ha; cbn [fold_left].
  - exact Ha.
  - apply IH. apply shaped_AddArray; assumption.
Qed.

Section ShapedSections.
Variable n : Z.
Hypothesis Hn : 0 <= n.
Variable a : vtkDataSetAttributes.
Hypothesis Ha : attributes_shaped n a.

Lemma ReadVectorData_shaped :
  ensures (ReadVectorData X a n) (fun p _ => attributes_shaped n (snd p)).
Proof.
  refine (ReadAttributeData_shaped X n Hn Vectors VectorsName ReadAllVectors
            SetVectors a 3 (fun k => k = 3) _ eq_refl _ Ha); [lia|].
  intros d0 Hd0. apply shaped_SetVectors; assumption.
Qed.

Lemma ReadNormalData_shaped :
  ensures (ReadNormalData X a n) (fun p _ => attributes_shaped n (snd p)).
Proof.
  refine (ReadAttributeData_shaped X n Hn Normals NormalsName ReadAllNormals
            SetNormals a 3 (fun k => k = 3) _ eq_refl _ Ha); [lia|].
  intros d0 Hd0. apply shaped_SetNormals; assumption.
Qed.

Lemma ReadTensorData_shaped (k : Z) :
  k = 6 \/ k = 9 ->
  ensures (ReadTensorData X a n k) (fun p _ => attributes_shaped n (snd p)).
Proof.
  intros Hk.
  refine (ReadAttributeData_shaped X n Hn Tensors TensorsName ReadAllTensors
            SetTensors a k (fun k => k = 6 \/ k = 9) _ Hk _ Ha); [lia|].
  intros d0 Hd0. apply shaped_SetTensors; assumption.
Qed.

Lemma ReadGlobalIds_shaped :
  ensures (ReadGlobalIds X a n) (fun p _ => attributes_shaped n (snd p)).
Proof.
  refine (ReadIds_shaped X n Hn true GlobalIds SetGlobalIds a _ Ha).
  intros d0 Hd0. apply shaped_SetGlobalIds; assumption.
Qed.

Lemma ReadPedigreeIds_shaped :
  ensures (ReadPedigreeIds X a n) (fun p _ => attributes_shaped n (snd p)).
Proof.
  refine (ReadIds_shaped X n Hn false PedigreeIds SetPedigreeIds a _ Ha).
  intros d0 Hd0. apply shaped_SetPedigreeIds; assumption.
Qed.

End ShapedSections.

Lemma ReadRowData_loop_shaped (numEdges : Z) (fuel : nat) :
  0 <= numEdges ->
  forall a, attributes_shaped numEdges a ->
    ensures (ReadRowData_loop X fuel a numEdges)
            (fun p _ => attributes_shaped numEdges (snd p)).
Proof.
  intros Hn.
  induction fuel as [|fuel IH]; intros a Ha; cbn [ReadRowData_loop].
  - apply ensures_diverges.
  - assert (Hsec : forall rd : ST vtkDataReader (Z * vtkDataSetAttributes),
      ensures rd (fun p _ => attributes_shaped numEdges (snd p)) ->
      ensures
        (bind rd (fun p => let '(rc, a') := p in
                   if rc =? 0 then ret (0, a')
                   else ReadRowData_loop X fuel a' numEdges))
        (fun p _ => attributes_shaped numEdges (snd p))).
    { intros rd Hrd.
      eapply (ensures_bind_pure _ _
                (fun p => attributes_shaped numEdges (snd p)));
        [exact Hrd|].
      intros [rc a1] H1. cbn [snd] in H1.
      destruct (rc =? 0).
      - apply ensures_ret. intros _. exact H1.
      - apply IH. exact H1. }
    apply ensures_bind. intros tok. destruct tok as [line0|].
    + destruct (strncmp0 _ (bytes_of "scalars") 7);
        [apply Hsec; apply ReadScalarData_shaped; assumption|].
      destruct (strncmp0 _ (bytes_of "vectors") 7);
        [apply Hsec; apply ReadVectorData_shaped; assumption|].
      destruct (strncmp0 _ (bytes_of "tensors6") 8);
        [apply Hsec; apply ReadTensorData_shaped; [assumption..|lia]|].
      destruct (strncmp0 _ (bytes_of "tensors") 7);
        [apply Hsec; apply ReadTensorData_shaped; [assumption..|lia]|].
      destruct (strncmp0 _ (bytes_of "normals") 7);
        [apply Hsec; apply ReadNormalData_shaped; assumption|].
      destruct (strncmp0 _ (bytes_of "texture_coordinates") 19);
        [apply Hsec; apply ReadTCoordsData_shaped; assumption|].
      destruct (strncmp0 _ (bytes_of "global_ids") 10);
        [apply Hsec; apply ReadGlobalIds_shaped; assumption|].
      destruct (strncmp0 _ (bytes_of "pedigree_ids") 12);
        [apply Hsec; apply ReadPedigreeIds_shaped; assumption|].
      destruct (strncmp0 _ (bytes_of "color_scalars") 13);
        [apply Hsec; apply ReadCoScalarData_shaped; assumption|].
      destruct (strncmp0 _ (bytes_of "lookup_table") 12);
        [apply Hsec; apply ReadLutData_shaped; assumption|].
      destruct (strncmp0 _ (bytes_of "field") 5).
      * eapply ensures_bind_pure; [apply ReadFieldData_named|].
        intros f Hf. destruct f as [f|].
        -- apply IH. apply shaped_fold_AddArray; [|exact Ha].
           apply Hf. reflexivity.
        -- apply ensures_ret. intros _. exact Ha.
      * apply ensures_ret. intros _. exact Ha.
    + apply ensures_ret. intros _. exact Ha.
Qed.

End ShapedRow.

(** X16.  What ReadRowData puts into the row data has the shape that the
    sections give it: for numEdges rows, the vectors and the normals are
    arrays of 3 components, the tensors of 6 or 9, the texture
    coordinates of 1 to 3, the global and the pedigree ids of 1, each with
    numEdges tuples; the scalars have at least one component; all of
    these but the pedigree ids are [vtkDataArray]s; and every array, the
    extra arrays included, has a name.  Row data of that shape, the empty
    one to begin with, keeps it through the call, whatever the file holds
    and whatever the value returned. *)
Theorem ReadRowData_keeps_shape (X : Externals)
  (a a' : vtkDataSetAttributes) (numEdges rc : Z) (r r' : vtkDataReader) :
  0 <= numEdges -> attributes_shaped numEdges a ->
  ReadRowData X a numEdges r = Ret ((rc, a'), r') ->
  attributes_shaped numEdges a'.
Proof.
  unfold ReadRowData. intros Hn Ha H.
  destruct (IS r) as [s|]; [|discriminate H].
  exact (ReadRowData_loop_shaped X numEdges _ Hn a Ha r (rc, a') r' H).
Qed.

Lemma ReadRowData_keeps_shape_witness :
  attributes_shaped 1 (snd (fst row_example_run)).
Proof.
  apply (ReadRowData_keeps_shape example_externals row_example_before
           (snd (fst row_example_run)) 1 (fst (fst row_example_run))
           row_example_reader (snd row_example_run)).
  - lia.
  - refine (conj _ (conj _ (conj _ (conj _ (conj _ (conj _ (conj _ _)))))));
      try (intros d; discriminate).
    + intros d [= <-]. cbn. split; [discriminate|]. split; [reflexivity|lia].
    + constructor.
  - vm_compute. reflexivity.
Defined.

(** ** SetInputString *)

Lemma cstr_In_0 (l : list Z) : In 0 l -> exists t, l = cstr l ++ 0 :: t.
Proof.
  induction l as [|c l IH]; intros H; [destruct H|].
  cbn [cstr]. destruct (Z.eqb_spec c 0) as [->|Hc].
  - exists l. reflexivity.
  - destruct H as [H|H]; [congruence|].
    destruct (IH H) as [t E]. exists t. cbn [app]. f_equal. exact E.
Qed.

Lemma strncmp_mem_spec (a : list Z) :
  forall (b : list Z) (n : Z),
    0 <= n <= Z.of_nat (length a) -> In 0 b ->
    strncmp_mem a b n
    = Some (bytes_eqb (firstn (Z.to_nat n) (cstr a))
                      (firstn (Z.to_nat n) (cstr b))).
Proof.
  induction a as [|x a IH]; intros b n Hn Hb.
  - cbn [length] in Hn. assert (n = 0) by lia. subst n. reflexivity.
  - cbn [strncmp_mem]. destruct (Z.leb_spec n 0) as [H0|H0].
    + assert (n = 0) by lia. subst n. reflexivity.
    + destruct b as [|y b]; [destruct Hb|].
      replace (Z.to_nat n) with (S (Z.to_nat (n - 1))) by lia.
      cbn [cstr]. destruct (Z.eqb_spec x y) as [<-|Hxy].
      * destruct (Z.eqb_spec x 0) as [->|Hx]; [reflexivity|].
        cbn [firstn bytes_eqb]. rewrite Z.eqb_refl. cbn [andb].
        apply IH.
        -- cbn [length] in Hn. lia.
        -- destruct Hb as [Hb|Hb]; [congruence | exact Hb].
      * destruct (Z.eqb_spec x 0) as [->|Hx];
          destruct (Z.eqb_spec y 0) as [->|Hy];
          try congruence; cbn [firstn bytes_eqb]; try reflexivity.
        destruct (Z.eqb_spec x y); [congruence | reflexivity].
Qed.

Lemma cstr_app_nul (l : list Z) : cstr (l ++ [0]) = cstr l.
Proof.
  induction l as [|c l IH]; [reflexivity|].
  cbn [app cstr]. destruct (c =? 0); [reflexivity | f_equal; exact IH].
Qed.

(** The call in closed form, for a stored input and a buffer that holds
    [len] bytes. *)
Lemma SetInputString_eq (m : input_members) (cur i : list Z) (len : Z) :
  InputString m = Some (cur ++ [0]) ->
  0 <= len <= Z.of_nat (length i) ->
  SetInputString (Some i) len m
  = if bytes_eqb (firstn (Z.to_nat len) (cstr i))
                 (firstn (Z.to_nat len) (cstr cur))
    then Ret m
    else Ret (mkInput (Some (firstn (Z.to_nat len) i ++ [0])) len
                      (S (MTime m))).
Proof.
  intros Hm Hlen. unfold SetInputString. rewrite Hm.
  assert (Hs : size_t_of_int len = len).
  { unfold size_t_of_int. destruct (Z.ltb_spec len 0); [lia | reflexivity]. }
  rewrite Hs, (strncmp_mem_spec i (cur ++ [0]) len Hlen), cstr_app_nul.
  2:{ apply in_or_app. right. left. reflexivity. }
  destruct (bytes_eqb _ _) eqn:Eb; [reflexivity|].
  unfold replace_InputString.
  assert (0 < len).
  { destruct (Z.eq_dec len 0) as [->|]; [|lia]. discriminate Eb. }
  destruct (Z.ltb_spec 0 len); [|lia].
  destruct (Z.leb_spec len (Z.of_nat (length i))); [reflexivity | lia].
Qed.

(** X17.  SetInputString(in, len), and so SetBinaryInputString, compares
    the new input with the stored one by [strncmp]: when the two agree, as
    C strings, on their first [len] characters, the call changes nothing
    and does not mark the reader modified; otherwise the first [len]
    bytes of [in] are stored, with a terminator.  So a binary input that
    agrees with the stored one up to its first NUL byte is ignored, and so
    is every input with [len = 0]: an empty input does not clear a stored
    one. *)
Theorem SetInputString_strncmp (m : input_members) (cur i : list Z)
  (len : Z) :
  InputString m = Some (cur ++ [0]) ->
  0 <= len <= Z.of_nat (length i) ->
  (firstn (Z.to_nat len) (cstr i) = firstn (Z.to_nat len) (cstr cur) ->
   SetInputString (Some i) len m = Ret m)
  /\ (firstn (Z.to_nat len) (cstr i) <> firstn (Z.to_nat len) (cstr cur) ->
      SetInputString (Some i) len m
      = Ret (mkInput (Some (firstn (Z.to_nat len) i ++ [0])) len
                     (S (MTime m))))
  /\ (len = 0 -> SetInputString (Some i) len m = Ret m).
Proof.
  intros Hm Hlen. rewrite (SetInputString_eq m cur i len Hm Hlen).
  split; [|split].
  - intros H. apply bytes_eqb_eq in H. rewrite H. reflexivity.
  - intros H.
    destruct (bytes_eqb _ _) eqn:Eb; [|reflexivity].
    apply bytes_eqb_eq in Eb. contradiction.
  - intros ->. reflexivity.
Qed.

Lemma SetInputString_strncmp_witness :
  SetInputString (Some (bytes_of "abc" ++ [0] ++ bytes_of "new")) 7
                 input_example
  = Ret input_example.
Proof.
  refine (proj1 (SetInputString_strncmp input_example
                   (bytes_of "abc" ++ [0] ++ bytes_of "old")
                   (bytes_of "abc" ++ [0] ++ bytes_of "new") 7 _ _) _).
  - reflexivity.
  - vm_compute. split; discriminate.
  - reflexivity.
Defined.

Lemma strlen_app_nul (s : list Z) :
  ~ In 0 s -> strlen (s ++ [0]) = Some (Z.of_nat (length s)).
Proof.
  induction s as [|c s IH]; intros H; [reflexivity|].
  cbn [app strlen length]. destruct (Z.eqb_spec c 0) as [->|Hc].
  - exfalso. apply H. left. reflexivity.
  - rewrite IH by (intros Hin; apply H; right; exact Hin).
    cbn [option_map]. f_equal. lia.
Qed.

(** X18.  SetInputString(in) takes the length of the new string for the
    number of characters to compare: a new string that is a prefix of the
    stored one, the empty string included, is ignored, and the longer
    string stays the input of the reader; any other string replaces the
    stored one. *)
Theorem SetInputString_prefix_ignored (m : input_members)
  (cur s : list Z) :
  InputString m = Some (cur ++ [0]) ->
  ~ In 0 s -> Z.of_nat (length s) < 2 ^ 31 ->
  ((exists t, cstr cur = s ++ t) ->
   SetInputString_cstr (Some (s ++ [0])) m = Ret m)
  /\ (~ (exists t, cstr cur = s ++ t) ->
      SetInputString_cstr (Some (s ++ [0])) m
      = Ret (mkInput (Some (s ++ [0])) (Z.of_nat (length s)) (S (MTime m)))).
Proof.
  intros Hm Hs Hlen. unfold SetInputString_cstr.
  rewrite (strlen_app_nul s Hs).
  assert (E32 : to_signed 32 (Z.of_nat (length s) mod 2 ^ 32)
                = Z.of_nat (length s)).
  { rewrite Z.mod_small by lia. unfold to_signed.
    change (32 - 1) with 31.
    destruct (Z.ltb_spec (Z.of_nat (length s)) (2 ^ 31)); [reflexivity|lia]. }
  rewrite E32.
  rewrite (SetInputString_eq m cur (s ++ [0]) _ Hm)
    by (rewrite length_app; cbn [length]; lia).
  rewrite Nat2Z.id, cstr_app_nul, (cstr_no_nul s Hs).
  rewrite firstn_all, firstn_app, firstn_all, Nat.sub_diag.
  cbn [firstn]. rewrite app_nil_r.
  split.
  - intros [t Et]. rewrite Et, firstn_app, firstn_all, Nat.sub_diag.
    cbn [firstn]. rewrite app_nil_r, bytes_eqb_refl. reflexivity.
  - intros Hn. destruct (bytes_eqb _ _) eqn:Eb; [|reflexivity].
    exfalso. apply Hn. apply bytes_eqb_eq in Eb.
    exists (skipn (length s) (cstr cur)).
    rewrite Eb at 1. symmetry. apply firstn_skipn.
Qed.

Lemma SetInputString_prefix_ignored_witness :
  SetInputString_cstr (Some (bytes_of "ab" ++ [0])) input_example
  = Ret input_example.
Proof.
  refine (proj1 (SetInputString_prefix_ignored input_example
                   (bytes_of "abc" ++ [0] ++ bytes_of "old")
                   (bytes_of "ab") _ _ _) _).
  - reflexivity.
  - vm_compute. intros [H|[H|H]]; [discriminate H | discriminate H | exact H].
  - vm_compute. reflexivity.
  - exists (bytes_of "c"). reflexivity.
Defined.
